(** * Attendance audit store: a shallow embedding of [database.py] and
      [database_repair.py]

    The SQLite database is modelled as an explicit [Store] value that every
    function of the Python modules receives and returns.  A function that
    ends in [conn.rollback()] returns the store it was given; one that ends
    in [conn.commit()] returns the store after its statements.

    Tables are kept the way the code uses them:
    - [users] and [audits] are lists of rows in scan order, because neither
      table has a uniqueness constraint on [user_slack_id] and the code
      relies on [fetchone()] (the first row of the scan);
    - [acknowledgment_tokens] has [token TEXT PRIMARY KEY] and is a finite
      map from the token to the rest of its row.

    The declaration of [audits] matters to the code: the table of
    [init_database] has [id INTEGER PRIMARY KEY AUTOINCREMENT] and defaults,
    the table that [clean_duplicate_columns] leaves after a rebuild has
    neither.  The store records which of the two the file carries.

    Lock contention and I/O errors of the driver are not modelled. *)

From Stdlib Require Import ZArith List String Ascii Bool Lia DecimalString.
From stdpp Require Import base option gmap strings.
Import ListNotations.

Local Open Scope Z_scope.

(** ** Rows *)

(** A row of [users]; only the columns read by the modelled functions. *)
Module User.
Record row : Type := mk {
    user_slack_id : string;
    user_name : string;
    user_login_time : option string;
    supervisor_slack_id : option string;
    second_supervisor_slack_id : option string;
    supervisor_email_id : option string;
    second_supervisor_email_id : option string }.
End User.

(** A row of [audits], with the fifteen columns of [init_database].
    [None] is SQL NULL.  [init_database] declares [id INTEGER PRIMARY KEY
    AUTOINCREMENT]; in the table that [clean_duplicate_columns] rebuilds,
    [id] is an ordinary column and is NULL in every row inserted afterwards,
    which is why the code defends everywhere against rows whose [id] reads
    back as NULL.  A stored row therefore carries an optional identifier. *)
Module Audit.
Record row : Type := mk {
    id : option Z;
    user_slack_id : string;
    workday : string;
    login_time : option string;
    logout_time : option string;
    self_notified : option Z;
    supervisor_notified : option Z;
    second_supervisor_notified : option Z;
    is_supervisor_acknowledged : option Z;
    is_second_supervisor_acknowledged : option Z;
    last_supervisor_notification_time : option string;
    last_second_supervisor_notification_time : option string;
    expected_login_time : option string;
    email_supervisor_notified : option Z;
    email_second_supervisor_notified : option Z }.

Definition set_login_time (v : option string) (r : row) : row :=
    mk (id r) (user_slack_id r) (workday r) v (logout_time r)
       (self_notified r) (supervisor_notified r) (second_supervisor_notified r)
       (is_supervisor_acknowledged r) (is_second_supervisor_acknowledged r)
       (last_supervisor_notification_time r)
       (last_second_supervisor_notification_time r) (expected_login_time r)
       (email_supervisor_notified r) (email_second_supervisor_notified r).

Definition set_logout_time (v : option string) (r : row) : row :=
    mk (id r) (user_slack_id r) (workday r) (login_time r) v
       (self_notified r) (supervisor_notified r) (second_supervisor_notified r)
       (is_supervisor_acknowledged r) (is_second_supervisor_acknowledged r)
       (last_supervisor_notification_time r)
       (last_second_supervisor_notification_time r) (expected_login_time r)
       (email_supervisor_notified r) (email_second_supervisor_notified r).

Definition set_self_notified (v : option Z) (r : row) : row :=
    mk (id r) (user_slack_id r) (workday r) (login_time r) (logout_time r)
       v (supervisor_notified r) (second_supervisor_notified r)
       (is_supervisor_acknowledged r) (is_second_supervisor_acknowledged r)
       (last_supervisor_notification_time r)
       (last_second_supervisor_notification_time r) (expected_login_time r)
       (email_supervisor_notified r) (email_second_supervisor_notified r).

Definition set_supervisor_notified (v : option Z) (r : row) : row :=
    mk (id r) (user_slack_id r) (workday r) (login_time r) (logout_time r)
       (self_notified r) v (second_supervisor_notified r)
       (is_supervisor_acknowledged r) (is_second_supervisor_acknowledged r)
       (last_supervisor_notification_time r)
       (last_second_supervisor_notification_time r) (expected_login_time r)
       (email_supervisor_notified r) (email_second_supervisor_notified r).

Definition set_second_supervisor_notified (v : option Z) (r : row) : row :=
    mk (id r) (user_slack_id r) (workday r) (login_time r) (logout_time r)
       (self_notified r) (supervisor_notified r) v
       (is_supervisor_acknowledged r) (is_second_supervisor_acknowledged r)
       (last_supervisor_notification_time r)
       (last_second_supervisor_notification_time r) (expected_login_time r)
       (email_supervisor_notified r) (email_second_supervisor_notified r).

Definition set_is_supervisor_acknowledged (v : option Z) (r : row) : row :=
    mk (id r) (user_slack_id r) (workday r) (login_time r) (logout_time r)
       (self_notified r) (supervisor_notified r) (second_supervisor_notified r)
       v (is_second_supervisor_acknowledged r)
       (last_supervisor_notification_time r)
       (last_second_supervisor_notification_time r) (expected_login_time r)
       (email_supervisor_notified r) (email_second_supervisor_notified r).

Definition set_is_second_supervisor_acknowledged (v : option Z) (r : row)
    : row :=
    mk (id r) (user_slack_id r) (workday r) (login_time r) (logout_time r)
       (self_notified r) (supervisor_notified r) (second_supervisor_notified r)
       (is_supervisor_acknowledged r) v
       (last_supervisor_notification_time r)
       (last_second_supervisor_notification_time r) (expected_login_time r)
       (email_supervisor_notified r) (email_second_supervisor_notified r).

Definition set_last_supervisor_notification_time (v : option string)
    (r : row) : row :=
    mk (id r) (user_slack_id r) (workday r) (login_time r) (logout_time r)
       (self_notified r) (supervisor_notified r) (second_supervisor_notified r)
       (is_supervisor_acknowledged r) (is_second_supervisor_acknowledged r)
       v
       (last_second_supervisor_notification_time r) (expected_login_time r)
       (email_supervisor_notified r) (email_second_supervisor_notified r).

Definition set_last_second_supervisor_notification_time (v : option string)
    (r : row) : row :=
    mk (id r) (user_slack_id r) (workday r) (login_time r) (logout_time r)
       (self_notified r) (supervisor_notified r) (second_supervisor_notified r)
       (is_supervisor_acknowledged r) (is_second_supervisor_acknowledged r)
       (last_supervisor_notification_time r)
       v (expected_login_time r)
       (email_supervisor_notified r) (email_second_supervisor_notified r).

Definition set_expected_login_time (v : option string) (r : row) : row :=
    mk (id r) (user_slack_id r) (workday r) (login_time r) (logout_time r)
       (self_notified r) (supervisor_notified r) (second_supervisor_notified r)
       (is_supervisor_acknowledged r) (is_second_supervisor_acknowledged r)
       (last_supervisor_notification_time r)
       (last_second_supervisor_notification_time r) v
       (email_supervisor_notified r) (email_second_supervisor_notified r).

Definition set_email_supervisor_notified (v : option Z) (r : row) : row :=
    mk (id r) (user_slack_id r) (workday r) (login_time r) (logout_time r)
       (self_notified r) (supervisor_notified r) (second_supervisor_notified r)
       (is_supervisor_acknowledged r) (is_second_supervisor_acknowledged r)
       (last_supervisor_notification_time r)
       (last_second_supervisor_notification_time r) (expected_login_time r)
       v (email_second_supervisor_notified r).

Definition set_email_second_supervisor_notified (v : option Z) (r : row)
    : row :=
    mk (id r) (user_slack_id r) (workday r) (login_time r) (logout_time r)
       (self_notified r) (supervisor_notified r) (second_supervisor_notified r)
       (is_supervisor_acknowledged r) (is_second_supervisor_acknowledged r)
       (last_supervisor_notification_time r)
       (last_second_supervisor_notification_time r) (expected_login_time r)
       (email_supervisor_notified r) v.
End Audit.

(** A row of [acknowledgment_tokens] without its key column [token]. *)
Module Token.
Record row : Type := mk {
    user_slack_id : string;
    is_second_supervisor : Z;
    created_at : string;
    used : Z }.

Definition set_used (v : Z) (t : row) : row :=
    mk (user_slack_id t) (is_second_supervisor t) (created_at t) v.
End Token.

(** ** The database *)

(** [audits_keyed] tells which declaration of [audits] the file carries:
    [true] for the table of [init_database] (and of [manual_fix]), whose
    [id] is [INTEGER PRIMARY KEY AUTOINCREMENT] and whose counters and flags
    have [DEFAULT 0]; [false] for the table as [clean_duplicate_columns]
    rebuilds it with [CREATE TABLE audits_new (name type, ...)], where [id]
    is an ordinary INTEGER column and no column has a default.
    [audits_seq] is the [sqlite_sequence] entry of [audits]: the largest
    identifier AUTOINCREMENT has handed out so far. *)
Record Store : Type := mkStoreOn {
  audits_keyed : bool;
  users : list User.row;
  audits : list Audit.row;
  audits_seq : Z;
  acknowledgment_tokens : gmap string Token.row }.

(** A store whose [audits] table is declared as in [init_database]. *)
Definition mkStore (us : list User.row) (rows : list Audit.row) (seq : Z)
  (tokens : gmap string Token.row) : Store :=
  mkStoreOn true us rows seq tokens.

Definition with_audits (rows : list Audit.row) (s : Store) : Store :=
  mkStoreOn (audits_keyed s) (users s) rows (audits_seq s) (acknowledgment_tokens s).

Definition with_tokens (m : gmap string Token.row) (s : Store) : Store :=
  mkStoreOn (audits_keyed s) (users s) (audits s) (audits_seq s) m.

Definition empty_store : Store := mkStore [] [] 0 ∅.

(** ** SQL statements used by the code *)

(** [WHERE user_slack_id = ? AND workday = ?] *)
Definition for_user_workday (u d : string) (r : Audit.row) : bool :=
  String.eqb (Audit.user_slack_id r) u && String.eqb (Audit.workday r) d.

(** [SELECT ... FROM audits WHERE user_slack_id = ? AND workday = ?] *)
Definition select_user_workday (u d : string) (rows : list Audit.row)
  : list Audit.row :=
  List.filter (for_user_workday u d) rows.

(** [DELETE FROM audits WHERE user_slack_id = ? AND workday = ?] *)
Definition delete_user_workday (u d : string) (rows : list Audit.row)
  : list Audit.row :=
  List.filter (fun r => negb (for_user_workday u d r)) rows.

(** [WHERE id = ?]: a comparison with NULL on either side is never true. *)
Definition id_is (i : option Z) (r : Audit.row) : bool :=
  match i, Audit.id r with
  | Some a, Some b => a =? b
  | _, _ => false
  end.

(** [UPDATE audits SET ... WHERE id = ?] *)
Definition update_where_id (i : option Z) (f : Audit.row -> Audit.row)
  (rows : list Audit.row) : list Audit.row :=
  List.map (fun r => if id_is i r then f r else r) rows.

(** [SELECT ... FROM audits WHERE id = ?] *)
Definition select_where_id (i : option Z) (rows : list Audit.row)
  : list Audit.row :=
  List.filter (id_is i) rows.

(** Largest identifier stored in the table (0 when there is none). *)
Fixpoint max_id (rows : list Audit.row) : Z :=
  match rows with
  | [] => 0
  | r :: rest =>
      match Audit.id r with
      | Some i => Z.max i (max_id rest)
      | None => max_id rest
      end
  end.

(** AUTOINCREMENT: one more than the largest identifier that was ever in the
    table.  Identifiers are unbounded integers here; SQLite refuses the
    INSERT once the next identifier would exceed [max_rowid]. *)
Definition next_id (rows : list Audit.row) (seq : Z) : Z :=
  Z.max seq (max_id rows) + 1.

(** The largest rowid of SQLite, 2^63-1. *)
Definition max_rowid : Z := 9223372036854775807.

(** The row written by the [INSERT INTO audits (...) VALUES (?, ?, 0, 0, 0,
    0, 0, ?)] statements into the table of [init_database]: the id is
    assigned, the counters and flags named in the statement are 0, the two
    [email_*] counters take their DEFAULT 0, the remaining columns are NULL
    unless the statement names them. *)
Definition fresh_row (i : Z) (u d : string) (login logout expected : option string)
  : Audit.row :=
  Audit.mk (Some i) u d login logout
           (Some 0) (Some 0) (Some 0) (Some 0) (Some 0)
           None None expected (Some 0) (Some 0).

(** The row written by the same statements into the table without the key:
    the statement names neither [id] nor the two [email_*] counters, and
    there nothing assigns them, so they are NULL. *)
Definition keyless_row (u d : string) (login logout expected : option string)
  : Audit.row :=
  Audit.mk None u d login logout
           (Some 0) (Some 0) (Some 0) (Some 0) (Some 0)
           None None expected None None.

Definition inserted_row (keyed : bool) (i : Z) (u d : string)
  (login logout expected : option string) : Audit.row :=
  if keyed then fresh_row i u d login logout expected
  else keyless_row u d login logout expected.

(** [INSERT INTO audits ...]; returns [cursor.lastrowid] and the new store.
    In the table without the key, [lastrowid] is the hidden rowid, which is
    not kept here: no caller uses the number unless it has read a non-NULL
    [id] back from the new row, which does not happen there. *)
Definition insert_audit (u d : string) (login logout expected : option string)
  (s : Store) : Z * Store :=
  let i := next_id (audits s) (audits_seq s) in
  (i, mkStoreOn (audits_keyed s) (users s)
                (audits s ++ [inserted_row (audits_keyed s) i u d login logout expected])
                (if audits_keyed s then i else audits_seq s)
                (acknowledgment_tokens s)).

(** [SELECT user_login_time FROM users WHERE user_slack_id = ?] followed by
    [user[0] if user else None]. *)
Definition lookup_expected_login_time (u : string) (s : Store) : option string :=
  match List.filter (fun x => String.eqb (User.user_slack_id x) u) (users s) with
  | x :: _ => User.user_login_time x
  | [] => None
  end.

(** ** The clock *)

(** What [datetime.now()] returns. *)
Record datetime : Type := mkDatetime {
  year : nat; month : nat; day : nat;
  hour : nat; minute : nat; second : nat }.

Definition digit_char (n : nat) : ascii :=
  ascii_of_nat (48 + n mod 10)%nat.

(** Two decimal digits, zero padded ([%m], [%d], [%H], [%M]). *)
Definition pad2 (n : nat) : string :=
  String (digit_char (n / 10)) (String (digit_char n) EmptyString).

(** Four decimal digits, zero padded ([%Y]). *)
Definition pad4 (n : nat) : string :=
  String (digit_char (n / 1000)) (String (digit_char (n / 100))
    (String (digit_char (n / 10)) (String (digit_char n) EmptyString))).

(** [now.strftime("%Y-%m-%d")] *)
Definition strftime_Ymd (now : datetime) : string :=
  (pad4 (year now) ++ "-" ++ pad2 (month now) ++ "-" ++ pad2 (day now))%string.

(** [now.strftime("%H:%M")] *)
Definition strftime_HM (now : datetime) : string :=
  (pad2 (hour now) ++ ":" ++ pad2 (minute now))%string.

(** [now.strftime("%Y-%m-%d %H:%M")] *)
Definition strftime_YmdHM (now : datetime) : string :=
  (strftime_Ymd now ++ " " ++ strftime_HM now)%string.

(** Reading a time of day written as [HH:MM]. *)
Definition digit_of_ascii (c : ascii) : option nat :=
  let n := nat_of_ascii c in
  if ((48 <=? n) && (n <=? 57))%nat then Some (n - 48)%nat else None.

(** Minutes since midnight of a well-formed [HH:MM] text. *)
Definition minutes_of_hhmm (t : string) : option nat :=
  match t with
  | String h1 (String h2 (String sep (String m1 (String m2 EmptyString)))) =>
      match digit_of_ascii h1, digit_of_ascii h2,
            digit_of_ascii m1, digit_of_ascii m2 with
      | Some a, Some b, Some c, Some d =>
          if Ascii.eqb sep ":" && (10 * a + b <? 24)%nat && (10 * c + d <? 60)%nat
          then Some (60 * (10 * a + b) + (10 * c + d))%nat
          else None
      | _, _, _, _ => None
      end
  | _ => None
  end.

Definition minutes_of_day (now : datetime) : nat :=
  (60 * hour now + minute now)%nat.

(** A clock reading that [datetime] can hold. *)
Definition valid_time (now : datetime) : Prop :=
  (hour now < 24)%nat /\ (minute now < 60)%nat.

(** ** [database.py]: acknowledgment tokens *)

(** [store_acknowledgment_token(token, user_slack_id, is_second_supervisor)].
    [created_at] is the text returned by [utils.get_current_datetime_str()],
    a helper outside the modelled files.  Inserting a token that is already
    a key violates the primary key: the exception handler rolls back and
    returns [False]. *)
Definition store_acknowledgment_token (s : Store) (token user_slack_id : string)
  (is_second_supervisor : bool) (created_at : string) : bool * Store :=
  match acknowledgment_tokens s !! token with
  | Some _ => (false, s)
  | None =>
      let t := Token.mk user_slack_id (if is_second_supervisor then 1 else 0)
                        created_at 0 in
      (true, with_tokens (<[token := t]> (acknowledgment_tokens s)) s)
  end.

(** [get_acknowledgment_token(token)]: the row as a dict, or [None]. *)
Definition get_acknowledgment_token (s : Store) (token : string)
  : option Token.row :=
  acknowledgment_tokens s !! token.

(** [mark_token_used(token)]: the UPDATE touches the row of that token if
    there is one; the function returns [True] either way. *)
Definition mark_token_used (s : Store) (token : string) : bool * Store :=
  (true, with_tokens (alter (Token.set_used 1) token (acknowledgment_tokens s)) s).

(** Result of consuming a token. *)
Inductive consumed : Type :=
| Payload (user_slack_id : string) (is_second_tier : bool)
| Invalid.

(** Modelled from the spec: the acknowledgment handler that calls
    [get_acknowledgment_token] and [mark_token_used] lives in the routes
    module, which is not among the source files.  Following the
    specification of [validateAndConsume]: the result is [Invalid] if the
    token does not exist or is already used; otherwise the token is marked
    used and its payload (user id, supervisor tier) is returned. *)
Definition validate_and_consume (s : Store) (token : string) : consumed * Store :=
  match get_acknowledgment_token s token with
  | None => (Invalid, s)
  | Some t =>
      if Token.used t =? 0
      then
        let '(_, s') := mark_token_used s token in
        (Payload (Token.user_slack_id t) (negb (Token.is_second_supervisor t =? 0)), s')
      else (Invalid, s)
  end.

(** ** [database.py]: audit records *)

(** [get_audit_record(user_slack_id, workday)].  When the first matching row
    is missing or has a NULL id, the function counts the matching rows and,
    if there are any, deletes them all and inserts one new row; then it
    reads the first matching row again and returns it only if its id is not
    NULL. *)
Definition get_audit_record (s : Store) (user_slack_id workday : string)
  : option Audit.row * Store :=
  let id_check := head (select_user_workday user_slack_id workday (audits s)) in
  let needs_fix :=
    match id_check with
    | None => true
    | Some r => match Audit.id r with None => true | Some _ => false end
    end in
  let s1 :=
    if needs_fix then
      let count := length (select_user_workday user_slack_id workday (audits s)) in
      if (0 <? count)%nat then
        let s_del := with_audits (delete_user_workday user_slack_id workday (audits s)) s in
        let expected_login_time := lookup_expected_login_time user_slack_id s_del in
        snd (insert_audit user_slack_id workday None None expected_login_time s_del)
      else s
    else s in
  match head (select_user_workday user_slack_id workday (audits s1)) with
  | Some record =>
      match Audit.id record with
      | None => (None, s1)
      | Some _ => (Some record, s1)
      end
  | None => (None, s1)
  end.

(** A Python call either returns a value or raises. *)
Inductive outcome (A : Type) : Type :=
| Returned (a : A)
| Raised.
Arguments Returned {A} a.
Arguments Raised {A}.

(** [create_audit_record(user_slack_id, workday, expected_login_time)]. *)
Definition create_audit_record (s : Store) (user_slack_id workday : string)
  (expected_login_time : option string) : outcome Z * Store :=
  let existing := head (select_user_workday user_slack_id workday (audits s)) in
  match existing with
  | Some (Audit.mk (Some i) _ _ _ _ _ _ _ _ _ _ _ _ _ _) => (Returned i, s)
  | _ =>
      let s_del := with_audits (delete_user_workday user_slack_id workday (audits s)) s in
      let '(record_id, s_ins) :=
        insert_audit user_slack_id workday None None expected_login_time s_del in
      match head (select_user_workday user_slack_id workday (audits s_ins)) with
      | Some (Audit.mk (Some _) _ _ _ _ _ _ _ _ _ _ _ _ _ _) => (Returned record_id, s_ins)
      | _ => (Raised, s)
      end
  end.

(** [update_user_login(user_slack_id, workday, login_time)]. *)
Definition update_user_login (s : Store) (user_slack_id workday login_time : string)
  : bool * Store :=
  let record := head (select_user_workday user_slack_id workday (audits s)) in
  let s1 :=
    match record with
    | Some r =>
        let audit_id := Audit.id r in
        with_audits (update_where_id audit_id (Audit.set_login_time (Some login_time))
                                     (audits s)) s
    | None =>
        let expected_login_time := lookup_expected_login_time user_slack_id s in
        snd (insert_audit user_slack_id workday (Some login_time) None
                          expected_login_time s)
    end in
  match head (select_user_workday user_slack_id workday (audits s1)) with
  | Some v =>
      match Audit.login_time v with
      | Some t => if String.eqb t login_time then (true, s1) else (false, s)
      | None => (false, s)
      end
  | None => (false, s)
  end.

(** [record_user_login(user_slack_id)] *)
Definition record_user_login (s : Store) (now : datetime) (user_slack_id : string)
  : bool * Store :=
  update_user_login s user_slack_id (strftime_Ymd now) (strftime_YmdHM now).

(** [record_user_logout(user_slack_id)] *)
Definition record_user_logout (s : Store) (now : datetime) (user_slack_id : string)
  : bool * Store :=
  let workday := strftime_Ymd now in
  let logout_time := strftime_YmdHM now in
  let record := head (select_user_workday user_slack_id workday (audits s)) in
  let s1 :=
    match record with
    | Some r =>
        let audit_id := Audit.id r in
        with_audits (update_where_id audit_id (Audit.set_logout_time (Some logout_time))
                                     (audits s)) s
    | None =>
        let expected_login_time := lookup_expected_login_time user_slack_id s in
        snd (insert_audit user_slack_id workday None (Some logout_time)
                          expected_login_time s)
    end in
  match head (select_user_workday user_slack_id workday (audits s1)) with
  | Some v =>
      match Audit.logout_time v with
      | Some t => if String.eqb t logout_time then (true, s1) else (false, s)
      | None => (false, s)
      end
  | None => (false, s)
  end.

(** The five TEXT data columns of [audits]. *)
Inductive text_column : Type :=
| login_time_column
| logout_time_column
| last_supervisor_notification_time_column
| last_second_supervisor_notification_time_column
| expected_login_time_column.

(** One keyword argument of [update_audit_record].  The keyword names one
    of the twelve data columns of [audits] and carries a value of that
    column's type (text or [None] for a TEXT column, an integer or [None]
    for an INTEGER column), or it names a TEXT column and carries a Python
    [int] ([kw_int_as_text]), or it is a keyword that is no column of the
    table ([kw_other]; its name stands for any text other than the fifteen
    column names).  Calls that pass one of the key columns [id],
    [user_slack_id] and [workday] as a keyword, which the code accepts as
    well, are not among the modelled calls. *)
Inductive field : Type :=
| kw_login_time (v : option string)
| kw_logout_time (v : option string)
| kw_self_notified (v : option Z)
| kw_supervisor_notified (v : option Z)
| kw_second_supervisor_notified (v : option Z)
| kw_is_supervisor_acknowledged (v : option Z)
| kw_is_second_supervisor_acknowledged (v : option Z)
| kw_last_supervisor_notification_time (v : option string)
| kw_last_second_supervisor_notification_time (v : option string)
| kw_expected_login_time (v : option string)
| kw_email_supervisor_notified (v : option Z)
| kw_email_second_supervisor_notified (v : option Z)
| kw_int_as_text (c : text_column) (v : Z)
| kw_other (name : string).

Definition text_column_name (c : text_column) : string :=
  match c with
  | login_time_column => "login_time"
  | logout_time_column => "logout_time"
  | last_supervisor_notification_time_column => "last_supervisor_notification_time"
  | last_second_supervisor_notification_time_column =>
      "last_second_supervisor_notification_time"
  | expected_login_time_column => "expected_login_time"
  end.

(** The typed keyword of a TEXT column. *)
Definition kw_text (c : text_column) (v : option string) : field :=
  match c with
  | login_time_column => kw_login_time v
  | logout_time_column => kw_logout_time v
  | last_supervisor_notification_time_column =>
      kw_last_supervisor_notification_time v
  | last_second_supervisor_notification_time_column =>
      kw_last_second_supervisor_notification_time v
  | expected_login_time_column => kw_expected_login_time v
  end.

Definition set_text_column (c : text_column) (v : option string) (r : Audit.row)
  : Audit.row :=
  match c with
  | login_time_column => Audit.set_login_time v r
  | logout_time_column => Audit.set_logout_time v r
  | last_supervisor_notification_time_column =>
      Audit.set_last_supervisor_notification_time v r
  | last_second_supervisor_notification_time_column =>
      Audit.set_last_second_supervisor_notification_time v r
  | expected_login_time_column => Audit.set_expected_login_time v r
  end.

Definition text_column_of (c : text_column) (r : Audit.row) : option string :=
  match c with
  | login_time_column => Audit.login_time r
  | logout_time_column => Audit.logout_time r
  | last_supervisor_notification_time_column =>
      Audit.last_supervisor_notification_time r
  | last_second_supervisor_notification_time_column =>
      Audit.last_second_supervisor_notification_time r
  | expected_login_time_column => Audit.expected_login_time r
  end.

(** TEXT affinity: an integer bound to a TEXT column is stored as its
    decimal text. *)
Definition text_of_int (z : Z) : string :=
  NilZero.string_of_int (Z.to_int z).

(** The integers the driver can bind: a Python [int] outside the signed
    64-bit range makes [execute] raise [OverflowError]. *)
Definition int64 (z : Z) : bool :=
  (- 9223372036854775808 <=? z) && (z <=? 9223372036854775807).

(** The keyword itself: the key of the entry in the [kwargs] dict. *)
Definition field_key (f : field) : string :=
  match f with
  | kw_login_time _ => "login_time"
  | kw_logout_time _ => "logout_time"
  | kw_self_notified _ => "self_notified"
  | kw_supervisor_notified _ => "supervisor_notified"
  | kw_second_supervisor_notified _ => "second_supervisor_notified"
  | kw_is_supervisor_acknowledged _ => "is_supervisor_acknowledged"
  | kw_is_second_supervisor_acknowledged _ => "is_second_supervisor_acknowledged"
  | kw_last_supervisor_notification_time _ => "last_supervisor_notification_time"
  | kw_last_second_supervisor_notification_time _ =>
      "last_second_supervisor_notification_time"
  | kw_expected_login_time _ => "expected_login_time"
  | kw_email_supervisor_notified _ => "email_supervisor_notified"
  | kw_email_second_supervisor_notified _ => "email_second_supervisor_notified"
  | kw_int_as_text c _ => text_column_name c
  | kw_other name => name
  end.

(** Does the keyword name a column?  If not, SQLite rejects the statement
    ("no such column") before any row is written. *)
Definition is_column (f : field) : bool :=
  match f with
  | kw_other _ => false
  | _ => true
  end.

(** Can every value of the keyword be bound as a statement parameter? *)
Definition bindable (f : field) : bool :=
  match f with
  | kw_self_notified (Some z)
  | kw_supervisor_notified (Some z)
  | kw_second_supervisor_notified (Some z)
  | kw_is_supervisor_acknowledged (Some z)
  | kw_is_second_supervisor_acknowledged (Some z)
  | kw_email_supervisor_notified (Some z)
  | kw_email_second_supervisor_notified (Some z)
  | kw_int_as_text _ z => int64 z
  | _ => true
  end.

(** One [key = ?] of the SET clause. *)
Definition set_field (f : field) (r : Audit.row) : Audit.row :=
  match f with
  | kw_login_time v => Audit.set_login_time v r
  | kw_logout_time v => Audit.set_logout_time v r
  | kw_self_notified v => Audit.set_self_notified v r
  | kw_supervisor_notified v => Audit.set_supervisor_notified v r
  | kw_second_supervisor_notified v => Audit.set_second_supervisor_notified v r
  | kw_is_supervisor_acknowledged v => Audit.set_is_supervisor_acknowledged v r
  | kw_is_second_supervisor_acknowledged v =>
      Audit.set_is_second_supervisor_acknowledged v r
  | kw_last_supervisor_notification_time v =>
      Audit.set_last_supervisor_notification_time v r
  | kw_last_second_supervisor_notification_time v =>
      Audit.set_last_second_supervisor_notification_time v r
  | kw_expected_login_time v => Audit.set_expected_login_time v r
  | kw_email_supervisor_notified v => Audit.set_email_supervisor_notified v r
  | kw_email_second_supervisor_notified v =>
      Audit.set_email_second_supervisor_notified v r
  | kw_int_as_text c z => set_text_column c (Some (text_of_int z)) r
  | kw_other _ => r
  end.

(** The whole SET clause, in the order of [kwargs.keys()]. *)
Definition set_fields (kwargs : list field) (r : Audit.row) : Audit.row :=
  fold_left (fun acc f => set_field f acc) kwargs r.

(** The value a [SELECT key FROM audits] reads for that keyword's column:
    the keyword of the column, carrying the stored value.  For a TEXT column
    this is text or NULL, also when an integer was written. *)
Definition read_field (f : field) (r : Audit.row) : field :=
  match f with
  | kw_login_time _ => kw_login_time (Audit.login_time r)
  | kw_logout_time _ => kw_logout_time (Audit.logout_time r)
  | kw_self_notified _ => kw_self_notified (Audit.self_notified r)
  | kw_supervisor_notified _ => kw_supervisor_notified (Audit.supervisor_notified r)
  | kw_second_supervisor_notified _ =>
      kw_second_supervisor_notified (Audit.second_supervisor_notified r)
  | kw_is_supervisor_acknowledged _ =>
      kw_is_supervisor_acknowledged (Audit.is_supervisor_acknowledged r)
  | kw_is_second_supervisor_acknowledged _ =>
      kw_is_second_supervisor_acknowledged (Audit.is_second_supervisor_acknowledged r)
  | kw_last_supervisor_notification_time _ =>
      kw_last_supervisor_notification_time (Audit.last_supervisor_notification_time r)
  | kw_last_second_supervisor_notification_time _ =>
      kw_last_second_supervisor_notification_time
        (Audit.last_second_supervisor_notification_time r)
  | kw_expected_login_time _ => kw_expected_login_time (Audit.expected_login_time r)
  | kw_email_supervisor_notified _ =>
      kw_email_supervisor_notified (Audit.email_supervisor_notified r)
  | kw_email_second_supervisor_notified _ =>
      kw_email_second_supervisor_notified (Audit.email_second_supervisor_notified r)
  | kw_int_as_text c _ => kw_text c (text_column_of c r)
  | kw_other name => kw_other name
  end.

(** [update_audit_record(audit_id, **kwargs)].  The result is [None] for the
    bare [return], [Some true] / [Some false] for [True] / [False].  A
    keyword that names no column or carries a value that cannot be bound
    makes [execute] raise; the handler rolls back and returns [False].  The
    verification re-reads the updated columns of the row with that id and
    accepts whenever the read returns a row ([if verification:]); it does
    not look at the values. *)
Definition update_audit_record (s : Store) (audit_id : option Z)
  (kwargs : list field) : option bool * Store :=
  match kwargs with
  | [] => (None, s)
  | _ :: _ =>
      match audit_id with
      | None => (Some false, s)
      | Some _ =>
          if forallb is_column kwargs && forallb bindable kwargs then
            let rows := update_where_id audit_id (set_fields kwargs) (audits s) in
            let verification := head (select_where_id audit_id rows) in
            match verification with
            | Some _ => (Some true, with_audits rows s)
            | None => (Some false, s)
            end
          else (Some false, s)
      end
  end.

(** Python truthiness of the result of [update_audit_record]. *)
Definition truthy (r : option bool) : bool :=
  match r with
  | Some b => b
  | None => false
  end.

(** [x IN (SELECT user_slack_id ...)] *)
Definition mem_string (x : string) (l : list string) : bool :=
  existsb (String.eqb x) l.

Definition is_null {A : Type} (v : option A) : bool :=
  match v with None => true | Some _ => false end.

(** [get_users_without_login()].  [<=] on TEXT is the byte-wise order of
    the two strings. *)
Definition get_users_without_login (s : Store) (now : datetime) : list User.row :=
  let current_time := strftime_HM now in
  let today := strftime_Ymd now in
  let logged_in :=
    List.map Audit.user_slack_id
      (List.filter (fun a => String.eqb (Audit.workday a) today
                             && negb (is_null (Audit.login_time a))) (audits s)) in
  let not_logged_in :=
    List.map Audit.user_slack_id
      (List.filter (fun a => is_null (Audit.login_time a)
                             && String.eqb (Audit.workday a) today) (audits s)) in
  List.filter
    (fun u =>
       match User.user_login_time u with
       | None => false
       | Some t => String.leb t current_time
       end
       && (negb (mem_string (User.user_slack_id u) logged_in)
           || mem_string (User.user_slack_id u) not_logged_in))
    (users s).

(** [column > 0] and [column = 0]: false on NULL. *)
Definition gt0 (v : option Z) : bool :=
  match v with Some z => 0 <? z | None => false end.

Definition eq0 (v : option Z) : bool :=
  match v with Some z => z =? 0 | None => false end.

(** The WHERE clause shared by [check_database_integrity] and
    [fix_stuck_records]. *)
Definition is_stuck (today : string) (r : Audit.row) : bool :=
  String.eqb (Audit.workday r) today
  && gt0 (Audit.supervisor_notified r)
  && eq0 (Audit.second_supervisor_notified r)
  && eq0 (Audit.is_supervisor_acknowledged r).

(** [check_database_integrity()]: the value of [issues["stuck_records"]],
    [None] when the key is absent.  The table always has the fifteen
    columns here, so [issues["missing_columns"]] is never set. *)
Definition check_database_integrity (s : Store) (now : datetime) : option nat :=
  let stuck_records := length (List.filter (is_stuck (strftime_Ymd now)) (audits s)) in
  if (0 <? stuck_records)%nat then Some stuck_records else None.

(** The SET clause of [fix_stuck_records]; the text is what
    [utils.get_current_datetime_str()] returned. *)
Definition reset_stuck (current_datetime_str : string) (r : Audit.row) : Audit.row :=
  Audit.set_last_supervisor_notification_time (Some current_datetime_str)
    (Audit.set_is_second_supervisor_acknowledged (Some 0)
       (Audit.set_second_supervisor_notified (Some 0) r)).

(** [fix_stuck_records()]: returns [fixed_count] (the status is always
    "success" here) and the store. *)
Definition fix_stuck_records (s : Store) (now : datetime)
  (current_datetime_str : string) : nat * Store :=
  let today := strftime_Ymd now in
  let stuck_ids := List.map Audit.id (List.filter (is_stuck today) (audits s)) in
  let rows :=
    fold_left (fun rows audit_id =>
                 update_where_id audit_id (reset_stuck current_datetime_str) rows)
              stuck_ids (audits s) in
  (length stuck_ids, with_audits rows s).

(** ** [database_repair.py] *)

(** [COALESCE(column, 0)] *)
Definition coalesce0 (v : option Z) : option Z :=
  Some (match v with Some z => z | None => 0 end).

(** One row of the [INSERT INTO new_audits (...) SELECT ...] statements: the
    id is assigned by AUTOINCREMENT, the other columns are copied, NULL
    counters and flags become 0. *)
Definition copy_row (i : Z) (r : Audit.row) : Audit.row :=
  Audit.mk (Some i) (Audit.user_slack_id r) (Audit.workday r)
           (Audit.login_time r) (Audit.logout_time r)
           (coalesce0 (Audit.self_notified r))
           (coalesce0 (Audit.supervisor_notified r))
           (coalesce0 (Audit.second_supervisor_notified r))
           (coalesce0 (Audit.is_supervisor_acknowledged r))
           (coalesce0 (Audit.is_second_supervisor_acknowledged r))
           (Audit.last_supervisor_notification_time r)
           (Audit.last_second_supervisor_notification_time r)
           (Audit.expected_login_time r)
           (coalesce0 (Audit.email_supervisor_notified r))
           (coalesce0 (Audit.email_second_supervisor_notified r)).

(** A table together with its AUTOINCREMENT counter. *)
Definition insert_copy (tbl : list Audit.row * Z) (r : Audit.row)
  : list Audit.row * Z :=
  let i := next_id (fst tbl) (snd tbl) in
  (fst tbl ++ [copy_row i r], i).

Definition has_id (r : Audit.row) : bool := negb (is_null (Audit.id r)).

(** [fix_user_record(user_slack_id)] *)
Definition fix_user_record (s : Store) (now : datetime) (user_slack_id : string)
  : bool * Store :=
  let expected_login_time := lookup_expected_login_time user_slack_id s in
  let today := strftime_Ymd now in
  match head (select_user_workday user_slack_id today (audits s)) with
  | None =>
      (true, snd (insert_audit user_slack_id today None None expected_login_time s))
  | Some _ => (true, s)
  end.

(** [manual_fix()].  [new_audits] is created with the declaration of
    [init_database] and starts empty; it becomes [audits], so the store
    afterwards has the keyed table.  The second INSERT reads
    [new_audits] in its NOT EXISTS subquery while writing to it, so SQLite
    evaluates the SELECT completely before inserting: the subquery sees the
    rows of the first INSERT only. *)
Definition manual_fix (s : Store) (now : datetime) : bool * Store :=
  let new_audits : list Audit.row * Z := ([], 0) in
  let step3 := fold_left insert_copy (List.filter has_id (audits s)) new_audits in
  let orphans :=
    List.filter
      (fun a1 => is_null (Audit.id a1)
                 && negb (existsb (fun a2 =>
                                     String.eqb (Audit.user_slack_id a2) (Audit.user_slack_id a1)
                                     && String.eqb (Audit.workday a2) (Audit.workday a1))
                                  (fst step3)))
      (audits s) in
  let step4 := fold_left insert_copy orphans step3 in
  let s1 := mkStore (users s) (fst step4) (snd step4) (acknowledgment_tokens s) in
  let '(_, s2) := fix_user_record s1 now "U06081ECKT3" in
  (true, s2).

(** ** The specification's reading of a stuck record *)

(** [config.SUPERVISOR_ESCALATION_MINUTES] *)
Definition SUPERVISOR_ESCALATION_MINUTES : nat := 2.

(** Following the specification's words, "the escalation window has elapsed
    since that notification": the stamp [YYYY-MM-DD HH:MM...] lies on an
    earlier day, or on the same day at least
    [SUPERVISOR_ESCALATION_MINUTES] minutes before the current time. *)
Definition spec_escalation_window_elapsed (now : datetime) (r : Audit.row) : bool :=
  match Audit.last_supervisor_notification_time r with
  | None => false
  | Some stamp =>
      let stamp_day := substring 0 10 stamp in
      if String.eqb stamp_day (strftime_Ymd now) then
        match minutes_of_hhmm (substring 11 5 stamp) with
        | Some m => (m + SUPERVISOR_ESCALATION_MINUTES <=? minutes_of_day now)%nat
        | None => false
        end
      else String.ltb stamp_day (strftime_Ymd now)
  end.

(** Following the specification's words: primary supervisor notified,
    escalation window elapsed, second tier not notified, primary supervisor
    has not acknowledged. *)
Definition spec_stuck (now : datetime) (r : Audit.row) : bool :=
  gt0 (Audit.supervisor_notified r)
  && spec_escalation_window_elapsed now r
  && eq0 (Audit.second_supervisor_notified r)
  && eq0 (Audit.is_supervisor_acknowledged r).


(** ** Auxiliary notions for the statements *)

(** The first row for the user and workday, as [fetchone()] sees it. *)
Definition record_of (s : Store) (u d : string) : option Audit.row :=
  head (select_user_workday u d (audits s)).

Definition valid_record (o : option Audit.row) : bool :=
  match o with
  | Some r => negb (is_null (Audit.id r))
  | None => false
  end.

(** The store after the DELETE and INSERT of [create_audit_record] and of
    the repair branch of [get_audit_record]. *)
Definition recreated (s : Store) (u d : string) (e : option string) : Store :=
  snd (insert_audit u d None None e
         (with_audits (delete_user_workday u d (audits s)) s)).

(** [verification and verification[0] == value] *)
Definition stored_equal (o : option string) (t : string) : bool :=
  match o with
  | Some x => String.eqb x t
  | None => false
  end.

Definition stored_login_time (o : option Audit.row) : option string :=
  match o with Some r => Audit.login_time r | None => None end.

Definition stored_logout_time (o : option Audit.row) : option string :=
  match o with Some r => Audit.logout_time r | None => None end.

(** The store after the UPDATE of [update_user_login], before the
    verification decides between commit and rollback. *)
Definition login_written (s : Store) (r : Audit.row) (t : string) : Store :=
  with_audits (update_where_id (Audit.id r) (Audit.set_login_time (Some t))
                               (audits s)) s.

Definition logout_written (s : Store) (r : Audit.row) (t : string) : Store :=
  with_audits (update_where_id (Audit.id r) (Audit.set_logout_time (Some t))
                               (audits s)) s.

(** Re-reading the updated columns of a row gives the intended values. *)
Definition reads_back (kwargs : list field) (r : Audit.row) : Prop :=
  forall f, In f kwargs -> read_field f r = f.

(** The post-write verification as the claim words it: the row with that id
    can be read again and its updated columns hold the intended values. *)
Definition verification_holds (rows : list Audit.row) (audit_id : option Z)
  (kwargs : list field) : Prop :=
  exists r, head (select_where_id audit_id rows) = Some r /\ reads_back kwargs r.

(** The user's configured login time as minutes since midnight, when it is
    written as [HH:MM]. *)
Definition expected_login_minutes (u : User.row) : option nat :=
  match User.user_login_time u with
  | Some t => minutes_of_hhmm t
  | None => None
  end.

(** The configured login time is absent or written as [HH:MM]. *)
Definition login_time_well_formed (u : User.row) : Prop :=
  forall t, User.user_login_time u = Some t -> minutes_of_hhmm t <> None.

(** Following the specification's words, "expected login time-of-day": the
    time of day that a text entered in the dashboard's free-text field
    "Login Time (HH:MM)" denotes, hours and minutes separated by a colon,
    the hour written with one or two digits. *)
Definition spec_time_of_day (t : string) : option nat :=
  match minutes_of_hhmm t with
  | Some m => Some m
  | None => minutes_of_hhmm (String "0" t)
  end.

(** An audit row of that user for the given workday that carries a login
    timestamp / whose login timestamp is unset. *)
Definition has_login_today (s : Store) (today : string) (u : User.row) : Prop :=
  exists a, In a (audits s)
            /\ Audit.user_slack_id a = User.user_slack_id u
            /\ Audit.workday a = today
            /\ Audit.login_time a <> None.

Definition has_unset_login_today (s : Store) (today : string) (u : User.row) : Prop :=
  exists a, In a (audits s)
            /\ Audit.user_slack_id a = User.user_slack_id u
            /\ Audit.workday a = today
            /\ Audit.login_time a = None.

(** What [fix_stuck_records] does to a row when identifiers are valid. *)
Definition reset_if_stuck (today stamp : string) (r : Audit.row) : Audit.row :=
  if is_stuck today r then reset_stuck stamp r else r.


(** Python truthiness of a stored acknowledgment flag. *)
Definition flag_true (v : option Z) : bool :=
  match v with
  | Some z => negb (z =? 0)
  | None => false
  end.

(** [r'] is the same record as [r] and every acknowledgment flag that is
    set in [r] is set in [r']. *)
Definition ack_le (r r' : Audit.row) : Prop :=
  Audit.id r' = Audit.id r
  /\ (flag_true (Audit.is_supervisor_acknowledged r) = true ->
      flag_true (Audit.is_supervisor_acknowledged r') = true)
  /\ (flag_true (Audit.is_second_supervisor_acknowledged r) = true ->
      flag_true (Audit.is_second_supervisor_acknowledged r') = true).

(** The record read for a user and workday afterwards still is [r], with
    its acknowledgment flags kept. *)
Definition ack_kept (r : Audit.row) (after : option Audit.row) : Prop :=
  exists r', after = Some r' /\ ack_le r r'.

(** A field update made on behalf of escalation: it does not assign a
    false value to an acknowledgment flag. *)
Definition keeps_acknowledgment (f : field) : bool :=
  match f with
  | kw_is_supervisor_acknowledged v => flag_true v
  | kw_is_second_supervisor_acknowledged v => flag_true v
  | _ => true
  end.

(** The data-model invariant: at most one audit row per user and workday. *)
Definition one_per_user_workday (s : Store) : Prop :=
  forall u d, (length (select_user_workday u d (audits s)) <= 1)%nat.

(** * Further functions of [database.py] and [database_repair.py] *)

(** [get_user(user_slack_id)]: the first row of [users] with that Slack id
    (only the modelled columns), or [None]. *)
Definition get_user (s : Store) (user_slack_id : string) : option User.row :=
  head (List.filter (fun x => String.eqb (User.user_slack_id x) user_slack_id)
                    (users s)).

(** [get_user_by_slack_id(slack_id)] runs the same query. *)
Definition get_user_by_slack_id (s : Store) (slack_id : string) : option User.row :=
  head (List.filter (fun x => String.eqb (User.user_slack_id x) slack_id)
                    (users s)).

(** [column = ?] on a nullable TEXT column: false on NULL. *)
Definition text_is (v : option string) (x : string) : bool :=
  match v with
  | Some t => String.eqb t x
  | None => false
  end.

(** The order of [ORDER BY a.id]: NULL sorts below every integer. *)
Definition id_lt (a b : option Z) : bool :=
  match a, b with
  | None, Some _ => true
  | Some x, Some y => x <? y
  | _, None => false
  end.

(** [ORDER BY a.id DESC LIMIT 1]: a row with the largest id.  SQLite leaves
    the order of rows with equal ids open; here the first of them in scan
    order is taken. *)
Fixpoint latest_by_id (rows : list Audit.row) : option Audit.row :=
  match rows with
  | [] => None
  | r :: rest =>
      match latest_by_id rest with
      | None => Some r
      | Some best => if id_lt (Audit.id r) (Audit.id best) then Some best else Some r
      end
  end.

(** The WHERE clause of [find_unacknowledged_audit_record] on an audit row:
    some user row joins with it ([a.user_slack_id = u.user_slack_id]) and
    names the supervisor, the tier has been notified and has not
    acknowledged. *)
Definition unacknowledged_for (s : Store) (supervisor : string)
  (is_secondary : bool) (a : Audit.row) : bool :=
  if is_secondary then
    existsb (fun u => String.eqb (Audit.user_slack_id a) (User.user_slack_id u)
                      && text_is (User.second_supervisor_slack_id u) supervisor)
            (users s)
    && gt0 (Audit.second_supervisor_notified a)
    && eq0 (Audit.is_second_supervisor_acknowledged a)
  else
    existsb (fun u => String.eqb (Audit.user_slack_id a) (User.user_slack_id u)
                      && text_is (User.supervisor_slack_id u) supervisor)
            (users s)
    && gt0 (Audit.supervisor_notified a)
    && eq0 (Audit.is_supervisor_acknowledged a).

(** [find_unacknowledged_audit_record(user_slack_id, is_secondary)]; the
    first argument is the supervisor's Slack id. *)
Definition find_unacknowledged_audit_record (s : Store) (user_slack_id : string)
  (is_secondary : bool) : option Audit.row :=
  latest_by_id (List.filter (unacknowledged_for s user_slack_id is_secondary)
                            (audits s)).

(** The identifiers 1, 2, ..., n in this order. *)
Definition ids_upto (n : nat) : list (option Z) :=
  List.map (fun k => Some (Z.of_nat k + 1)) (List.seq 0 n).

(** A table whose rows carry the identifiers 1..n in scan order and whose
    AUTOINCREMENT counter is n. *)
Definition densely_numbered (rows : list Audit.row) (counter : Z) : Prop :=
  counter = Z.of_nat (length rows)
  /\ List.map Audit.id rows = ids_upto (length rows).

(** A row that [copy_row] reproduces: its id is set and none of its counters
    and flags is NULL. *)
Definition copy_stable (r : Audit.row) : Prop :=
  exists i, copy_row i r = r.

(** The rows of a user and workday that [manual_fix] copies: those with an
    id when there is one, all of them otherwise. *)
Definition rows_kept_by_rebuild (rows : list Audit.row) : list Audit.row :=
  if existsb has_id rows then List.filter has_id rows else rows.

(** The store at the COMMIT of [manual_fix], before it calls
    [fix_user_record]. *)
Definition rebuilt (s : Store) : Store :=
  let step3 := fold_left insert_copy (List.filter has_id (audits s)) ([], 0) in
  let orphans :=
    List.filter
      (fun a1 => is_null (Audit.id a1)
                 && negb (existsb (fun a2 =>
                                     String.eqb (Audit.user_slack_id a2) (Audit.user_slack_id a1)
                                     && String.eqb (Audit.workday a2) (Audit.workday a1))
                                  (fst step3)))
      (audits s) in
  let step4 := fold_left insert_copy orphans step3 in
  mkStore (users s) (fst step4) (snd step4) (acknowledgment_tokens s).

(** The keyword with which an acknowledgment of the given tier is
    recorded. *)
Definition acknowledge_field (is_secondary : bool) : field :=
  if is_secondary then kw_is_second_supervisor_acknowledged (Some 1)
  else kw_is_supervisor_acknowledged (Some 1).

(** What [update_audit_record] may change between a row and its successor:
    nothing when the id differs, otherwise only the columns named in the
    field map. *)
Definition updated_within (audit_id : option Z) (kwargs : list field)
  (a b : Audit.row) : Prop :=
  (id_is audit_id a = false -> b = a)
  /\ (forall f, is_column f = true ->
                ~ In (field_key f) (List.map field_key kwargs) ->
                read_field f b = read_field f a).

(** ** The schema of [audits] *)

(** One row of [PRAGMA table_info(audits)] without its position: name,
    declared type, NOT NULL flag, default and primary-key index. *)
Record column_info : Type := mkColumn {
  cname : string;
  ctype : string;
  notnull : bool;
  dflt_value : option string;
  pk : nat }.

(** [duplicate_columns] of [clean_duplicate_columns]. *)
Definition duplicate_columns : list string :=
  ["self_email_notified"; "supervisor_email_notified"; "last_notification_time";
   "email_self_notified"; "supervisor_name"; "second_supervisor_name";
   "is_email_acknowledged"; "second_acknowledgment_token"].

(** SQLite resolves a column name without regard to ASCII case. *)
Definition lower_ascii (c : ascii) : ascii :=
  let n := nat_of_ascii c in
  if ((65 <=? n) && (n <=? 90))%nat then ascii_of_nat (n + 32) else c.

Fixpoint lower (s : string) : string :=
  match s with
  | EmptyString => EmptyString
  | String c rest => String (lower_ascii c) (lower rest)
  end.

Definition has_column (name : string) (table_info : list column_info) : bool :=
  existsb (fun col => String.eqb (lower (cname col)) (lower name)) table_info.

(** A column of the table created by [CREATE TABLE audits_new (name type,
    ...)]: only the name and the declared type are carried over. *)
Definition bare_column (col : column_info) : column_info :=
  mkColumn (cname col) (ctype col) false None 0.

(** [clean_duplicate_columns()] on the schema: the table info of [audits]
    afterwards.  Without a listed duplicate nothing is done.  Otherwise the
    table is rebuilt from the kept columns; when no column is kept (the
    CREATE TABLE has an empty column list) or the index on
    [(user_slack_id, workday)] cannot be created, the exception handler rolls
    everything back.  Column names are taken to be plain identifiers and no
    table [audits_new] to exist beforehand. *)
Definition clean_duplicate_columns (table_info : list column_info)
  : list column_info :=
  let columns := List.map cname table_info in
  let existing_duplicates :=
    List.filter (fun col => mem_string col columns) duplicate_columns in
  match existing_duplicates with
  | [] => table_info
  | _ :: _ =>
      let kept :=
        List.filter (fun col => negb (mem_string (cname col) existing_duplicates))
                    table_info in
      match kept with
      | [] => table_info
      | _ :: _ =>
          if has_column "user_slack_id" kept && has_column "workday" kept
          then List.map bare_column kept
          else table_info
      end
  end.

(** [required_columns] of [check_database_integrity]. *)
Definition required_columns : list string :=
  ["second_supervisor_notified"; "is_second_supervisor_acknowledged";
   "last_supervisor_notification_time"; "last_second_supervisor_notification_time";
   "expected_login_time"; "email_supervisor_notified";
   "email_second_supervisor_notified"].

(** [issues["missing_columns"]] of [check_database_integrity]: the required
    columns that the table lacks (a Python set; listed here in the order of
    [required_columns]). *)
Definition missing_columns (table_info : list column_info) : list string :=
  List.filter (fun col => negb (mem_string col (List.map cname table_info)))
              required_columns.

(** [required_columns] of [check_tables] in [database_repair.py]. *)
Definition repair_required_columns : list string :=
  ["id"; "user_slack_id"; "workday"; "login_time"; "logout_time"; "self_notified";
   "supervisor_notified"; "second_supervisor_notified"; "is_supervisor_acknowledged";
   "is_second_supervisor_acknowledged"; "last_supervisor_notification_time";
   "last_second_supervisor_notification_time"; "expected_login_time";
   "email_supervisor_notified"; "email_second_supervisor_notified"].

(** What [check_tables] looks at: whether the database file exists, whether
    [sqlite_master] lists [users], and the table info of [audits] ([None]
    when there is no such table). *)
Record database_file : Type := mkDatabaseFile {
  file_exists : bool;
  has_users_table : bool;
  audits_table_info : option (list column_info) }.

(** [check_tables()] of [database_repair.py]. *)
Definition check_tables (db : database_file) : bool :=
  if negb (file_exists db) then false
  else if negb (has_users_table db) then false
  else
    match audits_table_info db with
    | None => false
    | Some table_info =>
        let columns := List.map cname table_info in
        let missing :=
          List.filter (fun col => negb (mem_string col columns))
                      repair_required_columns in
        match missing with
        | _ :: _ => false
        | [] =>
            existsb (fun col => String.eqb (cname col) "id" && (pk col =? 1)%nat)
                    table_info
        end
    end.

(** The schema that [CREATE TABLE IF NOT EXISTS audits] of [init_database]
    declares. *)
Definition audits_schema : list column_info :=
  [mkColumn "id" "INTEGER" false None 1;
   mkColumn "user_slack_id" "TEXT" true None 0;
   mkColumn "workday" "TEXT" true None 0;
   mkColumn "login_time" "TEXT" false None 0;
   mkColumn "logout_time" "TEXT" false None 0;
   mkColumn "self_notified" "INTEGER" false (Some "0") 0;
   mkColumn "supervisor_notified" "INTEGER" false (Some "0") 0;
   mkColumn "second_supervisor_notified" "INTEGER" false (Some "0") 0;
   mkColumn "is_supervisor_acknowledged" "INTEGER" false (Some "0") 0;
   mkColumn "is_second_supervisor_acknowledged" "INTEGER" false (Some "0") 0;
   mkColumn "last_supervisor_notification_time" "TEXT" false None 0;
   mkColumn "last_second_supervisor_notification_time" "TEXT" false None 0;
   mkColumn "expected_login_time" "TEXT" false None 0;
   mkColumn "email_supervisor_notified" "INTEGER" false (Some "0") 0;
   mkColumn "email_second_supervisor_notified" "INTEGER" false (Some "0") 0].

(** ** Frames *)

(** The [users] table and the token table are the same in both stores. *)
Definition same_users_and_tokens (s s' : Store) : Prop :=
  users s' = users s /\ acknowledgment_tokens s' = acknowledgment_tokens s.

(** The [users] table and the [audits] table, with its counter, are the same
    in both stores. *)
Definition same_users_and_audits (s s' : Store) : Prop :=
  users s' = users s /\ audits s' = audits s /\ audits_seq s' = audits_seq s.

(** Two audit rows that agree on every column except [login_time] /
    [logout_time]. *)
Definition same_except_login_time (a b : Audit.row) : Prop :=
  Audit.set_login_time None a = Audit.set_login_time None b.

Definition same_except_logout_time (a b : Audit.row) : Prop :=
  Audit.set_logout_time None a = Audit.set_logout_time None b.

(** The audit rows of [s'] are those of [s], pairwise related by [R], followed
    by at most one new row. *)
Definition rows_kept_up_to (R : Audit.row -> Audit.row -> Prop) (s s' : Store)
  : Prop :=
  exists kept added,
    audits s' = kept ++ added
    /\ Forall2 R (audits s) kept
    /\ (length added <= 1)%nat.

(** * Properties *)

(** ** Facts about the SQL statements *)

Lemma for_user_workday_true (u d : string) (r : Audit.row) :
  for_user_workday u d r = true <->
  Audit.user_slack_id r = u /\ Audit.workday r = d.
Proof.
  unfold for_user_workday. rewrite andb_true_iff.
  split; intros [H1 H2].
  - split; apply String.eqb_eq; assumption.
  - split; apply String.eqb_eq; assumption.
Qed.

Lemma for_user_workday_fresh (i : Z) (u d : string) (l o e : option string) :
  for_user_workday u d (fresh_row i u d l o e) = true.
Proof. apply for_user_workday_true. split; reflexivity. Qed.

(** The columns that an INSERT names are stored as given, with or without
    the key. *)
Lemma inserted_row_columns (k : bool) (i : Z) (u d : string)
  (l o e : option string) :
  let x := inserted_row k i u d l o e in
  Audit.user_slack_id x = u /\ Audit.workday x = d
  /\ Audit.login_time x = l /\ Audit.logout_time x = o
  /\ Audit.expected_login_time x = e
  /\ Audit.self_notified x = Some 0
  /\ Audit.supervisor_notified x = Some 0
  /\ Audit.second_supervisor_notified x = Some 0
  /\ Audit.is_supervisor_acknowledged x = Some 0
  /\ Audit.is_second_supervisor_acknowledged x = Some 0
  /\ Audit.last_supervisor_notification_time x = None
  /\ Audit.last_second_supervisor_notification_time x = None.
Proof. destruct k; repeat split; reflexivity. Qed.

(** Only the table with the key gives the new row an identifier. *)
Lemma inserted_row_id (k : bool) (i : Z) (u d : string) (l o e : option string) :
  Audit.id (inserted_row k i u d l o e) = if k then Some i else None.
Proof. destruct k; reflexivity. Qed.

Lemma for_user_workday_inserted (k : bool) (i : Z) (u d : string)
  (l o e : option string) :
  for_user_workday u d (inserted_row k i u d l o e) = true.
Proof. apply for_user_workday_true. destruct k; split; reflexivity. Qed.

Lemma select_delete_same (u d : string) (rows : list Audit.row) :
  select_user_workday u d (delete_user_workday u d rows) = [].
Proof.
  unfold select_user_workday, delete_user_workday.
  induction rows as [|r rows IH]; simpl; [reflexivity|].
  destruct (for_user_workday u d r) eqn:E; simpl; [assumption|].
  rewrite E. assumption.
Qed.

Lemma select_delete_other (u d u' d' : string) (rows : list Audit.row) :
  (u', d') <> (u, d) ->
  select_user_workday u' d' (delete_user_workday u d rows)
  = select_user_workday u' d' rows.
Proof.
  intros Hne. unfold select_user_workday, delete_user_workday.
  induction rows as [|r rows IH]; simpl; [reflexivity|].
  destruct (for_user_workday u d r) eqn:E; simpl.
  - destruct (for_user_workday u' d' r) eqn:E'; [|assumption].
    apply for_user_workday_true in E, E'.
    destruct E as [E1 E2], E' as [E3 E4]. exfalso. apply Hne. congruence.
  - destruct (for_user_workday u' d' r); [f_equal|]; assumption.
Qed.

Lemma select_app (u d : string) (l1 l2 : list Audit.row) :
  select_user_workday u d (l1 ++ l2)
  = select_user_workday u d l1 ++ select_user_workday u d l2.
Proof. unfold select_user_workday. apply List.filter_app. Qed.

Lemma select_single_other (u d u' d' : string) (k : bool) (i : Z)
  (l o e : option string) :
  (u', d') <> (u, d) ->
  select_user_workday u' d' [inserted_row k i u d l o e] = [].
Proof.
  intros Hne. unfold select_user_workday. cbn [List.filter].
  destruct (for_user_workday u' d' (inserted_row k i u d l o e)) eqn:E;
    [|reflexivity].
  apply for_user_workday_true in E.
  destruct (inserted_row_columns k i u d l o e) as (Hu & Hd & _).
  rewrite Hu, Hd in E. destruct E as [E1 E2].
  exfalso. apply Hne. congruence.
Qed.

Lemma select_single_same (u d : string) (k : bool) (i : Z) (l o e : option string) :
  select_user_workday u d [inserted_row k i u d l o e]
  = [inserted_row k i u d l o e].
Proof.
  unfold select_user_workday. cbn [List.filter].
  rewrite for_user_workday_inserted. reflexivity.
Qed.

Lemma select_in (u d : string) (rows : list Audit.row) (r : Audit.row) :
  In r (select_user_workday u d rows) <->
  In r rows /\ Audit.user_slack_id r = u /\ Audit.workday r = d.
Proof.
  unfold select_user_workday. rewrite List.filter_In, for_user_workday_true.
  reflexivity.
Qed.

Lemma max_id_bound (rows : list Audit.row) (r : Audit.row) (i : Z) :
  In r rows -> Audit.id r = Some i -> i <= max_id rows.
Proof.
  induction rows as [|x rows IH]; simpl; [tauto|].
  intros [->|Hin] Hid.
  - rewrite Hid. lia.
  - specialize (IH Hin Hid). destruct (Audit.id x); lia.
Qed.

(** An identifier handed out by AUTOINCREMENT is new. *)
Lemma next_id_fresh (rows : list Audit.row) (seq : Z) (r : Audit.row) :
  In r rows -> Audit.id r <> Some (next_id rows seq).
Proof.
  intros Hin Hid. pose proof (max_id_bound rows r _ Hin Hid) as Hb.
  unfold next_id in Hb. lia.
Qed.

(** ** Acknowledgment tokens *)

Lemma store_acknowledgment_token_lookup (s s' : Store) (token u c : string)
  (tier : bool) :
  store_acknowledgment_token s token u tier c = (true, s') ->
  get_acknowledgment_token s' token
  = Some (Token.mk u (if tier then 1 else 0) c 0).
Proof.
  unfold store_acknowledgment_token, get_acknowledgment_token.
  destruct (acknowledgment_tokens s !! token) eqn:E; [discriminate|].
  intros [= <-]. simpl. apply lookup_insert_eq.
Qed.

(** [mark_token_used] reports success for a token that was never stored. *)
Lemma mark_token_used_unknown (s : Store) (token : string) :
  get_acknowledgment_token s token = None ->
  fst (mark_token_used s token) = true
  /\ acknowledgment_tokens (snd (mark_token_used s token)) = acknowledgment_tokens s.
Proof.
  unfold get_acknowledgment_token, mark_token_used. simpl. intros H.
  split; [reflexivity|].
  apply map_eq. intros k. rewrite lookup_alter.
  case_decide; [subst; rewrite H|]; reflexivity.
Qed.

(** C1.  A stored, unused token is consumed exactly once: the first
    [validate_and_consume] returns its payload (user id, supervisor tier)
    and marks it used; every later call with the same token returns
    [Invalid] and leaves the store as it is; a token that was never stored
    is [Invalid] as well. *)
Theorem validate_and_consume_exactly_once (s : Store) (token : string)
  (t : Token.row) :
  get_acknowledgment_token s token = Some t ->
  Token.used t = 0 ->
  let first := validate_and_consume s token in
  fst first = Payload (Token.user_slack_id t)
                      (negb (Token.is_second_supervisor t =? 0))
  /\ get_acknowledgment_token (snd first) token = Some (Token.set_used 1 t)
  /\ validate_and_consume (snd first) token = (Invalid, snd first)
  /\ (forall unknown : string,
         get_acknowledgment_token s unknown = None ->
         validate_and_consume s unknown = (Invalid, s)).
Proof.
  intros Hget Hused. cbv zeta.
  assert (Hfirst : validate_and_consume s token
                   = (Payload (Token.user_slack_id t)
                              (negb (Token.is_second_supervisor t =? 0)),
                      snd (mark_token_used s token))).
  { unfold validate_and_consume. rewrite Hget, Hused. reflexivity. }
  assert (Hafter : get_acknowledgment_token (snd (mark_token_used s token)) token
                   = Some (Token.set_used 1 t)).
  { unfold get_acknowledgment_token in *. simpl.
    rewrite lookup_alter. case_decide; [|congruence]. rewrite Hget. reflexivity. }
  rewrite Hfirst.
  set (s1 := snd (mark_token_used s token)) in *.
  change (fst (?a, s1)) with a. change (snd (?a, s1)) with s1.
  repeat split.
  - exact Hafter.
  - unfold validate_and_consume at 1. rewrite Hafter. reflexivity.
  - intros unknown Hnone. unfold validate_and_consume. rewrite Hnone. reflexivity.
Qed.

Lemma validate_and_consume_exactly_once_witness :
  let s := snd (store_acknowledgment_token empty_store "tok-1" "U1" true
                                           "2025-01-06 09:08:00") in
  let first := validate_and_consume s "tok-1" in
  fst first = Payload "U1" true
  /\ get_acknowledgment_token (snd first) "tok-1"
     = Some (Token.mk "U1" 1 "2025-01-06 09:08:00" 1)
  /\ validate_and_consume (snd first) "tok-1" = (Invalid, snd first)
  /\ (forall unknown : string,
         get_acknowledgment_token s unknown = None ->
         validate_and_consume s unknown = (Invalid, s)).
Proof.
  exact (validate_and_consume_exactly_once
           (snd (store_acknowledgment_token empty_store "tok-1" "U1" true
                                            "2025-01-06 09:08:00"))
           "tok-1" (Token.mk "U1" 1 "2025-01-06 09:08:00" 0)
           eq_refl eq_refl).
Defined.

(** ** Creating audit records *)

Lemma recreated_audits (s : Store) (u d : string) (e : option string) :
  audits (recreated s u d e)
  = delete_user_workday u d (audits s)
    ++ [inserted_row (audits_keyed s)
                     (next_id (delete_user_workday u d (audits s)) (audits_seq s))
                     u d None None e].
Proof. reflexivity. Qed.

Lemma recreated_select (s : Store) (u d : string) (e : option string) :
  select_user_workday u d (audits (recreated s u d e))
  = [inserted_row (audits_keyed s)
                  (next_id (delete_user_workday u d (audits s)) (audits_seq s))
                  u d None None e].
Proof.
  rewrite recreated_audits.
  rewrite select_app, select_delete_same, select_single_same. reflexivity.
Qed.

Lemma recreated_select_other (s : Store) (u d u' d' : string) (e : option string) :
  (u', d') <> (u, d) ->
  select_user_workday u' d' (audits (recreated s u d e))
  = select_user_workday u' d' (audits s).
Proof.
  intros Hne. rewrite recreated_audits.
  rewrite select_app, select_delete_other, select_single_other by assumption.
  apply app_nil_r.
Qed.

Lemma create_audit_record_existing (s : Store) (u d : string)
  (e : option string) (r : Audit.row) (i : Z) :
  record_of s u d = Some r -> Audit.id r = Some i ->
  create_audit_record s u d e = (Returned i, s).
Proof.
  unfold record_of, create_audit_record. intros -> Hid.
  destruct r. simpl in Hid. subst. reflexivity.
Qed.

(** The DELETE and INSERT of [create_audit_record], followed by its check
    of the id read back: the table with the key gives the new row an
    identifier, and the call returns it. *)
Lemma create_audit_record_new (s : Store) (u d : string) (e : option string) :
  audits_keyed s = true ->
  valid_record (record_of s u d) = false ->
  create_audit_record s u d e
  = (Returned (next_id (delete_user_workday u d (audits s)) (audits_seq s)),
     recreated s u d e).
Proof.
  intros Hk Hinv.
  assert (Hsel := recreated_select s u d e).
  rewrite Hk in Hsel. cbn [inserted_row] in Hsel.
  unfold recreated, insert_audit in *.
  cbn -[select_user_workday delete_user_workday next_id fresh_row inserted_row]
    in Hsel.
  unfold create_audit_record, record_of in *.
  destruct (head (select_user_workday u d (audits s))) as [r|] eqn:Eh.
  - destruct r as [[i|] ? ? ? ? ? ? ? ? ? ? ? ? ? ?]; [discriminate Hinv|].
    unfold insert_audit.
    cbn -[select_user_workday delete_user_workday next_id fresh_row inserted_row].
    rewrite Hsel. reflexivity.
  - unfold insert_audit.
    cbn -[select_user_workday delete_user_workday next_id fresh_row inserted_row].
    rewrite Hsel. reflexivity.
Qed.

(** In the table without the key the new row has no identifier: the check
    fails, the transaction is rolled back and the call raises. *)
Lemma create_audit_record_keyless (s : Store) (u d : string) (e : option string) :
  audits_keyed s = false ->
  valid_record (record_of s u d) = false ->
  create_audit_record s u d e = (Raised, s).
Proof.
  intros Hk Hinv.
  assert (Hsel := recreated_select s u d e).
  rewrite Hk in Hsel. cbn [inserted_row] in Hsel.
  unfold recreated, insert_audit in *.
  cbn -[select_user_workday delete_user_workday next_id keyless_row inserted_row]
    in Hsel.
  unfold create_audit_record, record_of in *.
  destruct (head (select_user_workday u d (audits s))) as [r|] eqn:Eh.
  - destruct r as [[i|] ? ? ? ? ? ? ? ? ? ? ? ? ? ?]; [discriminate Hinv|].
    unfold insert_audit.
    cbn -[select_user_workday delete_user_workday next_id keyless_row inserted_row].
    rewrite Hsel. reflexivity.
  - unfold insert_audit.
    cbn -[select_user_workday delete_user_workday next_id keyless_row inserted_row].
    rewrite Hsel. reflexivity.
Qed.

(** C2, as the code has it.  Let the table hold at most one row for the
    user and workday.  On the table that [init_database] declares (every
    row has an identifier, and AUTOINCREMENT has not reached [max_rowid]),
    two calls of [create_audit_record] in sequence return the same
    identifier, the second call leaves the store as the first one made it,
    and exactly one row exists for the user and workday afterwards, carrying
    that identifier.  On the table without the key, when no row with an
    identifier exists for the user and workday, [create_audit_record] raises
    and leaves the store as it was. *)
Theorem create_audit_record_idempotent (s : Store) (u d : string)
  (e1 e2 : option string) :
  (length (select_user_workday u d (audits s)) <= 1)%nat ->
  (audits_keyed s = true ->
   Forall (fun r => Audit.id r <> None) (audits s) ->
   next_id (audits s) (audits_seq s) <= max_rowid ->
   exists (i : Z) (s1 : Store) (r : Audit.row),
     create_audit_record s u d e1 = (Returned i, s1)
     /\ create_audit_record s1 u d e2 = (Returned i, s1)
     /\ select_user_workday u d (audits s1) = [r]
     /\ Audit.id r = Some i)
  /\ (audits_keyed s = false ->
      valid_record (record_of s u d) = false ->
      create_audit_record s u d e1 = (Raised, s)
      /\ create_audit_record s u d e2 = (Raised, s)).
Proof.
  intros Hone. split.
  - intros Hk _ _.
    destruct (valid_record (record_of s u d)) eqn:Ev.
    + unfold valid_record in Ev.
      destruct (record_of s u d) as [r|] eqn:Er; [|discriminate].
      destruct (Audit.id r) as [i|] eqn:Ei; [|discriminate].
      exists i, s, r.
      rewrite !(create_audit_record_existing s u d _ r i Er Ei).
      repeat split; [|assumption].
      unfold record_of in Er.
      destruct (select_user_workday u d (audits s)) as [|x [|y l]];
        cbn [head length] in *; [discriminate | congruence | lia].
    + eexists _, _, _.
      rewrite (create_audit_record_new s u d e1 Hk Ev).
      split; [reflexivity|].
      split; [|split; [rewrite recreated_select, Hk; reflexivity | reflexivity]].
      eapply create_audit_record_existing.
      * unfold record_of. rewrite recreated_select, Hk. reflexivity.
      * reflexivity.
  - intros Hk Ev. split; apply create_audit_record_keyless; assumption.
Qed.

Lemma create_audit_record_idempotent_witness :
  (length (select_user_workday "U1" "2025-01-06" (audits empty_store)) <= 1)%nat
  /\ exists (i : Z) (s1 : Store) (r : Audit.row),
       create_audit_record empty_store "U1" "2025-01-06" (Some "09:00")
       = (Returned i, s1)
       /\ create_audit_record s1 "U1" "2025-01-06" (Some "09:30") = (Returned i, s1)
       /\ select_user_workday "U1" "2025-01-06" (audits s1) = [r]
       /\ Audit.id r = Some i.
Proof.
  assert (Hone : (length (select_user_workday "U1" "2025-01-06" (audits empty_store))
                  <= 1)%nat) by (cbn; lia).
  split; [exact Hone|].
  apply (proj1 (create_audit_record_idempotent empty_store "U1" "2025-01-06"
                  (Some "09:00") (Some "09:30") Hone)).
  - reflexivity.
  - constructor.
  - vm_compute. discriminate.
Defined.

(** C2 as stated fails.  After [clean_duplicate_columns] has rebuilt
    [audits] the table has no key; there a first [create_audit_record] for a
    user and workday returns no identifier: the inserted row reads back with
    a NULL id, the call rolls back and raises, and no record exists for the
    user and workday afterwards, however often the call is repeated. *)
Lemma create_audit_record_raises_without_key :
  let s := mkStoreOn false [] [] 0 ∅ in
  (length (select_user_workday "U1" "2025-01-06" (audits s)) <= 1)%nat
  /\ create_audit_record s "U1" "2025-01-06" (Some "09:00") = (Raised, s)
  /\ select_user_workday "U1" "2025-01-06"
       (audits (snd (create_audit_record s "U1" "2025-01-06" (Some "09:00"))))
     = []
  /\ create_audit_record
       (snd (create_audit_record s "U1" "2025-01-06" (Some "09:00")))
       "U1" "2025-01-06" (Some "09:00")
     = (Raised, s).
Proof. cbv zeta. split; [cbn; lia|]. repeat split. Qed.

(** ** [update_audit_record] with no fields *)

(** C10.  With an empty field map [update_audit_record] returns [None]
    (neither [True] nor [False]) and the store it was given, whatever the
    record id; [None] is as falsy as [False]. *)
Theorem update_audit_record_no_fields (s : Store) (audit_id : option Z) :
  update_audit_record s audit_id [] = (None, s)
  /\ fst (update_audit_record s audit_id []) <> Some true
  /\ fst (update_audit_record s audit_id []) <> Some false
  /\ truthy (fst (update_audit_record s audit_id [])) = truthy (Some false).
Proof. simpl. repeat split; discriminate. Qed.

(** ** Recording logins and logouts *)

Lemma filter_map_commute {A : Type} (p : A -> bool) (g : A -> A) (l : list A) :
  (forall x, p (g x) = p x) ->
  List.filter p (List.map g l) = List.map g (List.filter p l).
Proof.
  intros Hp. induction l as [|x l IH]; simpl; [reflexivity|].
  rewrite Hp. destruct (p x); simpl; rewrite IH; reflexivity.
Qed.

Lemma head_map {A B : Type} (g : A -> B) (l : list A) :
  head (List.map g l) = option_map g (head l).
Proof. destruct l; reflexivity. Qed.

Lemma head_filter_none {A : Type} (p : A -> bool) (l : list A) :
  head (List.filter p l) = None -> List.filter p l = [].
Proof. destruct (List.filter p l); [reflexivity | discriminate]. Qed.

(** An UPDATE that leaves the key columns alone does not move rows between
    users or workdays. *)
Lemma record_of_update (s : Store) (i : option Z) (F : Audit.row -> Audit.row)
  (u d : string) :
  (forall r, for_user_workday u d (F r) = for_user_workday u d r) ->
  record_of (with_audits (update_where_id i F (audits s)) s) u d
  = option_map (fun r => if id_is i r then F r else r) (record_of s u d).
Proof.
  intros HF. unfold record_of, select_user_workday, update_where_id. simpl.
  rewrite filter_map_commute.
  - apply head_map.
  - intros r. destruct (id_is i r); [apply HF | reflexivity].
Qed.

Lemma insert_audit_audits (s : Store) (u d : string) (l o e : option string) :
  audits (snd (insert_audit u d l o e s))
  = audits s
    ++ [inserted_row (audits_keyed s) (next_id (audits s) (audits_seq s)) u d l o e].
Proof. reflexivity. Qed.

Lemma record_of_insert_none (s : Store) (u d : string) (l o e : option string) :
  record_of s u d = None ->
  record_of (snd (insert_audit u d l o e s)) u d
  = Some (inserted_row (audits_keyed s) (next_id (audits s) (audits_seq s))
                       u d l o e).
Proof.
  unfold record_of. intros H. apply head_filter_none in H.
  rewrite insert_audit_audits.
  rewrite select_app, select_single_same.
  unfold select_user_workday. rewrite H. reflexivity.
Qed.

Lemma stored_times_inserted (k : bool) (i : Z) (u d : string)
  (l o e : option string) :
  stored_login_time (Some (inserted_row k i u d l o e)) = l
  /\ stored_logout_time (Some (inserted_row k i u d l o e)) = o.
Proof. destruct k; split; reflexivity. Qed.

Lemma stored_equal_true (o : option string) (t : string) :
  stored_equal o t = true <-> o = Some t.
Proof.
  destruct o as [x|]; simpl.
  - rewrite String.eqb_eq. split; congruence.
  - split; discriminate.
Qed.

Lemma update_user_login_unfold (s : Store) (u d t : string) :
  update_user_login s u d t
  = let s1 :=
      match record_of s u d with
      | Some r => login_written s r t
      | None => snd (insert_audit u d (Some t) None (lookup_expected_login_time u s) s)
      end in
    if stored_equal (stored_login_time (record_of s1 u d)) t
    then (true, s1) else (false, s).
Proof.
  unfold update_user_login, record_of, login_written. cbv zeta.
  destruct (head (select_user_workday u d (audits s))) as [r|];
    match goal with
    | |- match head ?l with _ => _ end = _ =>
        destruct (head l) as [v|]; [|reflexivity];
        simpl; destruct (Audit.login_time v); reflexivity
    end.
Qed.

Lemma record_user_logout_unfold (s : Store) (now : datetime) (u : string) :
  record_user_logout s now u
  = let d := strftime_Ymd now in
    let t := strftime_YmdHM now in
    let s1 :=
      match record_of s u d with
      | Some r => logout_written s r t
      | None => snd (insert_audit u d None (Some t) (lookup_expected_login_time u s) s)
      end in
    if stored_equal (stored_logout_time (record_of s1 u d)) t
    then (true, s1) else (false, s).
Proof.
  unfold record_user_logout, record_of, logout_written. cbv zeta.
  destruct (head (select_user_workday u (strftime_Ymd now) (audits s))) as [r|];
    match goal with
    | |- match head ?l with _ => _ end = _ =>
        destruct (head l) as [v|]; [|reflexivity];
        simpl; destruct (Audit.logout_time v); reflexivity
    end.
Qed.

Lemma id_is_refl (r : Audit.row) (i : Z) :
  Audit.id r = Some i -> id_is (Audit.id r) r = true.
Proof. unfold id_is. intros ->. apply Z.eqb_refl. Qed.

(** C3.  [update_user_login] and [record_user_logout] are upserts with a
    verified write.  With no record for the user and workday a row carrying
    the timestamp is inserted and the call succeeds.  With a record, the
    UPDATE writes the timestamp and the call succeeds exactly when the value
    read back afterwards equals the timestamp; for a record with a valid id
    it does.  Success means the stored value is the timestamp; failure
    returns the store unchanged. *)
Theorem login_logout_upsert_verified (s : Store) (now : datetime) (u d t : string) :
  ( (record_of s u d = None ->
     update_user_login s u d t
     = (true, snd (insert_audit u d (Some t) None
                                (lookup_expected_login_time u s) s)))
    /\ (forall r, record_of s u d = Some r ->
          update_user_login s u d t
          = if stored_equal (stored_login_time (record_of (login_written s r t) u d)) t
            then (true, login_written s r t) else (false, s))
    /\ (forall r i, record_of s u d = Some r -> Audit.id r = Some i ->
          update_user_login s u d t = (true, login_written s r t)
          /\ record_of (login_written s r t) u d
             = Some (Audit.set_login_time (Some t) r))
    /\ (forall s', update_user_login s u d t = (true, s') ->
          stored_login_time (record_of s' u d) = Some t)
    /\ (forall s', update_user_login s u d t = (false, s') -> s' = s) )
  /\
  ( let day := strftime_Ymd now in
    let stamp := strftime_YmdHM now in
    (record_of s u day = None ->
     record_user_logout s now u
     = (true, snd (insert_audit u day None (Some stamp)
                                (lookup_expected_login_time u s) s)))
    /\ (forall r, record_of s u day = Some r ->
          record_user_logout s now u
          = if stored_equal (stored_logout_time (record_of (logout_written s r stamp) u day)) stamp
            then (true, logout_written s r stamp) else (false, s))
    /\ (forall r i, record_of s u day = Some r -> Audit.id r = Some i ->
          record_user_logout s now u = (true, logout_written s r stamp)
          /\ record_of (logout_written s r stamp) u day
             = Some (Audit.set_logout_time (Some stamp) r))
    /\ (forall s', record_user_logout s now u = (true, s') ->
          stored_logout_time (record_of s' u day) = Some stamp)
    /\ (forall s', record_user_logout s now u = (false, s') -> s' = s) ).
Proof.
  split.
  - rewrite update_user_login_unfold. cbv zeta.
    repeat split.
    + intros Hnone. rewrite Hnone.
      rewrite (record_of_insert_none s u d _ _ _ Hnone).
      rewrite (proj1 (stored_times_inserted _ _ _ _ _ _ _)). cbn [stored_equal].
      rewrite String.eqb_refl. reflexivity.
    + intros r Hr. rewrite Hr. reflexivity.
    + rewrite H.
      assert (Hw : record_of (login_written s r t) u d
                   = Some (Audit.set_login_time (Some t) r)).
      { unfold login_written. rewrite record_of_update by reflexivity.
        rewrite H. simpl. rewrite (id_is_refl r i H0). reflexivity. }
      rewrite Hw. cbn [stored_equal stored_login_time stored_logout_time Audit.set_login_time Audit.login_time Audit.set_logout_time Audit.logout_time].
      rewrite String.eqb_refl. reflexivity.
    + unfold login_written. rewrite record_of_update by reflexivity.
      rewrite H. simpl. rewrite (id_is_refl r i H0). reflexivity.
    + intros s'.
      match goal with
      | |- (if stored_equal ?o t then _ else _) = _ -> _ =>
          destruct (stored_equal o t) eqn:E; [|discriminate]
      end.
      intros [= <-]. apply stored_equal_true. exact E.
    + intros s'.
      match goal with
      | |- (if stored_equal ?o t then _ else _) = _ -> _ =>
          destruct (stored_equal o t) eqn:E; [discriminate|]
      end.
      intros [= <-]. reflexivity.
  - rewrite record_user_logout_unfold. cbv zeta.
    set (day := strftime_Ymd now). set (stamp := strftime_YmdHM now).
    repeat split.
    + intros Hnone. rewrite Hnone.
      rewrite (record_of_insert_none s u day _ _ _ Hnone).
      rewrite (proj2 (stored_times_inserted _ _ _ _ _ _ _)). cbn [stored_equal].
      rewrite String.eqb_refl. reflexivity.
    + intros r Hr. rewrite Hr. reflexivity.
    + rewrite H.
      assert (Hw : record_of (logout_written s r stamp) u day
                   = Some (Audit.set_logout_time (Some stamp) r)).
      { unfold logout_written. rewrite record_of_update by reflexivity.
        rewrite H. simpl. rewrite (id_is_refl r i H0). reflexivity. }
      rewrite Hw. cbn [stored_equal stored_login_time stored_logout_time Audit.set_login_time Audit.login_time Audit.set_logout_time Audit.logout_time].
      rewrite String.eqb_refl. reflexivity.
    + unfold logout_written. rewrite record_of_update by reflexivity.
      rewrite H. simpl. rewrite (id_is_refl r i H0). reflexivity.
    + intros s'.
      match goal with
      | |- (if stored_equal ?o stamp then _ else _) = _ -> _ =>
          destruct (stored_equal o stamp) eqn:E; [|discriminate]
      end.
      intros [= <-]. apply stored_equal_true. exact E.
    + intros s'.
      match goal with
      | |- (if stored_equal ?o stamp then _ else _) = _ -> _ =>
          destruct (stored_equal o stamp) eqn:E; [discriminate|]
      end.
      intros [= <-]. reflexivity.
Qed.

(** ** [update_audit_record] *)

Lemma set_field_keys (f : field) (r : Audit.row) :
  Audit.id (set_field f r) = Audit.id r
  /\ Audit.user_slack_id (set_field f r) = Audit.user_slack_id r
  /\ Audit.workday (set_field f r) = Audit.workday r.
Proof. destruct f; try destruct c; repeat split; reflexivity. Qed.

Lemma set_fields_keys (kwargs : list field) (r : Audit.row) :
  Audit.id (set_fields kwargs r) = Audit.id r
  /\ Audit.user_slack_id (set_fields kwargs r) = Audit.user_slack_id r
  /\ Audit.workday (set_fields kwargs r) = Audit.workday r.
Proof.
  unfold set_fields. revert r.
  induction kwargs as [|f kwargs IH]; intros r; simpl; [tauto|].
  destruct (IH (set_field f r)) as (-> & -> & ->). apply set_field_keys.
Qed.

Lemma read_set_other (f g : field) (r : Audit.row) :
  is_column f = true -> is_column g = true ->
  field_key f <> field_key g ->
  read_field f (set_field g r) = read_field f r.
Proof.
  destruct f as [| | | | | | | | | | | | c1 ?|], g as [| | | | | | | | | | | | c2 ?|];
    try destruct c1; try destruct c2; cbn; intros Hf Hg Hk;
    try reflexivity; try discriminate; exfalso; apply Hk; reflexivity.
Qed.

Lemma read_set_fields_absent (f : field) (kwargs : list field) (r : Audit.row) :
  is_column f = true -> forallb is_column kwargs = true ->
  ~ In (field_key f) (List.map field_key kwargs) ->
  read_field f (set_fields kwargs r) = read_field f r.
Proof.
  unfold set_fields. revert r.
  induction kwargs as [|g kwargs IH]; intros r Hf Hall Hnin; simpl in *;
    [reflexivity|].
  apply andb_true_iff in Hall. destruct Hall as [Hg Hall].
  rewrite IH by tauto.
  apply read_set_other; try assumption.
  intros E. apply Hnin. left. symmetry. exact E.
Qed.

Lemma id_is_set_fields (i : option Z) (kwargs : list field) (r : Audit.row) :
  id_is i (set_fields kwargs r) = id_is i r.
Proof.
  unfold id_is. destruct (set_fields_keys kwargs r) as (-> & _). reflexivity.
Qed.

(** The rows with a given id after an UPDATE on that id that leaves the id
    column alone. *)
Lemma select_update_where_id (i : option Z) (F : Audit.row -> Audit.row)
  (rows : list Audit.row) :
  (forall r, id_is i (F r) = id_is i r) ->
  select_where_id i (update_where_id i F rows)
  = List.map F (select_where_id i rows).
Proof.
  intros HF. unfold select_where_id, update_where_id.
  induction rows as [|r rows IH]; simpl; [reflexivity|].
  destruct (id_is i r) eqn:E.
  - rewrite HF, E. simpl. rewrite IH. reflexivity.
  - rewrite E. exact IH.
Qed.

(** With a non-empty field map the call succeeds exactly when the id is not
    [None], the statement can be executed and a row with that id exists:
    the values read back play no part. *)
Lemma update_audit_record_cases (s : Store) (audit_id : option Z)
  (kwargs : list field) :
  kwargs <> [] ->
  update_audit_record s audit_id kwargs
  = match audit_id with
    | None => (Some false, s)
    | Some _ =>
        if forallb is_column kwargs && forallb bindable kwargs then
          match head (select_where_id audit_id (audits s)) with
          | Some _ =>
              (Some true,
               with_audits (update_where_id audit_id (set_fields kwargs) (audits s)) s)
          | None => (Some false, s)
          end
        else (Some false, s)
    end.
Proof.
  intros Hne. unfold update_audit_record.
  destruct kwargs as [|f kwargs]; [congruence|].
  destruct audit_id as [i|]; [|reflexivity].
  destruct (forallb is_column (f :: kwargs) && forallb bindable (f :: kwargs));
    [|reflexivity].
  rewrite select_update_where_id by (intros r; apply id_is_set_fields).
  rewrite head_map.
  destruct (head (select_where_id (Some i) (audits s))); reflexivity.
Qed.

(** C4 fails on the code.  [update_audit_record(1, login_time=5)] on a
    table whose row 1 exists: the TEXT column stores the text ["5"], the
    value read back is that text and not the integer that was passed, so the
    verification as the claim words it does not hold; the call commits the
    UPDATE and returns [True] all the same, because the code tests only
    that the re-read returned a row. *)
Theorem update_audit_record_accepts_mismatch :
  let r := fresh_row 1 "U1" "2025-01-06" None None (Some "09:00") in
  let s := mkStore [] [r] 1 ∅ in
  let kwargs := [kw_int_as_text login_time_column 5] in
  let s' := with_audits [Audit.set_login_time (Some "5") r] s in
  update_audit_record s (Some 1) kwargs = (Some true, s')
  /\ head (select_where_id (Some 1) (audits s'))
     = Some (Audit.set_login_time (Some "5") r)
  /\ read_field (kw_int_as_text login_time_column 5)
                (Audit.set_login_time (Some "5") r)
     = kw_login_time (Some "5")
  /\ ~ verification_holds (audits s') (Some 1) kwargs.
Proof.
  cbv zeta. split; [reflexivity|]. split; [reflexivity|]. split; [reflexivity|].
  intros (x & Hx & Hback).
  specialize (Hback _ (or_introl eq_refl)).
  injection Hx as <-. discriminate Hback.
Qed.

(** ** Reading audit records *)

(** A record with a valid id is returned as stored and nothing is written. *)
Lemma get_audit_record_valid (s : Store) (u d : string) (r : Audit.row) (i : Z) :
  record_of s u d = Some r -> Audit.id r = Some i ->
  get_audit_record s u d = (Some r, s).
Proof.
  unfold record_of, get_audit_record. intros Hr Hid.
  rewrite Hr, Hid. cbv zeta. cbv iota. rewrite Hr, Hid. reflexivity.
Qed.

(** No record: nothing is returned and nothing is written. *)
Lemma get_audit_record_absent (s : Store) (u d : string) :
  record_of s u d = None -> get_audit_record s u d = (None, s).
Proof.
  intros Hr.
  assert (Hnil : select_user_workday u d (audits s) = [])
    by (apply head_filter_none; exact Hr).
  unfold get_audit_record. rewrite Hnil.
  cbn [head length]. change (0 <? 0)%nat with false. cbv zeta iota.
  rewrite Hnil. reflexivity.
Qed.

Lemma select_singleton (s : Store) (r : Audit.row) :
  In r (audits s) ->
  (length (select_user_workday (Audit.user_slack_id r) (Audit.workday r) (audits s))
   <= 1)%nat ->
  select_user_workday (Audit.user_slack_id r) (Audit.workday r) (audits s) = [r].
Proof.
  intros Hin Hlen.
  assert (Hsel : In r (select_user_workday (Audit.user_slack_id r) (Audit.workday r)
                                            (audits s))).
  { apply select_in. tauto. }
  destruct (select_user_workday (Audit.user_slack_id r) (Audit.workday r) (audits s))
    as [|x [|y l]]; simpl in *; [tauto | | lia].
  destruct Hsel as [->|[]]. reflexivity.
Qed.

(** C9.  For a row with id [R] that is the only row of its user and
    workday, [update_audit_record(R, login_time=X)] succeeds and the
    [get_audit_record] that follows for that user and workday returns the
    row with [login_time] equal to [X], writing nothing. *)
Theorem update_login_time_round_trip (s : Store) (R : Z) (X : string)
  (r : Audit.row) :
  In r (audits s) ->
  Audit.id r = Some R ->
  (length (select_user_workday (Audit.user_slack_id r) (Audit.workday r) (audits s))
   <= 1)%nat ->
  exists (s' : Store) (rec : Audit.row),
    update_audit_record s (Some R) [kw_login_time (Some X)] = (Some true, s')
    /\ get_audit_record s' (Audit.user_slack_id r) (Audit.workday r) = (Some rec, s')
    /\ Audit.login_time rec = Some X
    /\ Audit.id rec = Some R.
Proof.
  intros Hin Hid Hone.
  set (kwargs := [kw_login_time (Some X)]).
  exists (with_audits (update_where_id (Some R) (set_fields kwargs) (audits s)) s),
         (set_fields kwargs r).
  split.
  - rewrite update_audit_record_cases by discriminate.
    cbn [forallb is_column bindable kwargs andb].
    assert (Hsel : In r (select_where_id (Some R) (audits s))).
    { unfold select_where_id. apply List.filter_In. split; [assumption|].
      rewrite <- Hid. apply (id_is_refl r R Hid). }
    destruct (select_where_id (Some R) (audits s)); [destruct Hsel | reflexivity].
  - split; [|split; reflexivity || exact Hid].
    apply (get_audit_record_valid _ _ _ _ R); [|exact Hid].
    rewrite record_of_update.
    + unfold record_of. rewrite (select_singleton s r Hin Hone).
      cbn [head option_map].
      replace (id_is (Some R) r) with true; [reflexivity|].
      symmetry. rewrite <- Hid. apply (id_is_refl r R Hid).
    + intros x. unfold for_user_workday.
      destruct (set_fields_keys kwargs x) as (_ & -> & ->). reflexivity.
Qed.

Lemma update_login_time_round_trip_witness :
  let s := snd (insert_audit "U1" "2025-01-06" None None (Some "09:00") empty_store) in
  let r := fresh_row 1 "U1" "2025-01-06" None None (Some "09:00") in
  In r (audits s)
  /\ exists (s' : Store) (rec : Audit.row),
       update_audit_record s (Some 1) [kw_login_time (Some "2025-01-06 09:12")]
       = (Some true, s')
       /\ get_audit_record s' "U1" "2025-01-06" = (Some rec, s')
       /\ Audit.login_time rec = Some "2025-01-06 09:12"
       /\ Audit.id rec = Some 1.
Proof.
  split.
  - simpl. left. reflexivity.
  - apply (update_login_time_round_trip
             (snd (insert_audit "U1" "2025-01-06" None None (Some "09:00") empty_store))
             1 "2025-01-06 09:12"
             (fresh_row 1 "U1" "2025-01-06" None None (Some "09:00"))).
    + simpl. left. reflexivity.
    + reflexivity.
    + simpl. lia.
Defined.

(** ** Times of day as text *)

(** [users.user_login_time] and [strftime("%H:%M")] are compared as text.
    For values written as [HH:MM] the order of the texts is the order of the
    times of day. *)
Lemma digit_of_ascii_some (c : ascii) (n : nat) :
  digit_of_ascii c = Some n -> c = digit_char n /\ (n < 10)%nat.
Proof.
  destruct c as [[] [] [] [] [] [] [] []]; intros H; cbv in H;
    try discriminate H; injection H as <-; (split; [reflexivity | lia]).
Qed.

Lemma ascii_compare_digit (a b : nat) :
  (a < 10)%nat -> (b < 10)%nat ->
  Ascii.compare (digit_char a) (digit_char b) = Nat.compare a b.
Proof.
  intros Ha Hb.
  do 10 (destruct a as [|a]; [do 10 (destruct b as [|b]; [reflexivity|]); exfalso; lia|]).
  exfalso; lia.
Qed.

Lemma digit_char_mod (n : nat) : digit_char n = digit_char (n mod 10).
Proof. unfold digit_char. rewrite Nat.Div0.mod_mod. reflexivity. Qed.

Lemma string_compare_cons (c1 c2 : ascii) (s1 s2 : string) :
  String.compare (String c1 s1) (String c2 s2)
  = match Ascii.compare c1 c2 with Eq => String.compare s1 s2 | Lt => Lt | Gt => Gt end.
Proof. reflexivity. Qed.

Lemma leb_hhmm (t : string) (m : nat) (now : datetime) :
  minutes_of_hhmm t = Some m -> valid_time now ->
  String.leb t (strftime_HM now) = true <-> (m <= minutes_of_day now)%nat.
Proof.
  intros Hm [Hh Hmin].
  destruct t as [|h1 [|h2 [|sep [|m1 [|m2 [|]]]]]]; try discriminate Hm.
  simpl in Hm.
  destruct (digit_of_ascii h1) as [a|] eqn:E1; [|discriminate].
  destruct (digit_of_ascii h2) as [b|] eqn:E2; [|discriminate].
  destruct (digit_of_ascii m1) as [c|] eqn:E3; [|discriminate].
  destruct (digit_of_ascii m2) as [d|] eqn:E4; [|discriminate].
  apply digit_of_ascii_some in E1, E2, E3, E4.
  destruct E1 as [-> Ha], E2 as [-> Hb], E3 as [-> Hc], E4 as [-> Hd].
  match type of Hm with
  | (if ?c then _ else _) = _ => destruct c eqn:Ec; [|discriminate Hm]
  end.
  injection Hm as <-.
  apply andb_true_iff in Ec. destruct Ec as [Ec EM].
  apply andb_true_iff in Ec. destruct Ec as [Esep EH].
  apply Ascii.eqb_eq in Esep. subst sep.
  apply Nat.ltb_lt in EH, EM.
  unfold String.leb, strftime_HM, pad2, minutes_of_day.
  cbv beta iota fix delta [String.append].
  rewrite (digit_char_mod (hour now)), (digit_char_mod (minute now)).
  rewrite !string_compare_cons.
  pose proof (Nat.div_mod_eq (hour now) 10) as Eh.
  pose proof (Nat.div_mod_eq (minute now) 10) as Em.
  pose proof (Nat.mod_upper_bound (hour now) 10 ltac:(discriminate)) as Bh.
  pose proof (Nat.mod_upper_bound (minute now) 10 ltac:(discriminate)) as Bm.
  generalize dependent (hour now / 10)%nat. intros p1.
  generalize dependent (hour now mod 10)%nat. intros p2.
  generalize dependent (minute now / 10)%nat. intros q1.
  generalize dependent (minute now mod 10)%nat. intros q2.
  intros.
  rewrite !ascii_compare_digit by lia.
  change (Ascii.compare ":" ":") with Eq. cbv iota.
  destruct (Nat.compare_spec a p1);
  destruct (Nat.compare_spec b p2);
  destruct (Nat.compare_spec c q1);
  destruct (Nat.compare_spec d q2);
  simpl; split; intros; try reflexivity; try discriminate; lia.
Qed.

(** ** Users past their expected login *)

Lemma mem_string_map_filter (x : string) (p : Audit.row -> bool)
  (rows : list Audit.row) :
  mem_string x (List.map Audit.user_slack_id (List.filter p rows)) = true
  <-> exists a, In a rows /\ p a = true /\ Audit.user_slack_id a = x.
Proof.
  unfold mem_string. rewrite List.existsb_exists. split.
  - intros (y & Hin & Heq). apply List.in_map_iff in Hin.
    destruct Hin as (a & <- & Hin). apply List.filter_In in Hin.
    apply String.eqb_eq in Heq. exists a. intuition.
  - intros (a & Hin & Hp & <-). exists (Audit.user_slack_id a). split.
    + apply List.in_map. apply List.filter_In. tauto.
    + apply String.eqb_refl.
Qed.

Lemma is_null_false {A : Type} (v : option A) : is_null v = false <-> v <> None.
Proof. destruct v; simpl; split; congruence. Qed.

Lemma is_null_true {A : Type} (v : option A) : is_null v = true <-> v = None.
Proof. destruct v; simpl; split; congruence. Qed.

(** The query with the comparison as SQLite evaluates it, on text. *)
Lemma get_users_without_login_in (s : Store) (now : datetime) (u : User.row) :
  In u (get_users_without_login s now) <->
  In u (users s)
  /\ (exists t, User.user_login_time u = Some t
                /\ String.leb t (strftime_HM now) = true)
  /\ (~ has_login_today s (strftime_Ymd now) u
      \/ has_unset_login_today s (strftime_Ymd now) u).
Proof.
  unfold get_users_without_login. cbv zeta.
  rewrite List.filter_In, andb_true_iff, orb_true_iff, negb_true_iff.
  rewrite <- not_true_iff_false, !mem_string_map_filter.
  assert (H1 : (exists a, In a (audits s)
                  /\ String.eqb (Audit.workday a) (strftime_Ymd now)
                     && negb (is_null (Audit.login_time a)) = true
                  /\ Audit.user_slack_id a = User.user_slack_id u)
               <-> has_login_today s (strftime_Ymd now) u).
  { unfold has_login_today. split; intros (a & Hin & H); exists a;
      (split; [exact Hin|]).
    - destruct H as [H Hu]. apply andb_true_iff in H. destruct H as [Hd Hl].
      apply String.eqb_eq in Hd. apply negb_true_iff, is_null_false in Hl. tauto.
    - destruct H as (Hu & Hd & Hl). split; [|exact Hu].
      apply andb_true_iff. split; [apply String.eqb_eq; exact Hd|].
      apply negb_true_iff, is_null_false. exact Hl. }
  assert (H2 : (exists a, In a (audits s)
                  /\ is_null (Audit.login_time a)
                     && String.eqb (Audit.workday a) (strftime_Ymd now) = true
                  /\ Audit.user_slack_id a = User.user_slack_id u)
               <-> has_unset_login_today s (strftime_Ymd now) u).
  { unfold has_unset_login_today. split; intros (a & Hin & H); exists a;
      (split; [exact Hin|]).
    - destruct H as [H Hu]. apply andb_true_iff in H. destruct H as [Hl Hd].
      apply String.eqb_eq in Hd. apply is_null_true in Hl. tauto.
    - destruct H as (Hu & Hd & Hl). split; [|exact Hu].
      apply andb_true_iff. split; [apply is_null_true; exact Hl|].
      apply String.eqb_eq. exact Hd. }
  rewrite H1, H2.
  destruct (User.user_login_time u) as [t|].
  - split.
    + intros (Hin & Hle & Hrec). split; [exact Hin|]. split; [|exact Hrec].
      exists t. tauto.
    + intros (Hin & (t' & [= <-] & Hle) & Hrec). tauto.
  - split.
    + intros (_ & Hf & _). discriminate.
    + intros (_ & (t' & Hf & _) & _). discriminate.
Qed.

(** C5, as the code has it.  [get_users_without_login] returns the user
    exactly when the user is in [users], the configured login time is not
    NULL and, compared as text, is at most the current time written
    [HH:MM], and there is no audit row of the user for today that carries a
    login timestamp or there is one whose login timestamp is unset.  For a
    login time written [HH:MM] the comparison of the texts is the comparison
    of the times of day; the empty text compares below every current
    time. *)
Theorem get_users_without_login_text_order (s : Store) (now : datetime)
  (u : User.row) :
  (In u (get_users_without_login s now) <->
   In u (users s)
   /\ (exists t, User.user_login_time u = Some t
                 /\ String.leb t (strftime_HM now) = true)
   /\ (~ has_login_today s (strftime_Ymd now) u
       \/ has_unset_login_today s (strftime_Ymd now) u))
  /\ (valid_time now ->
      forall t m, minutes_of_hhmm t = Some m ->
        (String.leb t (strftime_HM now) = true <-> (m <= minutes_of_day now)%nat))
  /\ (valid_time now -> login_time_well_formed u ->
      (In u (get_users_without_login s now) <->
       In u (users s)
       /\ (exists m, expected_login_minutes u = Some m
                     /\ (m <= minutes_of_day now)%nat)
       /\ (~ has_login_today s (strftime_Ymd now) u
           \/ has_unset_login_today s (strftime_Ymd now) u)))
  /\ String.leb "" (strftime_HM now) = true.
Proof.
  split; [apply get_users_without_login_in|].
  split; [intros Hnow t m Hm; apply leb_hhmm; assumption|].
  split; [|unfold String.leb; destruct (strftime_HM now); reflexivity].
  intros Hnow Hwf. rewrite get_users_without_login_in.
  unfold expected_login_minutes, login_time_well_formed in *.
  destruct (User.user_login_time u) as [t|].
  - destruct (minutes_of_hhmm t) as [m|] eqn:Em.
    + pose proof (leb_hhmm t m now Em Hnow) as Hle.
      split.
      * intros (Hin & (t' & [= <-] & Ht) & Hrec).
        split; [exact Hin|]. split; [|exact Hrec].
        exists m. split; [reflexivity | apply Hle; exact Ht].
      * intros (Hin & (m' & [= <-] & Hm) & Hrec).
        split; [exact Hin|]. split; [|exact Hrec].
        exists t. split; [reflexivity | apply Hle; exact Hm].
    + exfalso. apply (Hwf t); [reflexivity | exact Em].
  - split.
    + intros (_ & (t' & Hf & _) & _). discriminate.
    + intros (_ & (m & Hf & _) & _). discriminate.
Qed.

(** C5 as stated fails.  The dashboard stores the login time as the text
    that was typed.  A user whose login time was typed as [9:00], with no
    audit row, is past the expected login at 10:00 and is not returned: as
    text, ["9:00"] is above ["10:00"].  A user whose login time was left
    blank has no expected time of day and is returned at midnight. *)
Lemma get_users_without_login_not_by_time_of_day :
  let late := User.mk "U1" "Ann" (Some "9:00") (Some "S1") None None None in
  let blank := User.mk "U2" "Bob" (Some "") (Some "S1") None None None in
  let s := mkStore [late; blank] [] 0 ∅ in
  let ten := mkDatetime 2025 1 6 10 0 0 in
  let midnight := mkDatetime 2025 1 6 0 0 0 in
  (spec_time_of_day "9:00" = Some 540%nat
   /\ minutes_of_day ten = 600%nat
   /\ ~ has_login_today s (strftime_Ymd ten) late
   /\ ~ In late (get_users_without_login s ten))
  /\ (spec_time_of_day "" = None
      /\ In blank (get_users_without_login s midnight)).
Proof.
  cbv zeta. split.
  - split; [reflexivity|]. split; [reflexivity|]. split.
    + intros (a & Ha & _). destruct Ha.
    + vm_compute. intros [H|[]]. discriminate H.
  - split; [reflexivity|]. vm_compute. left. reflexivity.
Qed.

(** ** Stuck records *)

Lemma reset_stuck_id (stamp : string) (r : Audit.row) :
  Audit.id (reset_stuck stamp r) = Audit.id r.
Proof. reflexivity. Qed.

Lemma reset_stuck_idempotent (stamp : string) (r : Audit.row) :
  reset_stuck stamp (reset_stuck stamp r) = reset_stuck stamp r.
Proof. reflexivity. Qed.

(** The loop over [stuck_ids]: a row is rewritten when its id is among
    them. *)
Lemma fix_loop (stamp : string) (ids : list (option Z)) (rows : list Audit.row) :
  fold_left (fun rows audit_id => update_where_id audit_id (reset_stuck stamp) rows)
            ids rows
  = List.map (fun r => if existsb (fun i => id_is i r) ids
                       then reset_stuck stamp r else r) rows.
Proof.
  revert rows. induction ids as [|i ids IH]; intros rows; simpl.
  - symmetry. apply List.map_id.
  - rewrite IH. unfold update_where_id. rewrite List.map_map.
    apply List.map_ext. intros r.
    destruct (id_is i r) eqn:E; simpl.
    + assert (Hsame : existsb (fun j => id_is j (reset_stuck stamp r)) ids
                      = existsb (fun j => id_is j r) ids)
        by reflexivity.
      rewrite Hsame. destruct (existsb (fun j => id_is j r) ids); reflexivity.
    + reflexivity.
Qed.

Lemma nodup_map_injective {A B : Type} (f : A -> B) (l : list A) (x y : A) :
  List.NoDup (List.map f l) -> In x l -> In y l -> f x = f y -> x = y.
Proof.
  induction l as [|a l IH]; simpl; [tauto|].
  intros Hnd Hx Hy Hf. apply List.NoDup_cons_iff in Hnd. destruct Hnd as [Hnin Hnd].
  destruct Hx as [->|Hx], Hy as [->|Hy].
  - reflexivity.
  - exfalso. apply Hnin. rewrite Hf. apply List.in_map. exact Hy.
  - exfalso. apply Hnin. rewrite <- Hf. apply List.in_map. exact Hx.
  - apply IH; assumption.
Qed.

Lemma id_is_eq (i : option Z) (r : Audit.row) :
  id_is i r = true <-> i = Audit.id r /\ i <> None.
Proof.
  unfold id_is. destruct i as [a|], (Audit.id r) as [b|]; split;
    try (intros H; discriminate H); try (intros [H1 H2]; congruence).
  - intros H. apply Z.eqb_eq in H. split; congruence.
  - intros [[= ->] _]. apply Z.eqb_refl.
Qed.

(** With valid, distinct identifiers the identifiers selected by
    [fix_stuck_records] address the stuck rows and no others. *)
Lemma stuck_ids_select (today : string) (rows : list Audit.row) (r : Audit.row) :
  List.NoDup (List.map Audit.id rows) ->
  Forall (fun x => Audit.id x <> None) rows ->
  In r rows ->
  existsb (fun i => id_is i r)
          (List.map Audit.id (List.filter (is_stuck today) rows))
  = is_stuck today r.
Proof.
  intros Hnd Hvalid Hin.
  destruct (is_stuck today r) eqn:Es.
  - apply List.existsb_exists. exists (Audit.id r). split.
    + apply List.in_map. apply List.filter_In. tauto.
    + apply id_is_eq. split; [reflexivity|].
      rewrite List.Forall_forall in Hvalid. apply Hvalid. exact Hin.
  - apply not_true_iff_false. intros H.
    apply List.existsb_exists in H. destruct H as (i & Hi & Hid).
    apply List.in_map_iff in Hi. destruct Hi as (x & <- & Hx).
    apply List.filter_In in Hx. destruct Hx as [Hx Hsx].
    apply id_is_eq in Hid. destruct Hid as [Hid _].
    assert (x = r) by (eapply nodup_map_injective; eauto).
    subst x. congruence.
Qed.

Lemma gt0_true (v : option Z) : gt0 v = true <-> exists n, v = Some n /\ 0 < n.
Proof.
  destruct v as [z|]; simpl.
  - rewrite Z.ltb_lt. split.
    + intros H. exists z. tauto.
    + intros (n & [= ->] & H). exact H.
  - split; [discriminate | intros (n & H & _); discriminate].
Qed.

Lemma eq0_true (v : option Z) : eq0 v = true <-> v = Some 0.
Proof.
  destruct v as [z|]; simpl.
  - rewrite Z.eqb_eq. split; congruence.
  - split; discriminate.
Qed.

(** C6, as the code has it.  A row is classified as stuck exactly when its
    workday is today, the primary supervisor has been notified, the second
    tier has not been notified and the primary supervisor has not
    acknowledged; the time of the last notification plays no part.
    [check_database_integrity] counts these rows.  With valid, distinct
    identifiers, [fix_stuck_records] rewrites exactly these rows, setting
    [second_supervisor_notified] and [is_second_supervisor_acknowledged] to 0
    and [last_supervisor_notification_time] to the current time, and leaves
    every other row as it was. *)
Theorem stuck_records_reset (s : Store) (now : datetime) (stamp : string) :
  List.NoDup (List.map Audit.id (audits s)) ->
  Forall (fun r => Audit.id r <> None) (audits s) ->
  let today := strftime_Ymd now in
  (forall r, is_stuck today r = true <->
             Audit.workday r = today
             /\ (exists n, Audit.supervisor_notified r = Some n /\ 0 < n)
             /\ Audit.second_supervisor_notified r = Some 0
             /\ Audit.is_supervisor_acknowledged r = Some 0)
  /\ (forall r t, is_stuck today (Audit.set_last_supervisor_notification_time t r)
                  = is_stuck today r)
  /\ check_database_integrity s now
     = (let n := length (List.filter (is_stuck today) (audits s)) in
        if (0 <? n)%nat then Some n else None)
  /\ fix_stuck_records s now stamp
     = (length (List.filter (is_stuck today) (audits s)),
        with_audits (List.map (reset_if_stuck today stamp) (audits s)) s)
  /\ (forall r, reset_if_stuck today stamp r
                = if is_stuck today r
                  then Audit.set_last_supervisor_notification_time (Some stamp)
                         (Audit.set_is_second_supervisor_acknowledged (Some 0)
                            (Audit.set_second_supervisor_notified (Some 0) r))
                  else r).
Proof.
  intros Hnd Hvalid today. repeat split.
  - unfold is_stuck in H. rewrite !andb_true_iff in H.
    apply String.eqb_eq. tauto.
  - unfold is_stuck in H. rewrite !andb_true_iff in H.
    apply gt0_true. tauto.
  - unfold is_stuck in H. rewrite !andb_true_iff in H.
    apply eq0_true. tauto.
  - unfold is_stuck in H. rewrite !andb_true_iff in H.
    apply eq0_true. tauto.
  - intros (Hd & Hn & H2 & Ha). unfold is_stuck. rewrite !andb_true_iff.
    repeat split.
    + apply String.eqb_eq. exact Hd.
    + apply gt0_true. exact Hn.
    + apply eq0_true. exact H2.
    + apply eq0_true. exact Ha.
  - unfold fix_stuck_records. cbv zeta. fold today.
    rewrite List.length_map. f_equal. f_equal.
    rewrite fix_loop. apply List.map_ext_in. intros r Hin.
    unfold reset_if_stuck. rewrite stuck_ids_select by assumption. reflexivity.
Qed.

Lemma stuck_records_reset_witness :
  let r := Audit.mk (Some 1) "U1" "2025-01-06" None None (Some 3) (Some 1) (Some 0)
                    (Some 0) (Some 1) (Some "2025-01-06 09:06:00") None
                    (Some "09:00") (Some 0) (Some 0) in
  let s := mkStore [] [r] 1 ∅ in
  let now := mkDatetime 2025 1 6 9 8 0 in
  List.NoDup (List.map Audit.id (audits s))
  /\ Forall (fun x => Audit.id x <> None) (audits s)
  /\ fix_stuck_records s now "2025-01-06 09:08:30"
     = (1%nat,
        with_audits
          (List.map (reset_if_stuck (strftime_Ymd now) "2025-01-06 09:08:30") (audits s))
          s).
Proof.
  pose (r := Audit.mk (Some 1) "U1" "2025-01-06" None None (Some 3) (Some 1) (Some 0)
                      (Some 0) (Some 1) (Some "2025-01-06 09:06:00") None
                      (Some "09:00") (Some 0) (Some 0)).
  pose (s := mkStore [] [r] 1 ∅).
  assert (Hnd : List.NoDup (List.map Audit.id (audits s))).
  { apply NoDup_ListNoDup. apply (bool_decide_unpack _). vm_compute. exact I. }
  assert (Hvalid : Forall (fun x => Audit.id x <> None) (audits s)).
  { repeat constructor. discriminate. }
  split; [exact Hnd|]. split; [exact Hvalid|].
  exact (proj1 (proj2 (proj2 (proj2
           (stuck_records_reset s (mkDatetime 2025 1 6 9 8 0) "2025-01-06 09:08:30"
                                Hnd Hvalid))))).
Defined.

(** C6 as stated fails.  A row whose supervisor was notified this very
    minute is classified as stuck and rewritten although the escalation
    window of [SUPERVISOR_ESCALATION_MINUTES] has not elapsed; a row of
    yesterday whose window has long elapsed is not classified as stuck. *)
Lemma stuck_ignores_escalation_window :
  let now := mkDatetime 2025 1 6 9 8 0 in
  let just_notified :=
    Audit.mk (Some 1) "U1" "2025-01-06" None None (Some 3) (Some 1) (Some 0)
             (Some 0) (Some 0) (Some "2025-01-06 09:08:00") None
             (Some "09:00") (Some 0) (Some 0) in
  let yesterday :=
    Audit.mk (Some 2) "U2" "2025-01-05" None None (Some 3) (Some 1) (Some 0)
             (Some 0) (Some 0) (Some "2025-01-05 09:08:00") None
             (Some "09:00") (Some 0) (Some 0) in
  let s := mkStore [] [just_notified; yesterday] 2 ∅ in
  spec_stuck now just_notified = false
  /\ is_stuck (strftime_Ymd now) just_notified = true
  /\ spec_stuck now yesterday = true
  /\ is_stuck (strftime_Ymd now) yesterday = false
  /\ check_database_integrity s now = Some 1%nat
  /\ audits (snd (fix_stuck_records s now "2025-01-06 09:08:30"))
     = [reset_stuck "2025-01-06 09:08:30" just_notified; yesterday].
Proof. vm_compute. repeat split. Qed.

(** ** Repairing rows without an identifier *)

Lemma get_audit_record_repair (s : Store) (u d : string) (r : Audit.row)
  (rest : list Audit.row) :
  select_user_workday u d (audits s) = r :: rest ->
  Audit.id r = None ->
  get_audit_record s u d
  = ((if audits_keyed s
      then Some (fresh_row (next_id (delete_user_workday u d (audits s))
                                    (audits_seq s))
                           u d None None (lookup_expected_login_time u s))
      else None),
     recreated s u d (lookup_expected_login_time u s)).
Proof.
  intros Hsel Hid.
  assert (Hrec := recreated_select s u d (lookup_expected_login_time u s)).
  unfold get_audit_record. rewrite Hsel. cbn [head length]. rewrite Hid.
  change (0 <? S (length rest))%nat with true. cbv zeta iota.
  change (snd (insert_audit u d None None
                 (lookup_expected_login_time u
                    (with_audits (delete_user_workday u d (audits s)) s))
                 (with_audits (delete_user_workday u d (audits s)) s)))
    with (recreated s u d (lookup_expected_login_time u s)).
  rewrite Hrec. destruct (audits_keyed s); reflexivity.
Qed.

Lemma filter_filter_commute {A : Type} (p q : A -> bool) (l : list A) :
  List.filter p (List.filter q l) = List.filter q (List.filter p l).
Proof.
  induction l as [|x l IH]; simpl; [reflexivity|].
  destruct (q x) eqn:Eq, (p x) eqn:Ep; simpl; rewrite ?Eq, ?Ep, IH; reflexivity.
Qed.

Lemma filter_nil_existsb {A : Type} (p : A -> bool) (l : list A) :
  List.filter p l = [] -> existsb p l = false.
Proof.
  induction l as [|x l IH]; simpl; [reflexivity|].
  destruct (p x); [discriminate | exact IH].
Qed.

(** The rows of one user and workday in a table filled by
    [INSERT INTO new_audits ... SELECT]: one copy per source row, each with
    an identifier of its own. *)
Lemma insert_copy_select (u d : string) (src : list Audit.row)
  (tbl : list Audit.row * Z) :
  exists copies,
    select_user_workday u d (fst (fold_left insert_copy src tbl))
    = select_user_workday u d (fst tbl) ++ copies
    /\ Forall2 (fun r c => exists i, c = copy_row i r)
               (select_user_workday u d src) copies.
Proof.
  revert tbl. induction src as [|a src IH]; intros tbl; simpl.
  - exists []. split; [symmetry; apply app_nil_r | constructor].
  - destruct (IH (insert_copy tbl a)) as (copies & Hsel & Hall).
    rewrite Hsel. unfold insert_copy at 1. simpl fst.
    rewrite select_app.
    unfold select_user_workday at 2. simpl List.filter.
    change (for_user_workday u d (copy_row (next_id (fst tbl) (snd tbl)) a))
      with (for_user_workday u d a).
    destruct (for_user_workday u d a).
    + exists (copy_row (next_id (fst tbl) (snd tbl)) a :: copies). split.
      * rewrite <- app_assoc. reflexivity.
      * constructor; [eexists; reflexivity | exact Hall].
    + exists copies. split; [rewrite app_nil_r; reflexivity | exact Hall].
Qed.






(** ** Acknowledgment flags *)

Lemma ack_le_refl (r : Audit.row) : ack_le r r.
Proof. unfold ack_le. tauto. Qed.

Lemma ack_kept_same (s : Store) (u d : string) (r : Audit.row) :
  record_of s u d = Some r -> ack_kept r (record_of s u d).
Proof. intros H. exists r. split; [exact H | apply ack_le_refl]. Qed.

Lemma pair_neq_of_record (s : Store) (u d u' d' : string) (r : Audit.row) :
  record_of s u d = Some r -> Audit.id r <> None ->
  valid_record (record_of s u' d') = false ->
  (u, d) <> (u', d').
Proof.
  intros Hr Hid Hinv [= <- <-]. rewrite Hr in Hinv. simpl in Hinv.
  destruct (Audit.id r); [discriminate | congruence].
Qed.

Lemma record_of_recreated_other (s : Store) (u d u' d' : string)
  (e : option string) :
  (u, d) <> (u', d') ->
  record_of (recreated s u' d' e) u d = record_of s u d.
Proof.
  intros Hne. unfold record_of. rewrite recreated_select_other; [reflexivity|].
  exact Hne.
Qed.

Lemma get_audit_record_store (s : Store) (u d : string) :
  snd (get_audit_record s u d) = s
  \/ (valid_record (record_of s u d) = false
      /\ snd (get_audit_record s u d)
         = recreated s u d (lookup_expected_login_time u s)).
Proof.
  destruct (record_of s u d) as [r|] eqn:Er.
  - destruct (Audit.id r) as [i|] eqn:Ei.
    + left. rewrite (get_audit_record_valid s u d r i Er Ei). reflexivity.
    + right. split; [simpl; rewrite Ei; reflexivity|].
      unfold record_of in Er.
      destruct (select_user_workday u d (audits s)) as [|x rest] eqn:Es;
        [discriminate|].
      injection Er as ->.
      rewrite (get_audit_record_repair s u d r rest Es Ei). reflexivity.
  - left. rewrite (get_audit_record_absent s u d Er). reflexivity.
Qed.

Lemma create_audit_record_store (s : Store) (u d : string) (e : option string) :
  snd (create_audit_record s u d e) = s
  \/ (valid_record (record_of s u d) = false
      /\ snd (create_audit_record s u d e) = recreated s u d e).
Proof.
  destruct (valid_record (record_of s u d)) eqn:Ev.
  - left. unfold valid_record in Ev.
    destruct (record_of s u d) as [r|] eqn:Er; [|discriminate].
    destruct (Audit.id r) as [i|] eqn:Ei; [|discriminate].
    rewrite (create_audit_record_existing s u d e r i Er Ei). reflexivity.
  - destruct (audits_keyed s) eqn:Hk.
    + right. split; [reflexivity|].
      rewrite (create_audit_record_new s u d e Hk Ev). reflexivity.
    + left. rewrite (create_audit_record_keyless s u d e Hk Ev). reflexivity.
Qed.

Lemma record_of_insert_keeps (s : Store) (u d u' d' : string)
  (l o e : option string) (r : Audit.row) :
  record_of s u d = Some r ->
  record_of (snd (insert_audit u' d' l o e s)) u d = Some r.
Proof.
  unfold record_of. rewrite insert_audit_audits, select_app.
  destruct (select_user_workday u d (audits s)); [discriminate|].
  intros H. exact H.
Qed.

Lemma ack_kept_update (s : Store) (i : option Z) (F : Audit.row -> Audit.row)
  (u d : string) (r : Audit.row) :
  (forall x, Audit.user_slack_id (F x) = Audit.user_slack_id x
             /\ Audit.workday (F x) = Audit.workday x) ->
  (forall x, ack_le x (F x)) ->
  record_of s u d = Some r ->
  ack_kept r (record_of (with_audits (update_where_id i F (audits s)) s) u d).
Proof.
  intros Hkey Hle Hr. rewrite record_of_update.
  - rewrite Hr. simpl. eexists. split; [reflexivity|].
    destruct (id_is i r); [apply Hle | apply ack_le_refl].
  - intros x. unfold for_user_workday. destruct (Hkey x) as [-> ->]. reflexivity.
Qed.

Lemma set_field_ack_le (f : field) (r : Audit.row) :
  keeps_acknowledgment f = true -> ack_le r (set_field f r).
Proof.
  unfold ack_le. destruct f; try destruct c; simpl; intros H; repeat split; tauto.
Qed.

Lemma ack_le_trans (a b c : Audit.row) : ack_le a b -> ack_le b c -> ack_le a c.
Proof. unfold ack_le. intros (H1 & H2 & H3) (H4 & H5 & H6). repeat split; [congruence | tauto | tauto]. Qed.

Lemma set_fields_ack_le (kwargs : list field) (r : Audit.row) :
  forallb keeps_acknowledgment kwargs = true -> ack_le r (set_fields kwargs r).
Proof.
  unfold set_fields. revert r.
  induction kwargs as [|f kwargs IH]; intros r H; simpl in *;
    [apply ack_le_refl|].
  apply andb_true_iff in H. destruct H as [Hf H].
  eapply ack_le_trans; [apply set_field_ack_le; exact Hf | apply IH; exact H].
Qed.

Lemma ack_kept_login (s : Store) (u d u' d' t : string) (r : Audit.row) :
  record_of s u d = Some r ->
  ack_kept r (record_of (snd (update_user_login s u' d' t)) u d).
Proof.
  intros Hr. rewrite update_user_login_unfold. cbv zeta.
  match goal with
  | |- context [if ?c then _ else _] => destruct c
  end; cbn [snd]; [|apply ack_kept_same; exact Hr].
  destruct (record_of s u' d') as [r2|].
  - unfold login_written. apply ack_kept_update; [| |exact Hr].
    + intros x. split; reflexivity.
    + intros x. unfold ack_le. simpl. tauto.
  - rewrite (record_of_insert_keeps s u d u' d' _ _ _ r Hr).
    eexists. split; [reflexivity | apply ack_le_refl].
Qed.

Lemma ack_kept_logout (s : Store) (now : datetime) (u d u' : string)
  (r : Audit.row) :
  record_of s u d = Some r ->
  ack_kept r (record_of (snd (record_user_logout s now u')) u d).
Proof.
  intros Hr. rewrite record_user_logout_unfold. cbv zeta.
  match goal with
  | |- context [if ?c then _ else _] => destruct c
  end; cbn [snd]; [|apply ack_kept_same; exact Hr].
  destruct (record_of s u' (strftime_Ymd now)) as [r2|].
  - unfold logout_written. apply ack_kept_update; [| |exact Hr].
    + intros x. split; reflexivity.
    + intros x. unfold ack_le. simpl. tauto.
  - rewrite (record_of_insert_keeps s u d u' _ _ _ _ r Hr).
    eexists. split; [reflexivity | apply ack_le_refl].
Qed.

(** C8.  Let the record read for a user and workday have a valid id.  After
    [get_audit_record], [create_audit_record], [update_user_login],
    [record_user_login] or [record_user_logout] for any user and workday,
    and after [update_audit_record] on any id with fields that assign no
    false value to an acknowledgment flag, the record read for that user and
    workday is still the same record and each acknowledgment flag that was
    set is still set. *)
Theorem acknowledgment_flags_monotonic (s : Store) (u d : string)
  (r : Audit.row) :
  record_of s u d = Some r ->
  Audit.id r <> None ->
  (forall u' d',
      ack_kept r (record_of (snd (get_audit_record s u' d')) u d))
  /\ (forall u' d' e,
         ack_kept r (record_of (snd (create_audit_record s u' d' e)) u d))
  /\ (forall u' d' t,
         ack_kept r (record_of (snd (update_user_login s u' d' t)) u d))
  /\ (forall now u',
         ack_kept r (record_of (snd (record_user_login s now u')) u d))
  /\ (forall now u',
         ack_kept r (record_of (snd (record_user_logout s now u')) u d))
  /\ (forall audit_id kwargs,
         forallb keeps_acknowledgment kwargs = true ->
         ack_kept r (record_of (snd (update_audit_record s audit_id kwargs)) u d)).
Proof.
  intros Hr Hid. repeat split.
  - intros u' d'.
    destruct (get_audit_record_store s u' d') as [->|[Hinv ->]].
    + apply ack_kept_same. exact Hr.
    + rewrite record_of_recreated_other.
      * apply ack_kept_same. exact Hr.
      * eapply pair_neq_of_record; eauto.
  - intros u' d' e.
    destruct (create_audit_record_store s u' d' e) as [->|[Hinv ->]].
    + apply ack_kept_same. exact Hr.
    + rewrite record_of_recreated_other.
      * apply ack_kept_same. exact Hr.
      * eapply pair_neq_of_record; eauto.
  - intros u' d' t. apply ack_kept_login. exact Hr.
  - intros now u'. unfold record_user_login. apply ack_kept_login. exact Hr.
  - intros now u'. apply ack_kept_logout. exact Hr.
  - intros audit_id kwargs Hkeep.
    destruct kwargs as [|f kwargs]; [apply ack_kept_same; exact Hr|].
    rewrite update_audit_record_cases by discriminate.
    destruct audit_id as [i|]; [|apply ack_kept_same; exact Hr].
    destruct (forallb is_column (f :: kwargs) && forallb bindable (f :: kwargs));
      [|apply ack_kept_same; exact Hr].
    destruct (head (select_where_id (Some i) (audits s)));
      [|apply ack_kept_same; exact Hr].
    cbn [snd]. apply ack_kept_update; [| |exact Hr].
    + intros x. destruct (set_fields_keys (f :: kwargs) x) as (_ & -> & ->).
      split; reflexivity.
    + intros x. apply set_fields_ack_le. exact Hkeep.
Qed.

Lemma acknowledgment_flags_monotonic_witness :
  let r := Audit.mk (Some 1) "U1" "2025-01-06" None None (Some 3) (Some 1) (Some 0)
                    (Some 1) (Some 0) (Some "2025-01-06 09:06:00") None
                    (Some "09:00") (Some 0) (Some 0) in
  let s := mkStore [] [r] 1 ∅ in
  record_of s "U1" "2025-01-06" = Some r
  /\ Audit.id r <> None
  /\ ack_kept r (record_of (snd (update_user_login s "U1" "2025-01-06"
                                                   "2025-01-06 09:12"))
                           "U1" "2025-01-06")
  /\ ack_kept r (record_of (snd (update_audit_record s (Some 1)
                                   [kw_second_supervisor_notified (Some 1)]))
                           "U1" "2025-01-06").
Proof.
  pose (r := Audit.mk (Some 1) "U1" "2025-01-06" None None (Some 3) (Some 1) (Some 0)
                      (Some 1) (Some 0) (Some "2025-01-06 09:06:00") None
                      (Some "09:00") (Some 0) (Some 0)).
  pose (s := mkStore [] [r] 1 ∅).
  assert (Hid : Audit.id r <> None) by discriminate.
  pose proof (acknowledgment_flags_monotonic s "U1" "2025-01-06" r eq_refl Hid)
    as (_ & _ & Hlogin & _ & _ & Hupdate).
  split; [reflexivity|]. split; [exact Hid|]. split.
  - apply Hlogin.
  - apply Hupdate. reflexivity.
Defined.

(** The repair actions do reset flags: [fix_stuck_records] clears the
    second supervisor's acknowledgment of a stuck row, and the NULL-id
    branch of [get_audit_record] replaces the row by one with both flags at
    0. *)
Lemma repair_resets_acknowledgment :
  let stuck := Audit.mk (Some 1) "U1" "2025-01-06" None None (Some 3) (Some 1)
                        (Some 0) (Some 0) (Some 1) (Some "2025-01-06 09:06:00")
                        None (Some "09:00") (Some 0) (Some 0) in
  let corrupt := Audit.mk None "U2" "2025-01-06" None None (Some 3) (Some 1)
                          (Some 0) (Some 1) (Some 0) None None None (Some 0)
                          (Some 0) in
  let s := mkStoreOn false [] [stuck; corrupt] 1 ∅ in
  let now := mkDatetime 2025 1 6 9 8 0 in
  option_map Audit.is_second_supervisor_acknowledged
    (record_of (snd (fix_stuck_records s now "2025-01-06 09:08:30")) "U1" "2025-01-06")
  = Some (Some 0)
  /\ option_map Audit.is_supervisor_acknowledged
       (record_of (snd (get_audit_record s "U2" "2025-01-06")) "U2" "2025-01-06")
     = Some (Some 0).
Proof. cbv zeta. split; reflexivity. Qed.

(** A record whose id is NULL cannot take a login: the UPDATE matches no
    row, the value read back differs, and the call rolls back. *)
Lemma update_user_login_null_id_rolls_back :
  let corrupt := Audit.mk None "U2" "2025-01-06" None None (Some 0) (Some 0)
                          (Some 0) (Some 0) (Some 0) None None None (Some 0)
                          (Some 0) in
  let s := mkStoreOn false [] [corrupt] 0 ∅ in
  update_user_login s "U2" "2025-01-06" "2025-01-06 09:12" = (false, s).
Proof. reflexivity. Qed.

(** ** The one-row-per-user-and-workday invariant *)

Lemma one_per_empty : one_per_user_workday empty_store.
Proof. intros u d. simpl. lia. Qed.

Lemma one_per_insert (s : Store) (u d : string) (l o e : option string) :
  one_per_user_workday s -> record_of s u d = None ->
  one_per_user_workday (snd (insert_audit u d l o e s)).
Proof.
  intros Hone Hnone u' d'. unfold insert_audit. cbn [snd audits].
  rewrite select_app.
  destruct (decide ((u', d') = (u, d))) as [[= -> ->]|Hne].
  - unfold record_of in Hnone. apply head_filter_none in Hnone.
    unfold select_user_workday at 1. rewrite Hnone.
    rewrite select_single_same. simpl. lia.
  - rewrite select_single_other by exact Hne. rewrite app_nil_r. apply Hone.
Qed.

Lemma one_per_update (s : Store) (i : option Z) (F : Audit.row -> Audit.row) :
  (forall x, Audit.user_slack_id (F x) = Audit.user_slack_id x
             /\ Audit.workday (F x) = Audit.workday x) ->
  one_per_user_workday s ->
  one_per_user_workday (with_audits (update_where_id i F (audits s)) s).
Proof.
  intros Hkey Hone u d. cbn [with_audits audits].
  unfold select_user_workday, update_where_id.
  rewrite filter_map_commute.
  - rewrite List.length_map. apply Hone.
  - intros x. destruct (id_is i x); [|reflexivity].
    unfold for_user_workday. destruct (Hkey x) as [-> ->]. reflexivity.
Qed.

Lemma one_per_recreated (s : Store) (u d : string) (e : option string) :
  one_per_user_workday s -> one_per_user_workday (recreated s u d e).
Proof.
  intros Hone u' d'.
  destruct (decide ((u', d') = (u, d))) as [[= -> ->]|Hne].
  - rewrite recreated_select. simpl. lia.
  - rewrite recreated_select_other by exact Hne. apply Hone.
Qed.

(** Every operation of [database.py] modelled here keeps the invariant. *)
Lemma one_per_user_workday_preserved (s : Store) :
  one_per_user_workday s ->
  (forall u d, one_per_user_workday (snd (get_audit_record s u d)))
  /\ (forall u d e, one_per_user_workday (snd (create_audit_record s u d e)))
  /\ (forall u d t, one_per_user_workday (snd (update_user_login s u d t)))
  /\ (forall now u, one_per_user_workday (snd (record_user_logout s now u)))
  /\ (forall i kwargs, one_per_user_workday (snd (update_audit_record s i kwargs)))
  /\ (forall now stamp, one_per_user_workday (snd (fix_stuck_records s now stamp))).
Proof.
  intros Hone.
  split; [|split; [|split; [|split; [|split]]]].
  - intros u d. destruct (get_audit_record_store s u d) as [->|[_ ->]];
      [exact Hone | apply one_per_recreated; exact Hone].
  - intros u d e. destruct (create_audit_record_store s u d e) as [->|[_ ->]];
      [exact Hone | apply one_per_recreated; exact Hone].
  - intros u d t. rewrite update_user_login_unfold. cbv zeta.
    match goal with
    | |- context [if ?c then _ else _] => destruct c
    end; cbn [snd]; [|exact Hone].
    destruct (record_of s u d) eqn:Er.
    + apply one_per_update; [|exact Hone]. intros x. split; reflexivity.
    + apply one_per_insert; assumption.
  - intros now u. rewrite record_user_logout_unfold. cbv zeta.
    match goal with
    | |- context [if ?c then _ else _] => destruct c
    end; cbn [snd]; [|exact Hone].
    destruct (record_of s u (strftime_Ymd now)) eqn:Er.
    + apply one_per_update; [|exact Hone]. intros x. split; reflexivity.
    + apply one_per_insert; assumption.
  - intros i kwargs. destruct kwargs as [|f kwargs]; [exact Hone|].
    rewrite update_audit_record_cases by discriminate.
    destruct i as [i|]; [|exact Hone].
    destruct (forallb is_column (f :: kwargs) && forallb bindable (f :: kwargs));
      [|exact Hone].
    destruct (head (select_where_id (Some i) (audits s))); [|exact Hone].
    cbn [snd]. apply one_per_update; [|exact Hone].
    intros x. destruct (set_fields_keys (f :: kwargs) x) as (_ & -> & ->).
    split; reflexivity.
  - intros now stamp u d. unfold fix_stuck_records. cbn [snd with_audits audits].
    rewrite fix_loop. unfold select_user_workday.
    rewrite filter_map_commute.
    + rewrite List.length_map. apply Hone.
    + intros x. destruct (existsb _ _); reflexivity.
Qed.

(** On the table with the key, AUTOINCREMENT keeps identifiers valid and
    distinct. *)
Lemma insert_audit_valid_ids (s : Store) (u d : string) (l o e : option string) :
  audits_keyed s = true ->
  List.NoDup (List.map Audit.id (audits s)) ->
  Forall (fun r => Audit.id r <> None) (audits s) ->
  List.NoDup (List.map Audit.id (audits (snd (insert_audit u d l o e s))))
  /\ Forall (fun r => Audit.id r <> None) (audits (snd (insert_audit u d l o e s))).
Proof.
  intros Hk Hnd Hvalid. rewrite insert_audit_audits, Hk. cbn [inserted_row]. split.
  - rewrite List.map_app. cbn [List.map fresh_row Audit.id].
    apply List.NoDup_app; [exact Hnd | repeat constructor; intros [] |].
    intros a Hin [<-|[]].
    apply List.in_map_iff in Hin. destruct Hin as (x & Hx & Hin).
    exact (next_id_fresh (audits s) (audits_seq s) x Hin Hx).
  - apply Forall_app. split; [exact Hvalid|].
    constructor; [discriminate | constructor].
Qed.

(** * Further properties *)

(** ** The token table *)

(** X1.  [store_acknowledgment_token] succeeds exactly when the token is not
    stored yet.  On success the token reads back with the given user and
    tier and [used = 0], and every other token reads as before; on failure
    the store is unchanged, so a stored token is never overwritten. *)
Theorem store_acknowledgment_token_round_trip (s : Store)
  (token u c : string) (tier : bool) :
  let r := store_acknowledgment_token s token u tier c in
  (fst r = true <-> get_acknowledgment_token s token = None)
  /\ (fst r = true ->
      get_acknowledgment_token (snd r) token
      = Some (Token.mk u (if tier then 1 else 0) c 0)
      /\ forall other, other <> token ->
           get_acknowledgment_token (snd r) other = get_acknowledgment_token s other)
  /\ (fst r = false -> snd r = s).
Proof.
  unfold store_acknowledgment_token, get_acknowledgment_token.
  destruct (acknowledgment_tokens s !! token) as [t|] eqn:E; cbn [fst snd].
  - split; [split; discriminate|]. split; [discriminate | reflexivity].
  - split; [split; reflexivity|]. split; [|discriminate].
    intros _. cbn [with_tokens acknowledgment_tokens]. split.
    + apply lookup_insert_eq.
    + intros other Hne. apply lookup_insert_ne. congruence.
Qed.

(** X2.  [mark_token_used] sets [used] to 1 on the row of that token and
    keeps the rest of the row; it creates no row for an unknown token, leaves
    every other token as it was, and marking twice is the same as marking
    once. *)
Theorem mark_token_used_effect (s : Store) (token : string) :
  let s1 := snd (mark_token_used s token) in
  get_acknowledgment_token s1 token
  = option_map (Token.set_used 1) (get_acknowledgment_token s token)
  /\ (forall other, other <> token ->
        get_acknowledgment_token s1 other = get_acknowledgment_token s other)
  /\ snd (mark_token_used s1 token) = s1.
Proof.
  unfold mark_token_used, get_acknowledgment_token.
  cbn [snd with_tokens acknowledgment_tokens users audits audits_seq].
  split; [|split].
  - rewrite lookup_alter. case_decide; [|congruence].
    destruct (acknowledgment_tokens s !! token); reflexivity.
  - intros other Hne. rewrite lookup_alter. case_decide; [congruence|reflexivity].
  - unfold with_tokens. cbn [users audits audits_seq acknowledgment_tokens].
    f_equal. apply map_eq. intros k.
    destruct (decide (token = k)) as [<-|Hne].
    + rewrite !lookup_alter_eq.
      destruct (acknowledgment_tokens s !! token); reflexivity.
    + rewrite !lookup_alter_ne by exact Hne. reflexivity.
Qed.

(** X3.  Once a token has been stored and marked used, storing the same
    token again fails and the token stays used: a used token cannot be
    re-issued. *)
Theorem used_token_cannot_be_reissued (s s1 : Store) (token u c u' c' : string)
  (tier tier' : bool) :
  store_acknowledgment_token s token u tier c = (true, s1) ->
  let s2 := snd (mark_token_used s1 token) in
  store_acknowledgment_token s2 token u' tier' c' = (false, s2)
  /\ get_acknowledgment_token s2 token
     = Some (Token.mk u (if tier then 1 else 0) c 1).
Proof.
  intros Hstore. cbv zeta.
  pose proof (store_acknowledgment_token_lookup s s1 token u c tier Hstore) as Hget.
  assert (H2 : get_acknowledgment_token (snd (mark_token_used s1 token)) token
               = Some (Token.mk u (if tier then 1 else 0) c 1)).
  { unfold mark_token_used, get_acknowledgment_token in *.
    cbn [snd with_tokens acknowledgment_tokens].
    rewrite lookup_alter. case_decide; [|congruence]. rewrite Hget. reflexivity. }
  split; [|exact H2].
  unfold store_acknowledgment_token.
  unfold get_acknowledgment_token in H2. rewrite H2. reflexivity.
Qed.

Lemma used_token_cannot_be_reissued_witness :
  let s1 := snd (store_acknowledgment_token empty_store "tok-1" "U1" false
                                            "2025-01-06 09:08:00") in
  let s2 := snd (mark_token_used s1 "tok-1") in
  store_acknowledgment_token empty_store "tok-1" "U1" false "2025-01-06 09:08:00"
  = (true, s1)
  /\ store_acknowledgment_token s2 "tok-1" "U9" true "2025-01-06 10:00:00" = (false, s2)
  /\ get_acknowledgment_token s2 "tok-1"
     = Some (Token.mk "U1" 0 "2025-01-06 09:08:00" 1).
Proof.
  split; [reflexivity|].
  exact (used_token_cannot_be_reissued
           empty_store
           (snd (store_acknowledgment_token empty_store "tok-1" "U1" false
                                            "2025-01-06 09:08:00"))
           "tok-1" "U1" "2025-01-06 09:08:00" "U9" "2025-01-06 10:00:00"
           false true eq_refl).
Defined.

(** ** Reading and creating audit records *)

Lemma delete_user_workday_app (u d : string) (l1 l2 : list Audit.row) :
  delete_user_workday u d (l1 ++ l2)
  = delete_user_workday u d l1 ++ delete_user_workday u d l2.
Proof. unfold delete_user_workday. apply List.filter_app. Qed.

Lemma delete_user_workday_idempotent (u d : string) (rows : list Audit.row) :
  delete_user_workday u d (delete_user_workday u d rows)
  = delete_user_workday u d rows.
Proof.
  unfold delete_user_workday.
  induction rows as [|r rows IH]; cbn [List.filter]; [reflexivity|].
  destruct (for_user_workday u d r) eqn:E; cbn [negb]; [exact IH|].
  cbn [List.filter]. rewrite E. cbn [negb]. rewrite IH. reflexivity.
Qed.

(** On the table without the key, deleting and inserting again gives the
    same rows: the row that was inserted is the one that is deleted. *)
Lemma recreated_again_keyless (s : Store) (u d : string) (e : option string) :
  audits_keyed s = false ->
  recreated (recreated s u d e) u d e = recreated s u d e.
Proof.
  intros Hk. unfold recreated at 1. unfold insert_audit.
  cbn [snd with_audits audits_keyed users audits audits_seq acknowledgment_tokens].
  assert (Hk1 : audits_keyed (recreated s u d e) = false) by exact Hk.
  assert (Hdel : delete_user_workday u d (audits (recreated s u d e))
                 = delete_user_workday u d (audits s)).
  { rewrite recreated_audits, delete_user_workday_app,
      delete_user_workday_idempotent.
    unfold delete_user_workday at 2. cbn [List.filter].
    rewrite for_user_workday_inserted. cbn [negb]. apply app_nil_r. }
  rewrite Hk1, Hdel. cbn [inserted_row].
  unfold recreated, insert_audit.
  cbn [snd with_audits audits_keyed users audits audits_seq acknowledgment_tokens].
  rewrite Hk. reflexivity.
Qed.

(** X4.  Whatever the store holds, a second [get_audit_record] for the same
    user and workday returns what the first one returned and leaves the
    rows that the first one left.  On the table without the key a record
    whose id is NULL is never returned: each call deletes the row, inserts
    it again without an id and returns [None]. *)
Theorem get_audit_record_idempotent (s : Store) (u d : string) :
  get_audit_record (snd (get_audit_record s u d)) u d
  = (fst (get_audit_record s u d), snd (get_audit_record s u d))
  /\ (audits_keyed s = false ->
      record_of s u d <> None ->
      valid_record (record_of s u d) = false ->
      fst (get_audit_record s u d) = None
      /\ valid_record (record_of (snd (get_audit_record s u d)) u d) = false
      /\ record_of (snd (get_audit_record s u d)) u d <> None).
Proof.
  destruct (record_of s u d) as [r|] eqn:Er.
  - destruct (Audit.id r) as [i|] eqn:Ei.
    + rewrite (get_audit_record_valid s u d r i Er Ei). cbn [fst snd]. split.
      * apply (get_audit_record_valid s u d r i Er Ei).
      * intros _ _ Hv. cbn [valid_record] in Hv. rewrite Ei in Hv.
        discriminate Hv.
    + unfold record_of in Er.
      destruct (select_user_workday u d (audits s)) as [|x rest] eqn:Es;
        [discriminate|].
      injection Er as ->.
      rewrite (get_audit_record_repair s u d r rest Es Ei). cbn [fst snd].
      pose proof (recreated_select s u d (lookup_expected_login_time u s)) as Hsel.
      destruct (audits_keyed s) eqn:Hk.
      * split; [|discriminate].
        eapply get_audit_record_valid.
        -- unfold record_of. rewrite Hsel. reflexivity.
        -- reflexivity.
      * split.
        -- rewrite (get_audit_record_repair _ u d _ [] Hsel eq_refl).
           assert (Hk1 : audits_keyed (recreated s u d (lookup_expected_login_time u s))
                         = false) by exact Hk.
           rewrite Hk1.
           change (lookup_expected_login_time u
                     (recreated s u d (lookup_expected_login_time u s)))
             with (lookup_expected_login_time u s).
           rewrite (recreated_again_keyless s u d _ Hk). reflexivity.
        -- intros _ _ _. split; [reflexivity|].
           unfold record_of. rewrite Hsel. cbn [head inserted_row valid_record].
           split; [reflexivity | discriminate].
  - rewrite (get_audit_record_absent s u d Er). cbn [fst snd]. split.
    + apply (get_audit_record_absent s u d Er).
    + intros _ H. congruence.
Qed.

(** X5.  When [create_audit_record] returns an identifier, the
    [get_audit_record] that follows returns a record with that identifier
    without writing.  If no record with an identifier existed before, the
    table has the key and the record is the new one: counters and flags 0,
    no login or logout time, the given expected login time. *)
Theorem create_then_get_audit_record (s s1 : Store) (u d : string)
  (e : option string) (i : Z) :
  create_audit_record s u d e = (Returned i, s1) ->
  exists r : Audit.row,
    get_audit_record s1 u d = (Some r, s1)
    /\ Audit.id r = Some i
    /\ (valid_record (record_of s u d) = false ->
        audits_keyed s = true /\ r = fresh_row i u d None None e).
Proof.
  intros Hc.
  destruct (valid_record (record_of s u d)) eqn:Ev.
  - unfold valid_record in Ev.
    destruct (record_of s u d) as [r|] eqn:Er; [|discriminate].
    destruct (Audit.id r) as [j|] eqn:Ei; [|discriminate].
    rewrite (create_audit_record_existing s u d e r j Er Ei) in Hc.
    injection Hc as <- <-.
    exists r. rewrite (get_audit_record_valid s u d r j Er Ei).
    repeat split; [assumption | discriminate | discriminate].
  - destruct (audits_keyed s) eqn:Hk.
    + rewrite (create_audit_record_new s u d e Hk Ev) in Hc.
      injection Hc as <- <-.
      exists (fresh_row (next_id (delete_user_workday u d (audits s)) (audits_seq s))
                        u d None None e).
      split; [|split; [reflexivity | intros _; split; reflexivity]].
      eapply get_audit_record_valid.
      * unfold record_of. rewrite recreated_select, Hk. reflexivity.
      * reflexivity.
    + rewrite (create_audit_record_keyless s u d e Hk Ev) in Hc. discriminate Hc.
Qed.

Lemma create_then_get_audit_record_witness :
  let r := fresh_row 1 "U1" "2025-01-06" None None (Some "09:00") in
  let s1 := mkStore [] [r] 1 ∅ in
  create_audit_record empty_store "U1" "2025-01-06" (Some "09:00") = (Returned 1, s1)
  /\ exists r' : Audit.row,
       get_audit_record s1 "U1" "2025-01-06" = (Some r', s1)
       /\ Audit.id r' = Some 1
       /\ (valid_record (record_of empty_store "U1" "2025-01-06") = false ->
           audits_keyed empty_store = true
           /\ r' = fresh_row 1 "U1" "2025-01-06" None None (Some "09:00")).
Proof.
  split; [reflexivity|].
  exact (create_then_get_audit_record empty_store _ "U1" "2025-01-06"
           (Some "09:00") 1 eq_refl).
Defined.

(** ** Logins, logouts and the missed-login query *)

Lemma record_of_single (s : Store) (u d : string) (v : Audit.row) :
  one_per_user_workday s -> record_of s u d = Some v ->
  select_user_workday u d (audits s) = [v].
Proof.
  intros Hone Hv. specialize (Hone u d). unfold record_of in Hv.
  destruct (select_user_workday u d (audits s)) as [|x [|y l]];
    cbn [head length] in *; [discriminate | congruence | lia].
Qed.

Lemma update_user_login_success (s s' : Store) (u d t : string) :
  update_user_login s u d t = (true, s') ->
  exists v, record_of s' u d = Some v /\ Audit.login_time v = Some t.
Proof.
  rewrite update_user_login_unfold. cbv zeta.
  match goal with
  | |- (if stored_equal (stored_login_time (record_of ?x u d)) t then _ else _) = _
       -> _ => generalize x; intros s1
  end.
  destruct (stored_equal (stored_login_time (record_of s1 u d)) t) eqn:E;
    [|discriminate].
  intros [= <-]. apply stored_equal_true in E.
  destruct (record_of s1 u d) as [v|]; [|discriminate E].
  exists v. split; [reflexivity | exact E].
Qed.

(** X6.  Under the one-row-per-user-and-workday invariant, a user whose
    login was recorded successfully is not returned by
    [get_users_without_login] for the rest of that day. *)
Theorem login_clears_missed_login (s s' : Store) (now later : datetime)
  (u : string) :
  one_per_user_workday s ->
  record_user_login s now u = (true, s') ->
  strftime_Ymd later = strftime_Ymd now ->
  forall x, In x (get_users_without_login s' later) -> User.user_slack_id x <> u.
Proof.
  intros Hone Hlogin Hday x Hx Hu.
  assert (Hone' : one_per_user_workday s').
  { destruct (one_per_user_workday_preserved s Hone) as (_ & _ & H & _).
    specialize (H u (strftime_Ymd now) (strftime_YmdHM now)).
    unfold record_user_login in Hlogin. rewrite Hlogin in H. exact H. }
  unfold record_user_login in Hlogin.
  apply update_user_login_success in Hlogin. destruct Hlogin as (v & Hv & Ht).
  pose proof (record_of_single s' u _ v Hone' Hv) as Hsel.
  apply get_users_without_login_in in Hx. destruct Hx as (_ & _ & Hrec).
  rewrite Hday in Hrec.
  assert (Hvin : In v (select_user_workday u (strftime_Ymd now) (audits s')))
    by (rewrite Hsel; left; reflexivity).
  apply select_in in Hvin. destruct Hvin as (Hin & Hvu & Hvd).
  destruct Hrec as [Hno|Hunset].
  - apply Hno. exists v. rewrite Hu. repeat split; try assumption. congruence.
  - destruct Hunset as (a & Ha & Hau & Had & Hal).
    assert (Hain : In a (select_user_workday u (strftime_Ymd now) (audits s'))).
    { apply select_in. rewrite <- Hu. tauto. }
    rewrite Hsel in Hain. destruct Hain as [<-|[]]. congruence.
Qed.

Lemma login_clears_missed_login_witness :
  let x := User.mk "U1" "Ann" (Some "09:00") (Some "S1") None None None in
  let s := mkStore [x] [] 0 ∅ in
  let now := mkDatetime 2025 1 6 9 8 0 in
  let later := mkDatetime 2025 1 6 9 10 0 in
  In x (get_users_without_login s now)
  /\ one_per_user_workday s
  /\ forall y, In y (get_users_without_login (snd (record_user_login s now "U1")) later) ->
               User.user_slack_id y <> "U1".
Proof.
  pose (x := User.mk "U1" "Ann" (Some "09:00") (Some "S1") None None None).
  pose (s := mkStore [x] [] 0 ∅).
  assert (Hone : one_per_user_workday s) by (intros u d; cbn; lia).
  split; [left; reflexivity|]. split; [exact Hone|].
  exact (login_clears_missed_login s (snd (record_user_login s (mkDatetime 2025 1 6 9 8 0) "U1"))
           (mkDatetime 2025 1 6 9 8 0) (mkDatetime 2025 1 6 9 10 0) "U1"
           Hone eq_refl eq_refl).
Defined.

(** X7.  A logout that arrives before any login (AUTOINCREMENT not being
    exhausted) succeeds and appends the day's record for the user: a row
    with the logout time and without a login time.  The user is therefore
    still reported by [get_users_without_login] once the expected login time
    has passed. *)
Theorem logout_first_keeps_user_listed (s : Store) (now later : datetime)
  (x : User.row) (t : string) :
  record_of s (User.user_slack_id x) (strftime_Ymd now) = None ->
  (audits_keyed s = true -> next_id (audits s) (audits_seq s) <= max_rowid) ->
  In x (users s) ->
  User.user_login_time x = Some t ->
  String.leb t (strftime_HM later) = true ->
  strftime_Ymd later = strftime_Ymd now ->
  let s1 := snd (record_user_logout s now (User.user_slack_id x)) in
  fst (record_user_logout s now (User.user_slack_id x)) = true
  /\ (exists r,
         audits s1 = audits s ++ [r]
         /\ record_of s1 (User.user_slack_id x) (strftime_Ymd now) = Some r
         /\ Audit.user_slack_id r = User.user_slack_id x
         /\ Audit.workday r = strftime_Ymd now
         /\ Audit.login_time r = None
         /\ Audit.logout_time r = Some (strftime_YmdHM now))
  /\ In x (get_users_without_login s1 later).
Proof.
  intros Hnone _ Hin Ht Hle Hday. cbv zeta.
  rewrite record_user_logout_unfold. cbv zeta. rewrite Hnone.
  pose proof (record_of_insert_none s _ _ None (Some (strftime_YmdHM now))
                (lookup_expected_login_time (User.user_slack_id x) s) Hnone) as Hrec.
  rewrite Hrec.
  rewrite (proj2 (stored_times_inserted _ _ _ _ _ _ _)). cbn [stored_equal].
  rewrite String.eqb_refl. cbn [fst snd].
  match type of Hrec with
  | _ = Some (inserted_row ?k ?i ?a ?b ?l ?o ?e) =>
      destruct (inserted_row_columns k i a b l o e)
        as (Hu & Hd & Hl & Ho & _);
      set (r := inserted_row k i a b l o e) in *
  end.
  assert (Hrows : audits (snd (insert_audit (User.user_slack_id x) (strftime_Ymd now)
                                 None (Some (strftime_YmdHM now))
                                 (lookup_expected_login_time (User.user_slack_id x) s)
                                 s))
                  = audits s ++ [r]) by apply insert_audit_audits.
  split; [reflexivity|]. split.
  - exists r. repeat split; assumption.
  - apply get_users_without_login_in. split; [exact Hin|].
    split; [exists t; tauto|].
    right. rewrite Hday. exists r.
    split; [rewrite Hrows; apply List.in_or_app; right; left; reflexivity|].
    repeat split; assumption.
Qed.

Lemma logout_first_keeps_user_listed_witness :
  let x := User.mk "U1" "Ann" (Some "09:00") (Some "S1") None None None in
  let s := mkStore [x] [] 0 ∅ in
  let now := mkDatetime 2025 1 6 8 30 0 in
  let later := mkDatetime 2025 1 6 9 10 0 in
  let s1 := snd (record_user_logout s now "U1") in
  fst (record_user_logout s now "U1") = true
  /\ (exists r,
         audits s1 = audits s ++ [r]
         /\ record_of s1 "U1" (strftime_Ymd now) = Some r
         /\ Audit.user_slack_id r = "U1"
         /\ Audit.workday r = strftime_Ymd now
         /\ Audit.login_time r = None
         /\ Audit.logout_time r = Some (strftime_YmdHM now))
  /\ In x (get_users_without_login s1 later).
Proof.
  apply (logout_first_keeps_user_listed
           (mkStore [User.mk "U1" "Ann" (Some "09:00") (Some "S1") None None None] [] 0 ∅)
           (mkDatetime 2025 1 6 8 30 0) (mkDatetime 2025 1 6 9 10 0)
           (User.mk "U1" "Ann" (Some "09:00") (Some "S1") None None None) "09:00").
  - reflexivity.
  - intros _. vm_compute. discriminate.
  - left. reflexivity.
  - reflexivity.
  - reflexivity.
  - reflexivity.
Defined.

(** X8.  The guard [user_login_time IS NOT NULL] skips users without a
    login time, but a login time stored as the empty text (what the
    dashboard form stores for a blank field) passes it and compares below
    every clock reading: such a user is returned at any time of day unless a
    login is recorded for today. *)
Theorem blank_login_time_always_listed (s : Store) (now : datetime)
  (x : User.row) :
  In x (users s) ->
  (User.user_login_time x = None -> ~ In x (get_users_without_login s now))
  /\ (User.user_login_time x = Some EmptyString ->
      ~ has_login_today s (strftime_Ymd now) x ->
      In x (get_users_without_login s now)).
Proof.
  intros Hin. split.
  - intros Hnull Hx. apply get_users_without_login_in in Hx.
    destruct Hx as (_ & (t & Ht & _) & _). congruence.
  - intros Hblank Hno. apply get_users_without_login_in.
    split; [exact Hin|]. split; [|left; exact Hno].
    exists EmptyString. split; [exact Hblank|].
    unfold String.leb. destruct (strftime_HM now); reflexivity.
Qed.

Lemma blank_login_time_always_listed_witness :
  let x := User.mk "U1" "Ann" (Some EmptyString) (Some "S1") None None None in
  let s := mkStore [x] [] 0 ∅ in
  In x (users s)
  /\ In x (get_users_without_login s (mkDatetime 2025 1 6 0 0 0)).
Proof.
  pose (x := User.mk "U1" "Ann" (Some EmptyString) (Some "S1") None None None).
  pose (s := mkStore [x] [] 0 ∅).
  assert (Hin : In x (users s)) by (left; reflexivity).
  split; [exact Hin|].
  apply (proj2 (blank_login_time_always_listed s (mkDatetime 2025 1 6 0 0 0) x Hin));
    [reflexivity|].
  intros (a & Ha & _). destruct Ha.
Defined.

Lemma record_user_logout_success_valid (s : Store) (now : datetime) (u : string)
  (r : Audit.row) (i : Z) :
  record_of s u (strftime_Ymd now) = Some r -> Audit.id r = Some i ->
  record_user_logout s now u
  = (true, logout_written s r (strftime_YmdHM now))
  /\ record_of (logout_written s r (strftime_YmdHM now)) u (strftime_Ymd now)
     = Some (Audit.set_logout_time (Some (strftime_YmdHM now)) r).
Proof.
  intros Hr Hid.
  assert (Hw : record_of (logout_written s r (strftime_YmdHM now)) u (strftime_Ymd now)
               = Some (Audit.set_logout_time (Some (strftime_YmdHM now)) r)).
  { unfold logout_written. rewrite record_of_update by reflexivity.
    rewrite Hr. cbn [option_map]. rewrite (id_is_refl r i Hid). reflexivity. }
  split; [|exact Hw].
  rewrite record_user_logout_unfold. cbv zeta. rewrite Hr, Hw.
  cbn [stored_equal stored_logout_time Audit.set_logout_time Audit.logout_time].
  rewrite String.eqb_refl. reflexivity.
Qed.

Lemma update_user_login_existing_valid (s : Store) (u d t : string)
  (r : Audit.row) (i : Z) :
  record_of s u d = Some r -> Audit.id r = Some i ->
  update_user_login s u d t = (true, login_written s r t)
  /\ record_of (login_written s r t) u d
     = Some (Audit.set_login_time (Some t) r).
Proof.
  intros Hr Hid.
  assert (Hw : record_of (login_written s r t) u d
               = Some (Audit.set_login_time (Some t) r)).
  { unfold login_written. rewrite record_of_update by reflexivity.
    rewrite Hr. cbn [option_map]. rewrite (id_is_refl r i Hid). reflexivity. }
  split; [|exact Hw].
  rewrite update_user_login_unfold. cbv zeta. rewrite Hr, Hw.
  cbn [stored_equal stored_login_time Audit.set_login_time Audit.login_time].
  rewrite String.eqb_refl. reflexivity.
Qed.

Lemma update_user_login_result (s : Store) (u d t : string) :
  (forall r, record_of s u d = Some r -> Audit.id r <> None) ->
  (record_of s u d = None -> audits_keyed s = true) ->
  exists s1 r1 i,
    update_user_login s u d t = (true, s1)
    /\ record_of s1 u d = Some r1
    /\ Audit.id r1 = Some i
    /\ Audit.login_time r1 = Some t.
Proof.
  intros Hvalid Hkeyed. rewrite update_user_login_unfold. cbv zeta.
  destruct (record_of s u d) as [r|] eqn:Er.
  - destruct (Audit.id r) as [i|] eqn:Ei; [|exfalso; apply (Hvalid r eq_refl Ei)].
    assert (Hw : record_of (login_written s r t) u d
                 = Some (Audit.set_login_time (Some t) r)).
    { unfold login_written. rewrite record_of_update by reflexivity.
      rewrite Er. cbn [option_map]. rewrite (id_is_refl r i Ei). reflexivity. }
    exists (login_written s r t), (Audit.set_login_time (Some t) r), i.
    rewrite Hw.
    cbn [stored_equal stored_login_time Audit.set_login_time Audit.login_time].
    rewrite String.eqb_refl. repeat split. exact Ei.
  - rewrite (record_of_insert_none s u d _ _ _ Er).
    rewrite (proj1 (stored_times_inserted _ _ _ _ _ _ _)). cbn [stored_equal].
    rewrite String.eqb_refl.
    eexists _, _, _. split; [reflexivity|].
    split; [apply (record_of_insert_none s u d _ _ _ Er)|].
    rewrite (Hkeyed eq_refl). split; reflexivity.
Qed.

Lemma update_where_id_null (F : Audit.row -> Audit.row) (rows : list Audit.row) :
  update_where_id None F rows = rows.
Proof. unfold update_where_id. apply List.map_id. Qed.

(** X9.  When the day's record has an identifier, or is absent and the
    table has the key (AUTOINCREMENT not being exhausted), a login followed
    by a logout on the same day both succeed and the record then carries
    both timestamps: the logout does not disturb the login time.  On the
    table without the key a first login still succeeds, but the row it
    inserts has no identifier and the logout that follows is rejected,
    leaving the store as the login left it. *)
Theorem login_then_logout (s : Store) (now later : datetime) (u : string) :
  strftime_Ymd later = strftime_Ymd now ->
  ((forall r, record_of s u (strftime_Ymd now) = Some r -> Audit.id r <> None) ->
   (record_of s u (strftime_Ymd now) = None ->
    audits_keyed s = true /\ next_id (audits s) (audits_seq s) <= max_rowid) ->
   exists s1 s2 r2,
     record_user_login s now u = (true, s1)
     /\ record_user_logout s1 later u = (true, s2)
     /\ record_of s2 u (strftime_Ymd now) = Some r2
     /\ Audit.login_time r2 = Some (strftime_YmdHM now)
     /\ Audit.logout_time r2 = Some (strftime_YmdHM later))
  /\ (record_of s u (strftime_Ymd now) = None ->
      audits_keyed s = false ->
      exists s1 r1,
        record_user_login s now u = (true, s1)
        /\ record_of s1 u (strftime_Ymd now) = Some r1
        /\ Audit.id r1 = None
        /\ record_user_logout s1 later u = (false, s1)).
Proof.
  intros Hday. split.
  - intros Hvalid Hkeyed. unfold record_user_login.
    destruct (update_user_login_result s u (strftime_Ymd now) (strftime_YmdHM now)
                Hvalid (fun H => proj1 (Hkeyed H)))
      as (s1 & r1 & i & Hlogin & Hr1 & Hi & Ht).
    rewrite <- Hday in Hr1.
    destruct (record_user_logout_success_valid s1 later u r1 i Hr1 Hi) as [Hout Hr2].
    exists s1, (logout_written s1 r1 (strftime_YmdHM later)),
           (Audit.set_logout_time (Some (strftime_YmdHM later)) r1).
    split; [exact Hlogin|]. split; [exact Hout|].
    rewrite <- Hday. split; [exact Hr2|]. split; [exact Ht | reflexivity].
  - intros Hnone Hk. unfold record_user_login.
    pose proof (record_of_insert_none s u (strftime_Ymd now)
                  (Some (strftime_YmdHM now)) None
                  (lookup_expected_login_time u s) Hnone) as Hrec.
    rewrite Hk in Hrec. cbn [inserted_row] in Hrec.
    eexists _, _.
    split.
    { rewrite update_user_login_unfold. cbv zeta. rewrite Hnone, Hrec.
      cbn [stored_login_time keyless_row Audit.login_time stored_equal].
      rewrite String.eqb_refl. reflexivity. }
    split; [exact Hrec|]. split; [reflexivity|].
    rewrite record_user_logout_unfold. cbv zeta. rewrite Hday, Hrec.
    unfold logout_written. cbn [keyless_row Audit.id].
    rewrite update_where_id_null.
    match goal with
    | |- context [record_of (with_audits (audits ?s1) ?s1) u _] =>
        change (record_of (with_audits (audits s1) s1) u (strftime_Ymd now))
          with (record_of s1 u (strftime_Ymd now))
    end.
    rewrite Hrec. reflexivity.
Qed.

Lemma login_then_logout_witness :
  let now := mkDatetime 2025 1 6 9 8 0 in
  let later := mkDatetime 2025 1 6 17 30 0 in
  strftime_Ymd later = strftime_Ymd now
  /\ exists s1 s2 r2,
       record_user_login empty_store now "U1" = (true, s1)
       /\ record_user_logout s1 later "U1" = (true, s2)
       /\ record_of s2 "U1" (strftime_Ymd now) = Some r2
       /\ Audit.login_time r2 = Some "2025-01-06 09:08"
       /\ Audit.logout_time r2 = Some "2025-01-06 17:30".
Proof.
  split; [reflexivity|].
  apply (proj1 (login_then_logout empty_store (mkDatetime 2025 1 6 9 8 0)
                                  (mkDatetime 2025 1 6 17 30 0) "U1" eq_refl)).
  - intros r Hr. vm_compute in Hr. discriminate Hr.
  - intros _. split; [reflexivity | vm_compute; discriminate].
Defined.

(** ** The expected-login snapshot *)

Lemma lookup_expected_login_time_get_user (s : Store) (u : string) :
  lookup_expected_login_time u s
  = match get_user s u with
    | Some x => User.user_login_time x
    | None => None
    end.
Proof.
  unfold lookup_expected_login_time, get_user.
  destruct (List.filter _ (users s)); reflexivity.
Qed.

(** X10.  On the table with the key (AUTOINCREMENT not being exhausted),
    the record that a first login creates carries the login time that
    [get_user] reports for the user at that moment; a later login on that
    record succeeds and leaves this snapshot as it is, whatever the [users]
    table says by then. *)
Theorem expected_login_time_snapshot (s : Store) (u d t t' : string)
  (users' : list User.row) :
  record_of s u d = None ->
  audits_keyed s = true ->
  next_id (audits s) (audits_seq s) <= max_rowid ->
  exists s1 r1 s2 r2,
    update_user_login s u d t = (true, s1)
    /\ record_of s1 u d = Some r1
    /\ Audit.expected_login_time r1
       = match get_user s u with
         | Some x => User.user_login_time x
         | None => None
         end
    /\ update_user_login
         (mkStore users' (audits s1) (audits_seq s1) (acknowledgment_tokens s1))
         u d t' = (true, s2)
    /\ record_of s2 u d = Some r2
    /\ Audit.expected_login_time r2 = Audit.expected_login_time r1
    /\ Audit.login_time r2 = Some t'.
Proof.
  intros Hnone Hk _.
  set (r1 := fresh_row (next_id (audits s) (audits_seq s)) u d (Some t) None
                       (lookup_expected_login_time u s)).
  set (s1 := snd (insert_audit u d (Some t) None (lookup_expected_login_time u s) s)).
  assert (Hr1 : record_of s1 u d = Some r1).
  { unfold s1. rewrite (record_of_insert_none s u d _ _ _ Hnone), Hk. reflexivity. }
  assert (H1 : update_user_login s u d t = (true, s1)).
  { rewrite update_user_login_unfold. cbv zeta. rewrite Hnone. fold s1.
    rewrite Hr1. unfold stored_login_time, r1, fresh_row.
    cbn [Audit.login_time stored_equal]. rewrite String.eqb_refl. reflexivity. }
  assert (Hr1' : record_of (mkStore users' (audits s1) (audits_seq s1)
                                    (acknowledgment_tokens s1)) u d = Some r1)
    by exact Hr1.
  destruct (update_user_login_existing_valid
              (mkStore users' (audits s1) (audits_seq s1) (acknowledgment_tokens s1))
              u d t' r1 (next_id (audits s) (audits_seq s)) Hr1' eq_refl)
    as [H2 Hw].
  exists s1, r1,
         (login_written (mkStore users' (audits s1) (audits_seq s1)
                                 (acknowledgment_tokens s1)) r1 t'),
         (Audit.set_login_time (Some t') r1).
  split; [exact H1|]. split; [exact Hr1|].
  split; [apply lookup_expected_login_time_get_user|].
  split; [exact H2|]. split; [exact Hw|]. split; reflexivity.
Qed.

Lemma expected_login_time_snapshot_witness :
  let x := User.mk "U1" "Ann" (Some "09:00") (Some "S1") None None None in
  let x' := User.mk "U1" "Ann" (Some "10:30") (Some "S1") None None None in
  let s := mkStore [x] [] 0 ∅ in
  exists s1 r1 s2 r2,
    update_user_login s "U1" "2025-01-06" "2025-01-06 09:08" = (true, s1)
    /\ record_of s1 "U1" "2025-01-06" = Some r1
    /\ Audit.expected_login_time r1 = Some "09:00"
    /\ update_user_login
         (mkStore [x'] (audits s1) (audits_seq s1) (acknowledgment_tokens s1))
         "U1" "2025-01-06" "2025-01-06 09:20" = (true, s2)
    /\ record_of s2 "U1" "2025-01-06" = Some r2
    /\ Audit.expected_login_time r2 = Audit.expected_login_time r1
    /\ Audit.login_time r2 = Some "2025-01-06 09:20".
Proof.
  apply (expected_login_time_snapshot
           (mkStore [User.mk "U1" "Ann" (Some "09:00") (Some "S1") None None None] [] 0 ∅)
           "U1" "2025-01-06" "2025-01-06 09:08" "2025-01-06 09:20"
           [User.mk "U1" "Ann" (Some "10:30") (Some "S1") None None None]
           eq_refl eq_refl).
  vm_compute. discriminate.
Defined.

(** ** Stuck records after the fix *)

Lemma is_stuck_reset_if_stuck (today stamp : string) (r : Audit.row) :
  is_stuck today (reset_if_stuck today stamp r) = is_stuck today r.
Proof.
  unfold reset_if_stuck. destruct (is_stuck today r) eqn:E; [|exact E].
  unfold is_stuck in *. rewrite !andb_true_iff in E.
  destruct E as [[[Hd Hn] H2] Ha].
  unfold reset_stuck.
  cbn [Audit.set_last_supervisor_notification_time
       Audit.set_is_second_supervisor_acknowledged
       Audit.set_second_supervisor_notified
       Audit.workday Audit.supervisor_notified Audit.second_supervisor_notified
       Audit.is_supervisor_acknowledged].
  rewrite Hd, Hn, Ha. reflexivity.
Qed.

Lemma fix_stuck_records_rows (s : Store) (now : datetime) (stamp : string) :
  List.NoDup (List.map Audit.id (audits s)) ->
  Forall (fun r => Audit.id r <> None) (audits s) ->
  audits (snd (fix_stuck_records s now stamp))
  = List.map (reset_if_stuck (strftime_Ymd now) stamp) (audits s).
Proof.
  intros Hnd Hvalid. unfold fix_stuck_records. cbn [snd with_audits audits].
  rewrite fix_loop. apply List.map_ext_in. intros r Hin.
  unfold reset_if_stuck. rewrite stuck_ids_select by assumption. reflexivity.
Qed.

(** X11.  With valid, distinct identifiers, [fix_stuck_records] does not
    clear the condition that [check_database_integrity] reports: every row
    it rewrites still matches the stuck test, so the reported count is the
    same after the fix and a second run rewrites the same number of rows. *)
Theorem fix_stuck_records_keeps_rows_stuck (s : Store) (now : datetime)
  (stamp stamp' : string) :
  List.NoDup (List.map Audit.id (audits s)) ->
  Forall (fun r => Audit.id r <> None) (audits s) ->
  let s1 := snd (fix_stuck_records s now stamp) in
  check_database_integrity s1 now = check_database_integrity s now
  /\ fst (fix_stuck_records s1 now stamp') = fst (fix_stuck_records s now stamp).
Proof.
  intros Hnd Hvalid s1.
  assert (Hcount : length (List.filter (is_stuck (strftime_Ymd now)) (audits s1))
                   = length (List.filter (is_stuck (strftime_Ymd now)) (audits s))).
  { unfold s1. rewrite (fix_stuck_records_rows s now stamp Hnd Hvalid).
    rewrite filter_map_commute by (intros x; apply is_stuck_reset_if_stuck).
    apply List.length_map. }
  split.
  - unfold check_database_integrity. rewrite Hcount. reflexivity.
  - unfold fix_stuck_records. cbn [fst]. rewrite !List.length_map. exact Hcount.
Qed.

Lemma fix_stuck_records_keeps_rows_stuck_witness :
  let r := Audit.mk (Some 1) "U1" "2025-01-06" None None (Some 3) (Some 1) (Some 0)
                    (Some 0) (Some 0) (Some "2025-01-06 09:06:00") None
                    (Some "09:00") (Some 0) (Some 0) in
  let s := mkStore [] [r] 1 ∅ in
  let now := mkDatetime 2025 1 6 9 8 0 in
  let s1 := snd (fix_stuck_records s now "2025-01-06 09:08:30") in
  check_database_integrity s now = Some 1%nat
  /\ check_database_integrity s1 now = check_database_integrity s now
  /\ fst (fix_stuck_records s1 now "2025-01-06 09:10:30")
     = fst (fix_stuck_records s now "2025-01-06 09:08:30").
Proof.
  pose (r := Audit.mk (Some 1) "U1" "2025-01-06" None None (Some 3) (Some 1) (Some 0)
                      (Some 0) (Some 0) (Some "2025-01-06 09:06:00") None
                      (Some "09:00") (Some 0) (Some 0)).
  pose (s := mkStore [] [r] 1 ∅).
  assert (Hnd : List.NoDup (List.map Audit.id (audits s))).
  { apply NoDup_ListNoDup. apply (bool_decide_unpack _). vm_compute. exact I. }
  assert (Hvalid : Forall (fun x => Audit.id x <> None) (audits s)).
  { repeat constructor. discriminate. }
  split; [reflexivity|].
  exact (fix_stuck_records_keeps_rows_stuck s (mkDatetime 2025 1 6 9 8 0)
           "2025-01-06 09:08:30" "2025-01-06 09:10:30" Hnd Hvalid).
Defined.

(** ** [fix_user_record] *)

(** X12.  [fix_user_record] makes sure a row exists for the user today.  If
    one exists it writes nothing, even when that row has a NULL id;
    otherwise it appends one row with counters and flags 0 and the login
    time that [get_user] reports (on the table without the key, the row that
    such an INSERT leaves there).  Running it again changes nothing. *)
Theorem fix_user_record_ensures_record (s : Store) (now : datetime) (u : string) :
  let s1 := snd (fix_user_record s now u) in
  let today := strftime_Ymd now in
  (forall r, record_of s u today = Some r -> s1 = s)
  /\ (record_of s u today = None ->
      audits_keyed s = true ->
      audits s1
      = audits s
        ++ [fresh_row (next_id (audits s) (audits_seq s)) u today None None
                      (match get_user s u with
                       | Some x => User.user_login_time x
                       | None => None
                       end)])
  /\ (record_of s u today = None ->
      audits_keyed s = false ->
      audits s1
      = audits s
        ++ [keyless_row u today None None
                        (match get_user s u with
                         | Some x => User.user_login_time x
                         | None => None
                         end)])
  /\ record_of s1 u today <> None
  /\ snd (fix_user_record s1 now u) = s1.
Proof.
  cbv zeta.
  assert (Hex : forall s0, record_of s0 u (strftime_Ymd now) <> None ->
                           snd (fix_user_record s0 now u) = s0).
  { intros s0 H0. unfold fix_user_record. unfold record_of in H0.
    destruct (head (select_user_workday u (strftime_Ymd now) (audits s0)));
      [reflexivity | congruence]. }
  assert (Hafter : record_of (snd (fix_user_record s now u)) u (strftime_Ymd now)
                   <> None).
  { destruct (record_of s u (strftime_Ymd now)) as [r|] eqn:Er.
    - rewrite Hex by congruence. congruence.
    - unfold fix_user_record. unfold record_of in Er. rewrite Er. cbn [snd].
      rewrite (record_of_insert_none s u _ _ _ _ Er). discriminate. }
  split; [|split; [|split; [|split]]].
  - intros r Hr. apply Hex. congruence.
  - intros Hnone Hk. unfold fix_user_record. unfold record_of in Hnone.
    rewrite Hnone. cbn [snd]. rewrite insert_audit_audits, Hk.
    rewrite lookup_expected_login_time_get_user. reflexivity.
  - intros Hnone Hk. unfold fix_user_record. unfold record_of in Hnone.
    rewrite Hnone. cbn [snd]. rewrite insert_audit_audits, Hk.
    rewrite lookup_expected_login_time_get_user. reflexivity.
  - exact Hafter.
  - apply Hex. exact Hafter.
Qed.

(** ** The table rebuilt by [manual_fix] *)

Lemma max_id_le (rows : list Audit.row) (b : Z) :
  0 <= b ->
  (forall r i, In r rows -> Audit.id r = Some i -> i <= b) ->
  max_id rows <= b.
Proof.
  intros Hb. induction rows as [|x rows IH]; intros H; cbn [max_id]; [lia|].
  assert (IH' : max_id rows <= b).
  { apply IH. intros r i Hin. apply H. right. exact Hin. }
  destruct (Audit.id x) as [i|] eqn:Ei; [|exact IH'].
  specialize (H x i (or_introl eq_refl) Ei). lia.
Qed.

Lemma ids_upto_bound (n : nat) (i : Z) :
  In (Some i) (ids_upto n) -> 1 <= i <= Z.of_nat n.
Proof.
  unfold ids_upto. rewrite List.in_map_iff. intros (k & [= <-] & Hk).
  apply List.in_seq in Hk. lia.
Qed.

Lemma ids_upto_S (n : nat) :
  ids_upto (S n) = ids_upto n ++ [Some (Z.of_nat n + 1)].
Proof. unfold ids_upto. rewrite List.seq_S, List.map_app. reflexivity. Qed.

Lemma densely_numbered_next (rows : list Audit.row) (counter : Z) :
  densely_numbered rows counter ->
  next_id rows counter = Z.of_nat (length rows) + 1.
Proof.
  intros [-> Hids]. unfold next_id.
  assert (max_id rows <= Z.of_nat (length rows)).
  { apply max_id_le; [lia|]. intros r i Hin Hi.
    apply (ids_upto_bound (length rows) i). rewrite <- Hids, <- Hi.
    apply List.in_map. exact Hin. }
  lia.
Qed.

Lemma densely_numbered_append (rows : list Audit.row) (counter : Z)
  (x : Audit.row) :
  densely_numbered rows counter ->
  Audit.id x = Some (next_id rows counter) ->
  densely_numbered (rows ++ [x]) (next_id rows counter).
Proof.
  intros Hd Hx. pose proof (densely_numbered_next rows counter Hd) as Hn.
  destruct Hd as [Hc Hids]. unfold densely_numbered.
  rewrite List.length_app. cbn [length]. rewrite Nat.add_1_r.
  split; [lia|].
  rewrite List.map_app, ids_upto_S, Hids. cbn [List.map]. rewrite Hx, Hn.
  reflexivity.
Qed.

Lemma copy_stable_copy (i : Z) (r : Audit.row) : copy_stable (copy_row i r).
Proof. exists i. reflexivity. Qed.

Lemma copy_stable_fresh (i : Z) (u d : string) (l o e : option string) :
  copy_stable (fresh_row i u d l o e).
Proof. exists i. reflexivity. Qed.

Lemma insert_copy_fold_dense (src : list Audit.row) (tbl : list Audit.row * Z) :
  densely_numbered (fst tbl) (snd tbl) -> Forall copy_stable (fst tbl) ->
  densely_numbered (fst (fold_left insert_copy src tbl))
                   (snd (fold_left insert_copy src tbl))
  /\ Forall copy_stable (fst (fold_left insert_copy src tbl)).
Proof.
  revert tbl. induction src as [|a src IH]; intros tbl Hd Hs; cbn [fold_left].
  - split; assumption.
  - apply IH; unfold insert_copy; cbn [fst snd].
    + apply densely_numbered_append; [exact Hd | reflexivity].
    + apply Forall_app. split; [exact Hs|].
      constructor; [apply copy_stable_copy | constructor].
Qed.

Lemma densely_numbered_nil : densely_numbered [] 0.
Proof. split; reflexivity. Qed.

Lemma fix_user_record_keyed (s : Store) (now : datetime) (u : string) :
  audits_keyed (snd (fix_user_record s now u)) = audits_keyed s.
Proof.
  unfold fix_user_record.
  destruct (head (select_user_workday u (strftime_Ymd now) (audits s)));
    reflexivity.
Qed.

Lemma fix_user_record_dense (s : Store) (now : datetime) (u : string) :
  audits_keyed s = true ->
  densely_numbered (audits s) (audits_seq s) -> Forall copy_stable (audits s) ->
  densely_numbered (audits (snd (fix_user_record s now u)))
                   (audits_seq (snd (fix_user_record s now u)))
  /\ Forall copy_stable (audits (snd (fix_user_record s now u))).
Proof.
  intros Hk Hd Hs. unfold fix_user_record.
  destruct (head (select_user_workday u (strftime_Ymd now) (audits s)));
    cbn [snd]; [split; assumption|].
  unfold insert_audit. cbn [snd audits audits_seq]. rewrite Hk.
  cbn [inserted_row]. split.
  - apply densely_numbered_append; [exact Hd | reflexivity].
  - apply Forall_app. split; [exact Hs|].
    constructor; [apply copy_stable_fresh | constructor].
Qed.

Lemma manual_fix_dense (s : Store) (now : datetime) :
  densely_numbered (audits (snd (manual_fix s now)))
                   (audits_seq (snd (manual_fix s now)))
  /\ Forall copy_stable (audits (snd (manual_fix s now))).
Proof.
  unfold manual_fix. cbv zeta.
  match goal with
  | |- context [fold_left insert_copy ?o (fold_left insert_copy ?v ([], 0))] =>
      destruct (insert_copy_fold_dense v ([], 0) densely_numbered_nil
                                       (List.Forall_nil _)) as [Hd3 Hs3];
      destruct (insert_copy_fold_dense o (fold_left insert_copy v ([], 0)) Hd3 Hs3)
        as [Hd4 Hs4];
      set (step4 := fold_left insert_copy o (fold_left insert_copy v ([], 0))) in *
  end.
  match goal with
  | |- context [fix_user_record ?s1 now ?x] =>
      pose proof (fix_user_record_dense s1 now x eq_refl Hd4 Hs4) as Hfix;
      destruct (fix_user_record s1 now x) as [b s2]
  end.
  exact Hfix.
Qed.

Lemma ids_upto_nodup (n : nat) : List.NoDup (ids_upto n).
Proof.
  unfold ids_upto. apply List.NoDup_map_NoDup_ForallPairs; [|apply List.seq_NoDup].
  intros a b _ _ [= H]. lia.
Qed.

(** X13.  After [manual_fix] the audit rows carry the identifiers 1, 2,
    ..., n in scan order and the AUTOINCREMENT counter is n, whatever
    identifiers the rows had before: identifiers are reassigned, not kept.
    In particular every id is non-NULL and no two rows share one. *)
Theorem manual_fix_renumbers (s : Store) (now : datetime) :
  let s1 := snd (manual_fix s now) in
  List.map Audit.id (audits s1) = ids_upto (length (audits s1))
  /\ audits_seq s1 = Z.of_nat (length (audits s1))
  /\ List.NoDup (List.map Audit.id (audits s1))
  /\ Forall (fun r => Audit.id r <> None) (audits s1).
Proof.
  cbv zeta. destruct (manual_fix_dense s now) as [[Hc Hids] _].
  split; [exact Hids|]. split; [exact Hc|]. split.
  - rewrite Hids. apply ids_upto_nodup.
  - apply List.Forall_forall. intros r Hin Hnone.
    assert (H : In (Audit.id r) (ids_upto (length (audits (snd (manual_fix s now)))))).
    { rewrite <- Hids. apply List.in_map. exact Hin. }
    rewrite Hnone in H. unfold ids_upto in H. apply List.in_map_iff in H.
    destruct H as (k & Hk & _). discriminate Hk.
Qed.

Lemma existsb_false_filter {A : Type} (p : A -> bool) (l : list A) :
  existsb p l = false -> List.filter p l = [].
Proof.
  induction l as [|x l IH]; cbn [existsb List.filter]; [reflexivity|].
  destruct (p x); cbn [orb]; [discriminate | exact IH].
Qed.

Lemma existsb_true_filter {A : Type} (p : A -> bool) (l : list A) :
  existsb p l = true -> List.filter p l <> [].
Proof.
  intros H Hnil. apply filter_nil_existsb in Hnil. congruence.
Qed.

Lemma forall2_nil_iff {A B : Type} (R : A -> B -> Prop) (l : list A) (k : list B) :
  Forall2 R l k -> (l = [] <-> k = []).
Proof. intros H. destruct H; split; congruence. Qed.

Lemma fix_user_record_select_nonempty (s : Store) (now : datetime)
  (x u d : string) :
  select_user_workday u d (audits s) <> [] ->
  select_user_workday u d (audits (snd (fix_user_record s now x)))
  = select_user_workday u d (audits s).
Proof.
  intros Hne. unfold fix_user_record.
  destruct (head (select_user_workday x (strftime_Ymd now) (audits s))) eqn:Eh;
    [reflexivity|].
  unfold insert_audit. cbn [snd audits]. rewrite select_app.
  unfold select_user_workday at 2. cbn [List.filter].
  match goal with
  | |- context [for_user_workday u d ?f] => destruct (for_user_workday u d f) eqn:E
  end; [|apply app_nil_r].
  apply for_user_workday_true in E.
  match type of E with
  | context [inserted_row ?k ?i ?a ?b ?l ?o ?e] =>
      destruct (inserted_row_columns k i a b l o e) as (Hu & Hd & _)
  end.
  rewrite Hu, Hd in E. destruct E as [E1 E2]. subst u d.
  destruct (select_user_workday x (strftime_Ymd now) (audits s));
    [congruence | discriminate Eh].
Qed.

(** X14.  For a user and workday that have rows, the table rebuilt by
    [manual_fix] holds one copy of each of their rows that had an id, and the
    rows without an id are dropped; if none of their rows had an id, every
    one of them is copied, so duplicate corrupt rows stay duplicated.  Each
    copy keeps the times and has NULL counters and flags replaced by 0. *)
Theorem manual_fix_rows_per_user_workday (s : Store) (now : datetime)
  (u d : string) :
  select_user_workday u d (audits s) <> [] ->
  Forall2 (fun r c => exists i, c = copy_row i r)
          (rows_kept_by_rebuild (select_user_workday u d (audits s)))
          (select_user_workday u d (audits (snd (manual_fix s now)))).
Proof.
  intros Hne.
  set (S := select_user_workday u d (audits s)) in *.
  unfold manual_fix. cbv zeta.
  set (step3 := fold_left insert_copy (List.filter has_id (audits s)) ([], 0)).
  destruct (insert_copy_select u d (List.filter has_id (audits s)) ([], 0))
    as (c3 & H3 & F3).
  fold step3 in H3. cbn [fst select_user_workday List.filter app] in H3.
  assert (HV : select_user_workday u d (List.filter has_id (audits s))
               = List.filter has_id S).
  { unfold S, select_user_workday. apply filter_filter_commute. }
  rewrite HV in F3.
  set (orphans := List.filter _ (audits s)).
  assert (HO : select_user_workday u d orphans
               = List.filter
                   (fun a1 => is_null (Audit.id a1)
                              && negb (existsb (for_user_workday u d) (fst step3)))
                   S).
  { unfold orphans, S, select_user_workday. rewrite filter_filter_commute.
    apply List.filter_ext_in. intros a Ha.
    apply List.filter_In in Ha. destruct Ha as [_ Ha].
    apply for_user_workday_true in Ha. destruct Ha as [Hu Hd].
    unfold for_user_workday. rewrite Hu, Hd. reflexivity. }
  destruct (insert_copy_select u d orphans step3) as (c4 & H4 & F4).
  rewrite H3, HO in *.
  assert (Hkept : Forall2 (fun r c => exists i, c = copy_row i r)
                          (rows_kept_by_rebuild S) (c3 ++ c4)).
  { unfold rows_kept_by_rebuild. destruct (existsb has_id S) eqn:Ev.
    - assert (Hc3 : c3 <> []).
      { intros Hnil. apply (existsb_true_filter _ _ Ev).
        apply (forall2_nil_iff _ _ _ F3). exact Hnil. }
      assert (Hex : existsb (for_user_workday u d) (fst step3) = true).
      { destruct (existsb (for_user_workday u d) (fst step3)) eqn:Ex;
          [reflexivity|].
        apply existsb_false_filter in Ex. unfold select_user_workday in H3.
        congruence. }
      rewrite Hex in F4.
      assert (Hnil : List.filter (fun a1 => is_null (Audit.id a1) && negb true) S = []).
      { apply existsb_false_filter. apply not_true_iff_false. intros Hx.
        apply List.existsb_exists in Hx. destruct Hx as (a & _ & Ha).
        rewrite andb_false_r in Ha. discriminate Ha. }
      rewrite Hnil in F4. apply Forall2_nil_inv_l in F4. rewrite F4.
      rewrite app_nil_r. exact F3.
    - apply existsb_false_filter in Ev as Hnov. rewrite Hnov in F3.
      apply Forall2_nil_inv_l in F3. rewrite F3 in *.
      assert (Hex : existsb (for_user_workday u d) (fst step3) = false).
      { apply filter_nil_existsb. exact H3. }
      rewrite Hex in F4.
      assert (Hall : List.filter (fun a1 => is_null (Audit.id a1) && negb false) S = S).
      { apply List.forallb_filter_id. apply List.forallb_forall. intros a Ha.
        rewrite andb_true_r.
        assert (Hh : has_id a = false).
        { apply not_true_iff_false. intros Hh.
          assert (Hin : In a (List.filter has_id S))
            by (apply List.filter_In; tauto).
          rewrite Hnov in Hin. destruct Hin. }
        unfold has_id in Hh. apply negb_false_iff in Hh. exact Hh. }
      rewrite Hall in F4. exact F4. }
  assert (Hs1 : c3 ++ c4 <> []).
  { intros Hnil. apply (forall2_nil_iff _ _ _ Hkept) in Hnil.
    unfold rows_kept_by_rebuild in Hnil.
    destruct (existsb has_id S) eqn:Ev; [|congruence].
    apply (existsb_true_filter _ _ Ev). exact Hnil. }
  match goal with
  | |- context [fix_user_record ?s1 now ?x] =>
      pose proof (fix_user_record_select_nonempty s1 now x u d) as Hfix;
      cbn [audits mkStore] in Hfix; rewrite H4 in Hfix; specialize (Hfix Hs1);
      destruct (fix_user_record s1 now x) as [b s2]
  end.
  cbn [snd] in *. rewrite Hfix. exact Hkept.
Qed.

Lemma manual_fix_rows_per_user_workday_witness :
  let valid := Audit.mk (Some 7) "U1" "2025-01-06" (Some "2025-01-06 08:55") None
                        (Some 1) None (Some 0) (Some 0) (Some 0) None None
                        (Some "09:00") (Some 0) (Some 0) in
  let corrupt := Audit.mk None "U1" "2025-01-06" None None (Some 3) (Some 1)
                          (Some 0) (Some 0) (Some 0) None None None (Some 0)
                          (Some 0) in
  let s := mkStore [] [corrupt; valid] 7 ∅ in
  let now := mkDatetime 2025 1 6 9 8 0 in
  select_user_workday "U1" "2025-01-06" (audits s) <> []
  /\ rows_kept_by_rebuild (select_user_workday "U1" "2025-01-06" (audits s)) = [valid]
  /\ Forall2 (fun r c => exists i, c = copy_row i r) [valid]
             (select_user_workday "U1" "2025-01-06" (audits (snd (manual_fix s now)))).
Proof.
  pose (valid := Audit.mk (Some 7) "U1" "2025-01-06" (Some "2025-01-06 08:55") None
                          (Some 1) None (Some 0) (Some 0) (Some 0) None None
                          (Some "09:00") (Some 0) (Some 0)).
  pose (corrupt := Audit.mk None "U1" "2025-01-06" None None (Some 3) (Some 1)
                            (Some 0) (Some 0) (Some 0) None None None (Some 0)
                            (Some 0)).
  pose (s := mkStore [] [corrupt; valid] 7 ∅).
  assert (Hne : select_user_workday "U1" "2025-01-06" (audits s) <> [])
    by discriminate.
  split; [exact Hne|]. split; [reflexivity|].
  exact (manual_fix_rows_per_user_workday s (mkDatetime 2025 1 6 9 8 0)
                                          "U1" "2025-01-06" Hne).
Defined.

Lemma manual_fix_snd (s : Store) (now : datetime) :
  snd (manual_fix s now) = snd (fix_user_record (rebuilt s) now "U06081ECKT3").
Proof.
  unfold manual_fix, rebuilt. cbv zeta.
  match goal with
  | |- context [fix_user_record ?s1 now ?x] => destruct (fix_user_record s1 now x)
  end.
  reflexivity.
Qed.

Lemma fix_user_record_noop (s : Store) (now : datetime) (u : string) :
  record_of s u (strftime_Ymd now) <> None -> snd (fix_user_record s now u) = s.
Proof.
  intros H0. unfold fix_user_record. unfold record_of in H0.
  destruct (head (select_user_workday u (strftime_Ymd now) (audits s)));
    [reflexivity | congruence].
Qed.

Lemma fix_user_record_record (s : Store) (now : datetime) (u : string) :
  record_of (snd (fix_user_record s now u)) u (strftime_Ymd now) <> None.
Proof.
  destruct (record_of s u (strftime_Ymd now)) as [r|] eqn:Er.
  - rewrite fix_user_record_noop by congruence. congruence.
  - unfold fix_user_record. unfold record_of in Er. rewrite Er. cbn [snd].
    rewrite (record_of_insert_none s u _ _ _ _ Er). discriminate.
Qed.

Lemma copy_stable_id (a : Audit.row) (i : Z) :
  copy_stable a -> Audit.id a = Some i -> copy_row i a = a.
Proof.
  intros [j Hj] Hi.
  assert (Hid : Audit.id (copy_row j a) = Some j) by reflexivity.
  rewrite Hj, Hi in Hid. injection Hid as ->. exact Hj.
Qed.

Lemma densely_numbered_snoc (R0 : list Audit.row) (a : Audit.row) (c : Z) :
  densely_numbered (R0 ++ [a]) c ->
  densely_numbered R0 (Z.of_nat (length R0))
  /\ Audit.id a = Some (Z.of_nat (length R0) + 1).
Proof.
  intros [_ Hids]. rewrite List.length_app in Hids. cbn [length] in Hids.
  rewrite Nat.add_1_r, ids_upto_S, List.map_app in Hids. cbn [List.map] in Hids.
  apply List.app_inj_tail in Hids. destruct Hids as [H1 H2].
  split; [split; [reflexivity | exact H1] | exact H2].
Qed.

(** Copying a table that is already numbered 1..n and free of NULL counters
    reproduces it. *)
Lemma insert_copy_fold_stable (R : list Audit.row) (c : Z) :
  densely_numbered R c -> Forall copy_stable R ->
  fold_left insert_copy R ([], 0) = (R, Z.of_nat (length R)).
Proof.
  revert c. induction R as [|a R0 IH] using List.rev_ind; intros c Hd Hs.
  - reflexivity.
  - apply densely_numbered_snoc in Hd. destruct Hd as [Hd0 Ha].
    apply Forall_app in Hs. destruct Hs as [Hs0 Hsa].
    rewrite List.fold_left_app. cbn [fold_left].
    rewrite (IH _ Hd0 Hs0). unfold insert_copy. cbn [fst snd].
    rewrite (densely_numbered_next R0 _ Hd0).
    rewrite (copy_stable_id a _ (List.Forall_inv Hsa) Ha).
    rewrite List.length_app. cbn [length]. f_equal. lia.
Qed.

Lemma manual_fix_keyed (s : Store) (now : datetime) :
  audits_keyed (snd (manual_fix s now)) = true.
Proof. rewrite manual_fix_snd. rewrite fix_user_record_keyed. reflexivity. Qed.

Lemma rebuilt_stable (s : Store) :
  audits_keyed s = true ->
  densely_numbered (audits s) (audits_seq s) -> Forall copy_stable (audits s) ->
  rebuilt s = s.
Proof.
  intros Hk Hd Hs.
  assert (Hall : forall a, In a (audits s) -> has_id a = true).
  { intros a Hin. rewrite List.Forall_forall in Hs.
    destruct (Hs a Hin) as [j Hj]. unfold has_id. rewrite <- Hj. reflexivity. }
  assert (Hvalid : List.filter has_id (audits s) = audits s).
  { apply List.forallb_filter_id. apply List.forallb_forall. exact Hall. }
  unfold rebuilt. cbv zeta. rewrite Hvalid.
  rewrite (insert_copy_fold_stable (audits s) _ Hd Hs). cbn [fst].
  match goal with
  | |- context [fold_left insert_copy (List.filter ?p (audits s)) _] =>
      assert (Horph : List.filter p (audits s) = [])
  end.
  { apply existsb_false_filter. apply not_true_iff_false. intros Hx.
    apply List.existsb_exists in Hx. destruct Hx as (a & Hin & Ha).
    apply andb_true_iff in Ha. destruct Ha as [Ha _].
    specialize (Hall a Hin). unfold has_id in Hall. rewrite Ha in Hall.
    discriminate Hall. }
  rewrite Horph. cbn [fold_left fst snd].
  destruct Hd as [Hc _]. rewrite <- Hc. destruct s. cbn in Hk. subst.
  reflexivity.
Qed.

(** X15.  [manual_fix] is idempotent within a day: run on its own result it
    rebuilds the same table, with the same identifiers and the same
    AUTOINCREMENT counter, and adds nothing. *)
Theorem manual_fix_idempotent (s : Store) (now later : datetime) :
  strftime_Ymd later = strftime_Ymd now ->
  snd (manual_fix (snd (manual_fix s now)) later) = snd (manual_fix s now).
Proof.
  intros Hday.
  destruct (manual_fix_dense s now) as [Hd Hs].
  rewrite (manual_fix_snd (snd (manual_fix s now)) later).
  rewrite (rebuilt_stable _ (manual_fix_keyed s now) Hd Hs).
  apply fix_user_record_noop. rewrite Hday.
  rewrite (manual_fix_snd s now). apply fix_user_record_record.
Qed.

Lemma manual_fix_idempotent_witness :
  let corrupt := Audit.mk None "U1" "2025-01-06" None None (Some 3) None
                          (Some 0) (Some 0) (Some 0) None None None (Some 0)
                          (Some 0) in
  let s := mkStore [] [corrupt] 0 ∅ in
  let now := mkDatetime 2025 1 6 9 8 0 in
  let later := mkDatetime 2025 1 6 11 0 0 in
  strftime_Ymd later = strftime_Ymd now
  /\ snd (manual_fix s now) <> s
  /\ snd (manual_fix (snd (manual_fix s now)) later) = snd (manual_fix s now).
Proof.
  split; [reflexivity|]. split.
  - intros H. apply (f_equal audits_seq) in H. vm_compute in H. discriminate H.
  - exact (manual_fix_idempotent
             (mkStore [] [Audit.mk None "U1" "2025-01-06" None None (Some 3) None
                                   (Some 0) (Some 0) (Some 0) None None None (Some 0)
                                   (Some 0)] 0 ∅)
             (mkDatetime 2025 1 6 9 8 0) (mkDatetime 2025 1 6 11 0 0) eq_refl).
Defined.

(** ** Unacknowledged escalations *)

Lemma latest_by_id_in (rows : list Audit.row) (r : Audit.row) :
  latest_by_id rows = Some r -> In r rows.
Proof.
  revert r. induction rows as [|x rows IH]; intros r; cbn [latest_by_id];
    [discriminate|].
  destruct (latest_by_id rows) as [best|].
  - destruct (id_lt (Audit.id x) (Audit.id best)); intros [= <-];
      [right; apply IH; reflexivity | left; reflexivity].
  - intros [= <-]. left. reflexivity.
Qed.

Lemma latest_by_id_none (rows : list Audit.row) :
  latest_by_id rows = None <-> rows = [].
Proof.
  destruct rows as [|x rows]; cbn [latest_by_id]; [tauto|].
  destruct (latest_by_id rows) as [best|];
    [destruct (id_lt (Audit.id x) (Audit.id best))|]; split; discriminate.
Qed.

Lemma id_lt_asym (a b : option Z) : id_lt a b = true -> id_lt b a = false.
Proof.
  destruct a as [x|], b as [y|]; cbn [id_lt]; try reflexivity; try discriminate.
  rewrite Z.ltb_lt, Z.ltb_ge. lia.
Qed.

Lemma id_lt_chain (a b c : option Z) :
  id_lt a b = false -> id_lt b c = false -> id_lt a c = false.
Proof.
  destruct a as [x|], b as [y|], c as [z|]; cbn [id_lt];
    try reflexivity; try discriminate.
  rewrite !Z.ltb_ge. lia.
Qed.

Lemma id_lt_irrefl (a : option Z) : id_lt a a = false.
Proof. destruct a; cbn [id_lt]; [apply Z.ltb_irrefl | reflexivity]. Qed.

Lemma latest_by_id_max (rows : list Audit.row) (r x : Audit.row) :
  latest_by_id rows = Some r -> In x rows ->
  id_lt (Audit.id r) (Audit.id x) = false.
Proof.
  revert r. induction rows as [|y rows IH]; intros r; cbn [latest_by_id];
    [discriminate|].
  destruct (latest_by_id rows) as [best|] eqn:Eb.
  - destruct (id_lt (Audit.id y) (Audit.id best)) eqn:El; intros [= <-] [->|Hin].
    + apply id_lt_asym. exact El.
    + apply IH; [reflexivity | exact Hin].
    + apply id_lt_irrefl.
    + apply (id_lt_chain _ (Audit.id best)); [exact El|].
      apply IH; [reflexivity | exact Hin].
  - apply latest_by_id_none in Eb. subst rows. intros [= <-] [->|[]].
    apply id_lt_irrefl.
Qed.

(** X16.  [find_unacknowledged_audit_record] returns a stored row that
    belongs to a user of the given supervisor (of the requested tier), whose
    tier has been notified and has not acknowledged; no other such row has a
    larger id; and it returns [None] exactly when no row qualifies. *)
Theorem find_unacknowledged_audit_record_latest (s : Store) (supervisor : string)
  (is_secondary : bool) :
  (forall r, find_unacknowledged_audit_record s supervisor is_secondary = Some r ->
     In r (audits s)
     /\ unacknowledged_for s supervisor is_secondary r = true
     /\ forall x, In x (audits s) ->
                  unacknowledged_for s supervisor is_secondary x = true ->
                  id_lt (Audit.id r) (Audit.id x) = false)
  /\ (find_unacknowledged_audit_record s supervisor is_secondary = None <->
      forall x, In x (audits s) ->
                unacknowledged_for s supervisor is_secondary x = false).
Proof.
  unfold find_unacknowledged_audit_record. split.
  - intros r Hr. pose proof (latest_by_id_in _ _ Hr) as Hin.
    apply List.filter_In in Hin. destruct Hin as [Hin Hq].
    split; [exact Hin|]. split; [exact Hq|].
    intros x Hx Hxq. apply (latest_by_id_max _ r x Hr).
    apply List.filter_In. tauto.
  - rewrite latest_by_id_none. split.
    + intros Hnil x Hx. apply not_true_iff_false. intros Hq.
      assert (Hin : In x (List.filter (unacknowledged_for s supervisor is_secondary)
                                      (audits s)))
        by (apply List.filter_In; tauto).
      rewrite Hnil in Hin. destruct Hin.
    + intros Hall. apply existsb_false_filter. apply not_true_iff_false.
      intros Hx. apply List.existsb_exists in Hx. destruct Hx as (x & Hin & Hq).
      rewrite (Hall x Hin) in Hq. discriminate Hq.
Qed.

Lemma unacknowledged_for_acknowledged (s : Store) (supervisor : string)
  (is_secondary : bool) (x : Audit.row) :
  unacknowledged_for s supervisor is_secondary
    (set_fields [acknowledge_field is_secondary] x) = false.
Proof.
  unfold unacknowledged_for, acknowledge_field, set_fields.
  destruct is_secondary; cbn [fold_left set_field];
    cbn [Audit.set_is_second_supervisor_acknowledged
         Audit.set_is_supervisor_acknowledged
         Audit.is_second_supervisor_acknowledged Audit.is_supervisor_acknowledged
         eq0];
    change (1 =? 0) with false; apply andb_false_r.
Qed.

(** X17.  Recording the acknowledgment on the row that
    [find_unacknowledged_audit_record] returned, with [update_audit_record]
    on its id, succeeds, and no row with that id is returned by the search
    any more. *)
Theorem acknowledged_record_not_found_again (s : Store) (supervisor : string)
  (is_secondary : bool) (r : Audit.row) (i : Z) :
  find_unacknowledged_audit_record s supervisor is_secondary = Some r ->
  Audit.id r = Some i ->
  exists s',
    update_audit_record s (Some i) [acknowledge_field is_secondary] = (Some true, s')
    /\ forall r', find_unacknowledged_audit_record s' supervisor is_secondary = Some r' ->
                  Audit.id r' <> Some i.
Proof.
  intros Hfind Hid.
  assert (Hin : In r (audits s)).
  { unfold find_unacknowledged_audit_record in Hfind.
    apply latest_by_id_in, List.filter_In in Hfind. tauto. }
  set (kwargs := [acknowledge_field is_secondary]).
  exists (with_audits (update_where_id (Some i) (set_fields kwargs) (audits s)) s).
  split.
  - rewrite update_audit_record_cases by discriminate.
    assert (Hcol : forallb is_column kwargs && forallb bindable kwargs = true)
      by (unfold kwargs, acknowledge_field; destruct is_secondary; reflexivity).
    rewrite Hcol.
    assert (Hsel : In r (select_where_id (Some i) (audits s))).
    { unfold select_where_id. apply List.filter_In. split; [exact Hin|].
      rewrite <- Hid. apply (id_is_refl r i Hid). }
    destruct (select_where_id (Some i) (audits s)); [destruct Hsel | reflexivity].
  - intros r' Hr' Hid'.
    unfold find_unacknowledged_audit_record in Hr'.
    apply latest_by_id_in, List.filter_In in Hr'. destruct Hr' as [Hin' Hq].
    cbn [with_audits audits] in Hin'. unfold update_where_id in Hin'.
    apply List.in_map_iff in Hin'. destruct Hin' as (x & Hx & _).
    destruct (id_is (Some i) x) eqn:Ex.
    + subst r'.
      change (unacknowledged_for
                (with_audits (update_where_id (Some i) (set_fields kwargs) (audits s)) s)
                supervisor is_secondary (set_fields kwargs x))
        with (unacknowledged_for s supervisor is_secondary (set_fields kwargs x)) in Hq.
      unfold kwargs in Hq. rewrite unacknowledged_for_acknowledged in Hq.
      discriminate Hq.
    + subst r'. unfold id_is in Ex. rewrite Hid' in Ex.
      rewrite Z.eqb_refl in Ex. discriminate Ex.
Qed.

Lemma acknowledged_record_not_found_again_witness :
  let x := User.mk "U1" "Ann" (Some "09:00") (Some "S1") None None None in
  let r := Audit.mk (Some 1) "U1" "2025-01-06" None None (Some 3) (Some 1) (Some 0)
                    (Some 0) (Some 0) (Some "2025-01-06 09:06:00") None
                    (Some "09:00") (Some 0) (Some 0) in
  let s := mkStore [x] [r] 1 ∅ in
  find_unacknowledged_audit_record s "S1" false = Some r
  /\ exists s',
       update_audit_record s (Some 1) [acknowledge_field false] = (Some true, s')
       /\ forall r', find_unacknowledged_audit_record s' "S1" false = Some r' ->
                     Audit.id r' <> Some 1.
Proof.
  split; [reflexivity|].
  exact (acknowledged_record_not_found_again
           (mkStore [User.mk "U1" "Ann" (Some "09:00") (Some "S1") None None None]
                    [Audit.mk (Some 1) "U1" "2025-01-06" None None (Some 3) (Some 1)
                              (Some 0) (Some 0) (Some 0) (Some "2025-01-06 09:06:00")
                              None (Some "09:00") (Some 0) (Some 0)] 1 ∅)
           "S1" false _ 1 eq_refl eq_refl).
Defined.

(** ** What [update_audit_record] leaves alone *)

Lemma forall2_map_same {A : Type} (R : A -> A -> Prop) (g : A -> A) (l : list A) :
  (forall a, In a l -> R a (g a)) -> Forall2 R l (List.map g l).
Proof.
  induction l as [|a l IH]; intros H; cbn [List.map]; constructor.
  - apply H. left. reflexivity.
  - apply IH. intros x Hx. apply H. right. exact Hx.
Qed.

(** X18.  A successful [update_audit_record] keeps the [users] and token
    tables and the number and order of audit rows; rows with another id are
    unchanged, and in the rows with that id every data column that the field
    map does not name keeps its value. *)
Theorem update_audit_record_frame (s s' : Store) (audit_id : option Z)
  (kwargs : list field) :
  update_audit_record s audit_id kwargs = (Some true, s') ->
  users s' = users s
  /\ acknowledgment_tokens s' = acknowledgment_tokens s
  /\ audits_seq s' = audits_seq s
  /\ audits_keyed s' = audits_keyed s
  /\ Forall2 (updated_within audit_id kwargs) (audits s) (audits s').
Proof.
  destruct kwargs as [|f kwargs]; [discriminate|].
  rewrite update_audit_record_cases by discriminate.
  destruct audit_id as [i|]; [|discriminate].
  destruct (forallb is_column (f :: kwargs)) eqn:Hcol; [|discriminate].
  destruct (forallb bindable (f :: kwargs)); [|discriminate]. cbn [andb].
  destruct (head (select_where_id (Some i) (audits s))); [|discriminate].
  intros [= <-].
  cbn [with_audits users acknowledgment_tokens audits_seq audits audits_keyed].
  repeat split.
  unfold update_where_id. apply forall2_map_same. intros a _.
  unfold updated_within. destruct (id_is (Some i) a) eqn:Ea.
  - split; [discriminate|].
    intros g Hg Hnin. apply read_set_fields_absent; assumption.
  - split; reflexivity.
Qed.

Lemma update_audit_record_frame_witness :
  let r := Audit.mk (Some 1) "U1" "2025-01-06" (Some "2025-01-06 08:55") None
                    (Some 3) (Some 1) (Some 0) (Some 0) (Some 0) None None
                    (Some "09:00") (Some 0) (Some 0) in
  let s := mkStore [] [r] 1 ∅ in
  let kwargs := [kw_self_notified (Some 4)] in
  exists s',
    update_audit_record s (Some 1) kwargs = (Some true, s')
    /\ Forall2 (updated_within (Some 1) kwargs) (audits s) (audits s').
Proof.
  eexists. split; [reflexivity|].
  eapply (update_audit_record_frame _ _ (Some 1) [kw_self_notified (Some 4)]).
  reflexivity.
Defined.

(** ** Schema cleanup *)

Lemma mem_string_in (x : string) (l : list string) :
  mem_string x l = true <-> In x l.
Proof.
  unfold mem_string. rewrite List.existsb_exists. split.
  - intros (y & Hy & He). apply String.eqb_eq in He. subst. exact Hy.
  - intros H. exists x. split; [exact H | apply String.eqb_refl].
Qed.

Lemma mem_string_false (x : string) (l : list string) :
  mem_string x l = false <-> ~ In x l.
Proof. rewrite <- mem_string_in. symmetry. apply not_true_iff_false. Qed.

(** The two outcomes of [clean_duplicate_columns]: the table as it was, or
    the bare copy of the columns that are not listed duplicates. *)
Lemma clean_duplicate_columns_cases (table_info : list column_info) :
  clean_duplicate_columns table_info = table_info
  \/ clean_duplicate_columns table_info
     = List.map bare_column
         (List.filter (fun col => negb (mem_string (cname col) duplicate_columns))
                      table_info).
Proof.
  unfold clean_duplicate_columns. cbv zeta.
  set (existing := List.filter _ duplicate_columns).
  assert (Hkept :
    List.filter (fun col => negb (mem_string (cname col) existing)) table_info
    = List.filter (fun col => negb (mem_string (cname col) duplicate_columns))
                  table_info).
  { apply List.filter_ext_in. intros col Hin. f_equal.
    destruct (mem_string (cname col) duplicate_columns) eqn:Ed.
    - apply mem_string_in. unfold existing. apply List.filter_In.
      split; [apply mem_string_in; exact Ed|].
      apply mem_string_in. apply List.in_map. exact Hin.
    - apply mem_string_false. intros Hx. unfold existing in Hx.
      apply List.filter_In in Hx. destruct Hx as [Hx _].
      apply mem_string_in in Hx. congruence. }
  destruct existing; [left; reflexivity|].
  rewrite Hkept.
  destruct (List.filter (fun col => negb (mem_string (cname col) duplicate_columns))
                        table_info) eqn:Ek; [left; reflexivity|].
  match goal with
  | |- context [if ?c then _ else _] => destruct c
  end; [right | left]; reflexivity.
Qed.

Lemma clean_duplicate_columns_clean (table_info : list column_info) :
  (forall d, In d duplicate_columns -> ~ In d (List.map cname table_info)) ->
  clean_duplicate_columns table_info = table_info.
Proof.
  intros Hno. unfold clean_duplicate_columns. cbv zeta.
  match goal with
  | |- match ?e with _ => _ end = _ => assert (He : e = [])
  end.
  { apply existsb_false_filter. apply not_true_iff_false. intros Hx.
    apply List.existsb_exists in Hx. destruct Hx as (d & Hd & Hm).
    apply mem_string_in in Hm. exact (Hno d Hd Hm). }
  rewrite He. reflexivity.
Qed.

Lemma bare_copy_names (table_info : list column_info) (d : string) :
  In d duplicate_columns ->
  ~ In d (List.map cname
            (List.map bare_column
               (List.filter (fun col => negb (mem_string (cname col) duplicate_columns))
                            table_info))).
Proof.
  intros Hd Hin. rewrite List.map_map in Hin. apply List.in_map_iff in Hin.
  destruct Hin as (col & Hname & Hcol). apply List.filter_In in Hcol.
  destruct Hcol as [_ Hcol]. apply negb_true_iff, mem_string_false in Hcol.
  apply Hcol. cbn [bare_column cname] in Hname. rewrite Hname. exact Hd.
Qed.

(** X19.  [clean_duplicate_columns] either leaves the table as it is, or
    rebuilds it: then none of the listed duplicate columns is left, the other
    columns are kept in order with their names and declared types, and no
    column of the rebuilt table carries a primary key, NOT NULL or a
    default.  Running it on its own result changes nothing. *)
Theorem clean_duplicate_columns_effect (table_info : list column_info) :
  let out := clean_duplicate_columns table_info in
  (out = table_info
   \/ ((forall d, In d duplicate_columns -> ~ In d (List.map cname out))
       /\ List.map (fun col => (cname col, ctype col)) out
          = List.map (fun col => (cname col, ctype col))
              (List.filter (fun col => negb (mem_string (cname col) duplicate_columns))
                           table_info)
       /\ Forall (fun col => pk col = 0%nat /\ notnull col = false
                             /\ dflt_value col = None) out))
  /\ ((forall d, In d duplicate_columns -> ~ In d (List.map cname table_info)) ->
      out = table_info)
  /\ clean_duplicate_columns out = out.
Proof.
  cbv zeta. split; [|split].
  - destruct (clean_duplicate_columns_cases table_info) as [H|H];
      [left; exact H | right].
    rewrite H. split; [|split].
    + intros d Hd. apply bare_copy_names. exact Hd.
    + rewrite List.map_map. reflexivity.
    + apply List.Forall_forall. intros col Hin. apply List.in_map_iff in Hin.
      destruct Hin as (c & <- & _). repeat split.
  - apply clean_duplicate_columns_clean.
  - destruct (clean_duplicate_columns_cases table_info) as [H|H].
    + rewrite H. exact H.
    + rewrite H. apply clean_duplicate_columns_clean.
      intros d Hd. apply bare_copy_names. exact Hd.
Qed.

(** X20.  When [clean_duplicate_columns] has rebuilt the table, [check_tables]
    of the repair tool fails on it: the rebuilt [id] column is no primary
    key. *)
Theorem cleanup_breaks_check_tables (table_info : list column_info)
  (file users_table : bool) :
  clean_duplicate_columns table_info <> table_info ->
  check_tables (mkDatabaseFile file users_table
                               (Some (clean_duplicate_columns table_info)))
  = false.
Proof.
  intros Hne.
  destruct (clean_duplicate_columns_cases table_info) as [H|H]; [congruence|].
  unfold check_tables. cbn [file_exists has_users_table audits_table_info].
  destruct file; [|reflexivity]. destruct users_table; [|reflexivity].
  cbn [negb]. cbv zeta.
  match goal with
  | |- match ?m with _ => _ end = _ => destruct m; [|reflexivity]
  end.
  rewrite H. apply not_true_iff_false. intros Hx.
  apply List.existsb_exists in Hx. destruct Hx as (col & Hin & Hpk).
  apply List.in_map_iff in Hin. destruct Hin as (c & <- & _).
  cbn [bare_column pk cname] in Hpk. rewrite andb_false_r in Hpk.
  discriminate Hpk.
Qed.

Lemma cleanup_breaks_check_tables_witness :
  let legacy := audits_schema ++ [mkColumn "supervisor_name" "TEXT" false None 0] in
  check_tables (mkDatabaseFile true true (Some legacy)) = true
  /\ clean_duplicate_columns legacy <> legacy
  /\ check_tables (mkDatabaseFile true true (Some (clean_duplicate_columns legacy)))
     = false.
Proof.
  assert (Hne : clean_duplicate_columns
                  (audits_schema ++ [mkColumn "supervisor_name" "TEXT" false None 0])
                <> audits_schema ++ [mkColumn "supervisor_name" "TEXT" false None 0]).
  { intros H. apply (f_equal (@length column_info)) in H. vm_compute in H.
    discriminate H. }
  split; [reflexivity|]. split; [exact Hne|].
  exact (cleanup_breaks_check_tables _ true true Hne).
Defined.

(** X21.  [clean_duplicate_columns] never drops a column that
    [check_database_integrity] or [check_tables] requires: a name that is not
    a listed duplicate is a column afterwards exactly when it was one before,
    so the list of missing columns is the same before and after. *)
Theorem cleanup_keeps_required_columns (table_info : list column_info) :
  (forall name, ~ In name duplicate_columns ->
     (In name (List.map cname (clean_duplicate_columns table_info))
      <-> In name (List.map cname table_info)))
  /\ (forall name, In name required_columns \/ In name repair_required_columns ->
                   ~ In name duplicate_columns)
  /\ missing_columns (clean_duplicate_columns table_info)
     = missing_columns table_info.
Proof.
  assert (Hnames : forall name, ~ In name duplicate_columns ->
            (In name (List.map cname (clean_duplicate_columns table_info))
             <-> In name (List.map cname table_info))).
  { intros name Hnd.
    destruct (clean_duplicate_columns_cases table_info) as [H|H]; rewrite H;
      [reflexivity|].
    rewrite List.map_map. rewrite !List.in_map_iff. split.
    - intros (col & Hn & Hin). apply List.filter_In in Hin. exists col. tauto.
    - intros (col & Hn & Hin). exists col. split; [exact Hn|].
      apply List.filter_In. split; [exact Hin|].
      apply negb_true_iff, mem_string_false. rewrite Hn. exact Hnd. }
  assert (Hdisjoint : forall name,
            In name required_columns \/ In name repair_required_columns ->
            ~ In name duplicate_columns).
  { intros name Hreq Hdup.
    assert (Hb : forallb (fun n => negb (mem_string n duplicate_columns))
                         (required_columns ++ repair_required_columns) = true)
      by reflexivity.
    rewrite List.forallb_forall in Hb.
    specialize (Hb name). rewrite List.in_app_iff in Hb. specialize (Hb Hreq).
    apply negb_true_iff, mem_string_false in Hb. exact (Hb Hdup). }
  split; [exact Hnames|]. split; [exact Hdisjoint|].
  unfold missing_columns. apply List.filter_ext_in. intros name Hreq. f_equal.
  specialize (Hnames name (Hdisjoint name (or_introl Hreq))).
  destruct (mem_string name (List.map cname table_info)) eqn:E.
  - apply mem_string_in. apply Hnames. apply mem_string_in. exact E.
  - apply mem_string_false. intros Hx. apply Hnames in Hx.
    apply mem_string_in in Hx. congruence.
Qed.

(** ** Frames *)

Lemma same_users_and_tokens_refl (s : Store) : same_users_and_tokens s s.
Proof. split; reflexivity. Qed.

Lemma fix_user_record_same_tables (s : Store) (now : datetime) (u : string) :
  same_users_and_tokens s (snd (fix_user_record s now u)).
Proof.
  unfold fix_user_record.
  destruct (head (select_user_workday u (strftime_Ymd now) (audits s)));
    split; reflexivity.
Qed.

(** X22.  The functions that work on audit records never write to the
    [users] table or to the token table, and the token functions never write
    to [users] or [audits]. *)
Theorem operations_keep_other_tables (s : Store) :
  (forall u d, same_users_and_tokens s (snd (get_audit_record s u d)))
  /\ (forall u d e, same_users_and_tokens s (snd (create_audit_record s u d e)))
  /\ (forall u d t, same_users_and_tokens s (snd (update_user_login s u d t)))
  /\ (forall now u, same_users_and_tokens s (snd (record_user_logout s now u)))
  /\ (forall i kwargs, same_users_and_tokens s (snd (update_audit_record s i kwargs)))
  /\ (forall now stamp, same_users_and_tokens s (snd (fix_stuck_records s now stamp)))
  /\ (forall now u, same_users_and_tokens s (snd (fix_user_record s now u)))
  /\ (forall now, same_users_and_tokens s (snd (manual_fix s now)))
  /\ (forall token u tier c,
         same_users_and_audits s (snd (store_acknowledgment_token s token u tier c)))
  /\ (forall token, same_users_and_audits s (snd (mark_token_used s token))).
Proof.
  split; [|split; [|split; [|split; [|split; [|split; [|split; [|split; [|split]]]]]]]].
  - intros u d. destruct (get_audit_record_store s u d) as [->|[_ ->]];
      split; reflexivity.
  - intros u d e. destruct (create_audit_record_store s u d e) as [->|[_ ->]];
      split; reflexivity.
  - intros u d t. rewrite update_user_login_unfold. cbv zeta.
    match goal with
    | |- context [if ?c then _ else _] => destruct c
    end; cbn [snd]; [|apply same_users_and_tokens_refl].
    destruct (record_of s u d); split; reflexivity.
  - intros now u. rewrite record_user_logout_unfold. cbv zeta.
    match goal with
    | |- context [if ?c then _ else _] => destruct c
    end; cbn [snd]; [|apply same_users_and_tokens_refl].
    destruct (record_of s u (strftime_Ymd now)); split; reflexivity.
  - intros i kwargs. destruct kwargs as [|f kwargs];
      [apply same_users_and_tokens_refl|].
    rewrite update_audit_record_cases by discriminate.
    destruct i as [i|]; [|apply same_users_and_tokens_refl].
    destruct (forallb is_column (f :: kwargs) && forallb bindable (f :: kwargs));
      [|apply same_users_and_tokens_refl].
    destruct (head (select_where_id (Some i) (audits s))); split; reflexivity.
  - intros now stamp. split; reflexivity.
  - intros now u. apply fix_user_record_same_tables.
  - intros now. rewrite manual_fix_snd.
    destruct (fix_user_record_same_tables (rebuilt s) now "U06081ECKT3") as [H1 H2].
    split; [rewrite H1 | rewrite H2]; reflexivity.
  - intros token u tier c. unfold store_acknowledgment_token.
    destruct (acknowledgment_tokens s !! token); repeat split; reflexivity.
  - intros token. repeat split; reflexivity.
Qed.

Lemma forall2_refl_in {A : Type} (R : A -> A -> Prop) (l : list A) :
  (forall a, R a a) -> Forall2 R l l.
Proof. intros H. induction l; constructor; [apply H | assumption]. Qed.

(** X23.  [update_user_login] and [record_user_logout] never delete an audit
    row and never reorder rows; on the rows that existed they change no
    column other than [login_time] (respectively [logout_time]), and they
    add at most one row. *)
Theorem login_logout_keep_other_columns (s : Store) (now : datetime)
  (u d t : string) :
  rows_kept_up_to same_except_login_time s (snd (update_user_login s u d t))
  /\ rows_kept_up_to same_except_logout_time s (snd (record_user_logout s now u)).
Proof.
  split.
  - rewrite update_user_login_unfold. cbv zeta.
    match goal with
    | |- context [if ?c then _ else _] => destruct c
    end; cbn [snd].
    + destruct (record_of s u d) as [r|].
      * exists (audits (login_written s r t)), []. rewrite app_nil_r.
        split; [reflexivity|]. split; [|cbn; lia].
        unfold login_written. cbn [with_audits audits]. unfold update_where_id.
        apply forall2_map_same. intros a _.
        destruct (id_is (Audit.id r) a); reflexivity.
      * unfold insert_audit. cbn [snd audits].
        eexists (audits s), [_]. split; [reflexivity|].
        split; [apply forall2_refl_in; reflexivity | cbn; lia].
    + exists (audits s), []. rewrite app_nil_r. split; [reflexivity|].
      split; [apply forall2_refl_in; reflexivity | cbn; lia].
  - rewrite record_user_logout_unfold. cbv zeta.
    match goal with
    | |- context [if ?c then _ else _] => destruct c
    end; cbn [snd].
    + destruct (record_of s u (strftime_Ymd now)) as [r|].
      * exists (audits (logout_written s r (strftime_YmdHM now))), [].
        rewrite app_nil_r.
        split; [reflexivity|]. split; [|cbn; lia].
        unfold logout_written. cbn [with_audits audits]. unfold update_where_id.
        apply forall2_map_same. intros a _.
        destruct (id_is (Audit.id r) a); reflexivity.
      * unfold insert_audit. cbn [snd audits].
        eexists (audits s), [_]. split; [reflexivity|].
        split; [apply forall2_refl_in; reflexivity | cbn; lia].
    + exists (audits s), []. rewrite app_nil_r. split; [reflexivity|].
      split; [apply forall2_refl_in; reflexivity | cbn; lia].
Qed.

(** ** Detection and fix agree *)

(** X24.  [fix_stuck_records] reports as [fixed_count] the number that
    [check_database_integrity] reports as [stuck_records] (0 when the key is
    absent), and when no row is stuck it leaves the store exactly as it
    was. *)
Theorem fix_count_matches_detection (s : Store) (now : datetime) (stamp : string) :
  fst (fix_stuck_records s now stamp)
  = match check_database_integrity s now with
    | Some n => n
    | None => 0%nat
    end
  /\ (check_database_integrity s now = None ->
      fix_stuck_records s now stamp = (0%nat, s)).
Proof.
  unfold fix_stuck_records, check_database_integrity. cbv zeta. cbn [fst].
  rewrite List.length_map.
  destruct (List.filter (is_stuck (strftime_Ymd now)) (audits s)) as [|x l] eqn:E.
  - split; [reflexivity|]. intros _. cbn [List.map fold_left length].
    destruct s; reflexivity.
  - cbn [length]. change (0 <? S (length l))%nat with true. cbv iota.
    split; [reflexivity | discriminate].
Qed.

(** ** What [get_audit_record] returns *)

(** X25.  [get_audit_record] never hands out a record without an id: a
    returned record has a non-NULL id and belongs to the requested user and
    workday.  The result is [None] exactly when the table has no row for
    them, or the table has no key and the first row for them has a NULL
    id. *)
Theorem get_audit_record_result (s : Store) (u d : string) :
  (forall r, fst (get_audit_record s u d) = Some r ->
             Audit.id r <> None
             /\ Audit.user_slack_id r = u /\ Audit.workday r = d)
  /\ (fst (get_audit_record s u d) = None <->
      record_of s u d = None
      \/ (valid_record (record_of s u d) = false /\ audits_keyed s = false)).
Proof.
  destruct (record_of s u d) as [r0|] eqn:Er.
  - destruct (Audit.id r0) as [i|] eqn:Ei.
    + rewrite (get_audit_record_valid s u d r0 i Er Ei). cbn [fst]. split.
      * intros r [= <-]. split; [congruence|].
        assert (Hin : In r0 (select_user_workday u d (audits s))).
        { unfold record_of in Er.
          destruct (select_user_workday u d (audits s)); [discriminate|].
          injection Er as ->. left. reflexivity. }
        apply select_in in Hin. tauto.
      * cbn [valid_record]. rewrite Ei. cbn [is_null negb].
        split; [discriminate | intros [H|[H _]]; discriminate H].
    + unfold record_of in Er.
      destruct (select_user_workday u d (audits s)) as [|x rest] eqn:Es;
        [discriminate|].
      injection Er as ->.
      rewrite (get_audit_record_repair s u d r0 rest Es Ei). cbn [fst].
      cbn [valid_record]. rewrite Ei. cbn [is_null negb].
      destruct (audits_keyed s); split.
      * intros r [= <-]. repeat split. discriminate.
      * split; [discriminate | intros [H|[_ H]]; discriminate H].
      * intros r H. discriminate H.
      * split; [intros _; right; split; reflexivity | reflexivity].
  - rewrite (get_audit_record_absent s u d Er). cbn [fst]. split.
    + intros r Hr. discriminate Hr.
    + split; [intros _; left; reflexivity | reflexivity].
Qed.



(** ** The missed-login query over the day *)

Lemma string_leb_trans (a b c : string) :
  String.leb a b = true -> String.leb b c = true -> String.leb a c = true.
Proof.
  unfold String.leb.
  assert (H : forall a b c, String.compare a b <> Gt -> String.compare b c <> Gt ->
                            String.compare a c <> Gt).
  { clear. induction a as [|x a IH]; intros [|y b] [|z c]; cbn [String.compare];
      try congruence.
    unfold Ascii.compare.
    destruct (N.compare_spec (N_of_ascii x) (N_of_ascii y));
      destruct (N.compare_spec (N_of_ascii y) (N_of_ascii z));
      destruct (N.compare_spec (N_of_ascii x) (N_of_ascii z));
      intros Hab Hbc; try congruence; try lia.
    apply (IH b c); assumption. }
  intros H1 H2.
  assert (H3 : String.compare a c <> Gt).
  { apply (H a b c).
    - destruct (String.compare a b); congruence.
    - destruct (String.compare b c); congruence. }
  destruct (String.compare a c); congruence.
Qed.

Lemma digit_of_digit_char (k : nat) :
  (k < 10)%nat -> digit_of_ascii (digit_char k) = Some k.
Proof.
  intros Hk. do 10 (destruct k as [|k]; [reflexivity|]). exfalso. lia.
Qed.

(** Reading back what [strftime("%H:%M")] wrote. *)
Lemma minutes_of_strftime_HM (now : datetime) :
  valid_time now -> minutes_of_hhmm (strftime_HM now) = Some (minutes_of_day now).
Proof.
  intros [Hh Hm]. unfold strftime_HM, pad2, minutes_of_day.
  cbv beta iota fix delta [String.append].
  cbv beta iota delta [minutes_of_hhmm].
  rewrite (digit_char_mod (hour now)), (digit_char_mod (minute now)).
  pose proof (Nat.div_mod_eq (hour now) 10) as Eh.
  pose proof (Nat.div_mod_eq (minute now) 10) as Em.
  pose proof (Nat.mod_upper_bound (hour now) 10 ltac:(discriminate)) as Bh.
  pose proof (Nat.mod_upper_bound (minute now) 10 ltac:(discriminate)) as Bm.
  generalize dependent (hour now / 10)%nat. intros p1.
  generalize dependent (hour now mod 10)%nat. intros p2.
  generalize dependent (minute now / 10)%nat. intros q1.
  generalize dependent (minute now mod 10)%nat. intros q2.
  intros.
  rewrite !digit_of_digit_char by lia.
  change (Ascii.eqb ":" ":") with true. cbn [andb].
  assert (H1 : (10 * p1 + p2 <? 24)%nat = true) by (apply Nat.ltb_lt; lia).
  assert (H2 : (10 * q1 + q2 <? 60)%nat = true) by (apply Nat.ltb_lt; lia).
  rewrite H1, H2. cbn [andb]. f_equal. lia.
Qed.

(** X27.  While the store is unchanged, a user returned by
    [get_users_without_login] at some time of day is returned at every later
    time of the same day. *)
Theorem missed_login_persists (s : Store) (now later : datetime) (x : User.row) :
  valid_time now -> valid_time later ->
  strftime_Ymd later = strftime_Ymd now ->
  (minutes_of_day now <= minutes_of_day later)%nat ->
  In x (get_users_without_login s now) ->
  In x (get_users_without_login s later).
Proof.
  intros Hnow Hlater Hday Hle Hx.
  apply get_users_without_login_in in Hx.
  destruct Hx as (Hin & (t & Ht & Hleb) & Hrec).
  apply get_users_without_login_in. split; [exact Hin|]. split.
  - exists t. split; [exact Ht|].
    apply (string_leb_trans t (strftime_HM now)); [exact Hleb|].
    apply (leb_hhmm (strftime_HM now) (minutes_of_day now) later);
      [apply minutes_of_strftime_HM; exact Hnow | exact Hlater | exact Hle].
  - rewrite Hday. exact Hrec.
Qed.

Lemma missed_login_persists_witness :
  let x := User.mk "U1" "Ann" (Some "09:00") (Some "S1") None None None in
  let s := mkStore [x] [] 0 ∅ in
  let now := mkDatetime 2025 1 6 9 8 0 in
  let later := mkDatetime 2025 1 6 14 30 0 in
  In x (get_users_without_login s now)
  /\ In x (get_users_without_login s later).
Proof.
  pose (x := User.mk "U1" "Ann" (Some "09:00") (Some "S1") None None None).
  pose (s := mkStore [x] [] 0 ∅).
  assert (H0 : In x (get_users_without_login s (mkDatetime 2025 1 6 9 8 0)))
    by (left; reflexivity).
  split; [exact H0|].
  apply (missed_login_persists s (mkDatetime 2025 1 6 9 8 0)
                               (mkDatetime 2025 1 6 14 30 0) x).
  - unfold valid_time. cbn. lia.
  - unfold valid_time. cbn. lia.
  - reflexivity.
  - cbn. lia.
  - exact H0.
Defined.
